(** * task_manager: a shallow embedding of [task_manager.py]

    The program keeps two semicolon-delimited text files, [user.txt] and
    [tasks.txt], and talks to its operator through [input] and [print].
    The embedding keeps that shape: Python strings are [string], Python
    ints are [Z], the dictionaries are insertion-ordered association
    lists, exceptions are values of [exn], and everything that reads the
    keyboard, the clock or a file runs in a state-and-exception monad over
    a [world]. *)

From Stdlib Require Import ZArith Floats Ascii String List Bool Lia.
From Stdlib Require Import DecimalString DecimalZ.
Import ListNotations.
Open Scope string_scope.
Open Scope Z_scope.

(** ** Exceptions *)

Inductive exn : Type :=
| ValueError
| IndexError
| KeyError (key : string)
| EOFError
| FileNotFoundError
| ZeroDivisionError
| OverflowError
| UnboundLocalError.

(** Pure code that may raise. *)
Definition E (A : Type) : Type := (exn + A)%type.

Definition okE {A} (a : A) : E A := inr a.
Definition raiseE {A} (e : exn) : E A := inl e.
Definition bindE {A B} (m : E A) (k : A -> E B) : E B :=
  match m with
  | inl e => inl e
  | inr a => k a
  end.

Notation "x <-? m ;; k" := (bindE m (fun x => k))
  (at level 61, m at next level, right associativity).

(** ** Characters and strings *)

Definition LF : ascii := "010"%char.
Definition CR : ascii := "013"%char.
Definition TAB : string := String "009"%char "".
Definition NL : string := String LF "".
Definition ESC : string := String "027"%char "".
Definition SEMI : ascii := ";"%char.

Definition code (c : ascii) : Z := Z.of_nat (nat_of_ascii c).

(** [str.split(sep)] for a one-character separator. *)
Fixpoint split (sep : ascii) (s : string) : list string :=
  match s with
  | EmptyString => [EmptyString]
  | String c r =>
      if Ascii.eqb c sep then EmptyString :: split sep r
      else match split sep r with
           | [] => [String c EmptyString]
           | h :: t => String c h :: t
           end
  end.

(** [sep.join(parts)] *)
Definition join (sep : string) (parts : list string) : string :=
  String.concat sep parts.

Fixpoint contains (c : ascii) (s : string) : bool :=
  match s with
  | EmptyString => false
  | String a r => Ascii.eqb a c || contains c r
  end.

Definition is_empty (s : string) : bool :=
  match s with
  | EmptyString => true
  | _ => false
  end.

(** [str.isspace] on one character, for code points below 256. *)
Definition isspace (c : ascii) : bool :=
  let n := code c in
  ((9 <=? n) && (n <=? 13)) || ((28 <=? n) && (n <=? 32))
  || (n =? 133) || (n =? 160).

Fixpoint lstrip (s : string) : string :=
  match s with
  | String c r => if isspace c then lstrip r else s
  | EmptyString => EmptyString
  end.

Fixpoint rstrip (s : string) : string :=
  match s with
  | EmptyString => EmptyString
  | String c r =>
      match rstrip r with
      | EmptyString => if isspace c then EmptyString else String c EmptyString
      | r' => String c r'
      end
  end.

(** [str.strip()] *)
Definition strip (s : string) : string := rstrip (lstrip s).

(** [str.lower()] on the ASCII letters. *)
Definition lower_char (c : ascii) : ascii :=
  let n := nat_of_ascii c in
  if (Nat.leb 65 n && Nat.leb n 90)%bool then ascii_of_nat (n + 32) else c.

Fixpoint lower (s : string) : string :=
  match s with
  | EmptyString => EmptyString
  | String c r => String (lower_char c) (lower r)
  end.

(** [str(i)] for an int. *)
Definition str (i : Z) : string := NilZero.string_of_int (Z.to_int i).

(** The decimal digit character of [k], [0 <= k < 10]. *)
Definition digit (k : Z) : ascii := ascii_of_nat (48 + Z.to_nat k).

Definition is_digit (c : ascii) : bool := (48 <=? code c) && (code c <=? 57).
Definition digit_val (c : ascii) : Z := code c - 48.

(** What [open(..., 'r')] hands to the program: with the default
    [newline=None] every CR LF pair and every lone CR is read as LF. *)
Fixpoint universal_newlines (s : string) : string :=
  match s with
  | EmptyString => EmptyString
  | String c r =>
      if Ascii.eqb c CR then
        match r with
        | String c' r' =>
            if Ascii.eqb c' LF then universal_newlines r
            else String LF (universal_newlines r)
        | EmptyString => String LF EmptyString
        end
      else String c (universal_newlines r)
  end.

(** [file.readlines()]: the lines of the text, each keeping its LF. *)
Fixpoint readlines_aux (cur : string) (s : string) : list string :=
  match s with
  | EmptyString => if is_empty cur then [] else [cur]
  | String c r =>
      if Ascii.eqb c LF then (cur ++ NL) :: readlines_aux EmptyString r
      else readlines_aux (cur ++ String c EmptyString) r
  end.

Definition readlines (content : string) : list string :=
  readlines_aux EmptyString (universal_newlines content).

(** [seq[i]] on a list. *)
Definition index {A} (l : list A) (i : nat) : E A :=
  match nth_error l i with
  | Some a => okE a
  | None => raiseE IndexError
  end.

(** ** Dates *)

Record date : Type := mkdate { year : Z; month : Z; day : Z }.

(** A [datetime]: a calendar date and the microseconds elapsed since its
    midnight. *)
Record datetime : Type := mkdatetime { dt_date : date; dt_micro : Z }.

Definition is_leap (y : Z) : bool :=
  ((y mod 4 =? 0) && negb (y mod 100 =? 0)) || (y mod 400 =? 0).

Definition days_in_month (y m : Z) : Z :=
  if m =? 2 then (if is_leap y then 29 else 28)
  else if (m =? 4) || (m =? 6) || (m =? 9) || (m =? 11) then 30
  else 31.

(** The dates a Python [date] or [datetime] object can hold. *)
Definition valid_date (d : date) : bool :=
  (1 <=? year d) && (year d <=? 9999) &&
  (1 <=? month d) && (month d <=? 12) &&
  (1 <=? day d) && (day d <=? days_in_month (year d) (month d)).

(** Python compares the fields in order: year, month, day, time. *)
Definition date_compare (a b : date) : comparison :=
  match year a ?= year b with
  | Eq => match month a ?= month b with
          | Eq => day a ?= day b
          | c => c
          end
  | c => c
  end.

Definition datetime_compare (a b : datetime) : comparison :=
  match date_compare (dt_date a) (dt_date b) with
  | Eq => dt_micro a ?= dt_micro b
  | c => c
  end.

Definition datetime_gt (a b : datetime) : bool :=
  match datetime_compare a b with Gt => true | _ => false end.

Definition datetime_le (a b : datetime) : bool :=
  match datetime_compare a b with Gt => false | _ => true end.

(** A date read by [strptime] with [DATETIME_STRING_FORMAT] is a
    [datetime] at 00:00:00. *)
Definition midnight (d : date) : datetime := mkdatetime d 0.

Definition pad2 (n : Z) : string :=
  String (digit (n / 10 mod 10)) (String (digit (n mod 10)) EmptyString).

Definition pad4 (n : Z) : string :=
  String (digit (n / 1000 mod 10))
    (String (digit (n / 100 mod 10))
       (String (digit (n / 10 mod 10))
          (String (digit (n mod 10)) EmptyString))).

(** [d.strftime("%d-%m-%Y")]: CPython hands the format to the C
    library, which pads day and month to two digits and writes the year
    as it is, without padding: the 9th of February 824 is ["09-02-824"]. *)
Definition strftime (d : date) : string :=
  pad2 (day d) ++ "-" ++ pad2 (month d) ++ "-" ++ str (year d).

(** [strptime] turns the format into a regular expression and matches it
    at the start of the text.  Each directive is an alternation, tried
    left to right; the functions below list, in that order, the ways the
    directive can match a prefix, with what is left of the text. *)

(** [%d]: [3[0-1]|[1-2]\d|0[1-9]|[1-9]| [1-9]] *)
Definition day_two (a b : ascii) : option Z :=
  let x := digit_val a in
  let y := digit_val b in
  if negb (is_digit a && is_digit b) then None
  else if (x =? 3) && (y <=? 1) then Some (30 + y)
  else if (1 <=? x) && (x <=? 2) then Some (10 * x + y)
  else if (x =? 0) && (1 <=? y) then Some y
  else None.

Definition nonzero_digit (a : ascii) : option Z :=
  if is_digit a && (1 <=? digit_val a) then Some (digit_val a) else None.

Definition opt_list {A} (o : option A) : list A :=
  match o with
  | Some a => [a]
  | None => []
  end.

Definition re_d (s : string) : list (Z * string) :=
  match s with
  | EmptyString => []
  | String a EmptyString =>
      opt_list (option_map (fun v => (v, EmptyString)) (nonzero_digit a))
  | String a (String b r as r1) =>
      (opt_list (option_map (fun v => (v, r)) (day_two a b))
       ++ opt_list (option_map (fun v => (v, r1)) (nonzero_digit a))
       ++ (if Ascii.eqb a " "%char
           then opt_list (option_map (fun v => (v, r)) (nonzero_digit b))
           else []))%list
  end.

(** [%m]: [1[0-2]|0[1-9]|[1-9]] *)
Definition month_two (a b : ascii) : option Z :=
  let x := digit_val a in
  let y := digit_val b in
  if negb (is_digit a && is_digit b) then None
  else if (x =? 1) && (y <=? 2) then Some (10 + y)
  else if (x =? 0) && (1 <=? y) then Some y
  else None.

Definition re_m (s : string) : list (Z * string) :=
  match s with
  | EmptyString => []
  | String a EmptyString =>
      opt_list (option_map (fun v => (v, EmptyString)) (nonzero_digit a))
  | String a (String b r as r1) =>
      (opt_list (option_map (fun v => (v, r)) (month_two a b))
       ++ opt_list (option_map (fun v => (v, r1)) (nonzero_digit a)))%list
  end.

(** [%Y]: [\d\d\d\d] *)
Definition re_Y (s : string) : option (Z * string) :=
  match s with
  | String a (String b (String c (String d r))) =>
      if is_digit a && is_digit b && is_digit c && is_digit d
      then Some (1000 * digit_val a + 100 * digit_val b
                 + 10 * digit_val c + digit_val d, r)
      else None
  | _ => None
  end.

(** The literal [-] of the format. *)
Definition re_dash (s : string) : option string :=
  match s with
  | String c r => if Ascii.eqb c "-"%char then Some r else None
  | EmptyString => None
  end.

(** The first alternative whose continuation matches. *)
Fixpoint first_match {A B} (k : A -> option B) (alts : list A) : option B :=
  match alts with
  | [] => None
  | a :: rest =>
      match k a with
      | Some b => Some b
      | None => first_match k rest
      end
  end.

Definition match_format (s : string) : option (Z * Z * Z * string) :=
  first_match
    (fun '(d, s1) =>
       match re_dash s1 with
       | None => None
       | Some s2 =>
           first_match
             (fun '(m, s3) =>
                match re_dash s3 with
                | None => None
                | Some s4 =>
                    match re_Y s4 with
                    | Some (y, s5) => Some (d, m, y, s5)
                    | None => None
                    end
                end)
             (re_m s2)
       end)
    (re_d s).

(** [datetime.strptime(s, "%d-%m-%Y")]: [ValueError] when the text does
    not match, when text is left over after the match, and when the
    numbers are not a date of the calendar. *)
Definition strptime (s : string) : E date :=
  match match_format s with
  | None => raiseE ValueError
  | Some (d, m, y, rest) =>
      if negb (is_empty rest) then raiseE ValueError
      else
        let r := mkdate y m d in
        if valid_date r then okE r else raiseE ValueError
  end.

Definition DATETIME_STRING_FORMAT : string := "%d-%m-%Y".

(** ** Dictionaries

    A Python [dict] keeps its keys in insertion order; assigning to a key
    that is present replaces the value where it stands. *)

Definition dict (V : Type) : Type := list (string * V).

Fixpoint dict_get {V} (k : string) (d : dict V) : option V :=
  match d with
  | [] => None
  | (k', v) :: rest => if String.eqb k' k then Some v else dict_get k rest
  end.

Definition dict_mem {V} (k : string) (d : dict V) : bool :=
  match dict_get k d with
  | Some _ => true
  | None => false
  end.

Fixpoint dict_set {V} (k : string) (v : V) (d : dict V) : dict V :=
  match d with
  | [] => [(k, v)]
  | (k', v') :: rest =>
      if String.eqb k' k then (k, v) :: rest else (k', v') :: dict_set k v rest
  end.

Definition dict_keys {V} (d : dict V) : list string := map fst d.

(** [d[k]] *)
Definition dict_item {V} (k : string) (d : dict V) : E V :=
  match dict_get k d with
  | Some v => okE v
  | None => raiseE (KeyError k)
  end.

(** ** The data model *)

(** A task is a dict with the keys [number], [username], [title],
    [description], [due_date], [assigned_date] and [completed];
    [view_my_tasks_option] adds the key [task_number]. *)
Record Task : Type := mktask {
  number : Z;
  username : string;
  title : string;
  description : string;
  due_date : date;
  assigned_date : date;
  completed : bool;
  task_number : option Z
}.

Definition set_task_number (t : Task) (n : Z) : Task :=
  mktask (number t) (username t) (title t) (description t)
         (due_date t) (assigned_date t) (completed t) (Some n).

Definition set_username (t : Task) (u : string) : Task :=
  mktask (number t) u (title t) (description t)
         (due_date t) (assigned_date t) (completed t) (task_number t).

Definition set_due_date (t : Task) (d : date) : Task :=
  mktask (number t) (username t) (title t) (description t)
         d (assigned_date t) (completed t) (task_number t).

Definition set_completed (t : Task) (b : bool) : Task :=
  mktask (number t) (username t) (title t) (description t)
         (due_date t) (assigned_date t) b (task_number t).

(** ** The world

    [user_txt] is the text of [user.txt] ([None]: no such file);
    [tasks_txt] is the text of [tasks.txt]; [stdin] is what the operator
    will type, one line per [input]; [stdout] is what was printed so far;
    [clock] is what [datetime.today()] answers. *)
Record world : Type := mkworld {
  user_txt : option string;
  tasks_txt : option string;
  stdin : list string;
  stdout : list string;
  clock : datetime
}.

Definition M (A : Type) : Type := world -> E A * world.

Definition ret {A} (a : A) : M A := fun w => (inr a, w).
Definition raise {A} (e : exn) : M A := fun w => (inl e, w).
Definition bind {A B} (m : M A) (k : A -> M B) : M B :=
  fun w =>
    match m w with
    | (inl e, w') => (inl e, w')
    | (inr a, w') => k a w'
    end.
Definition lift {A} (m : E A) : M A := fun w => (m, w).

Notation "x <- m ;; k" := (bind m (fun x => k))
  (at level 61, m at next level, right associativity).
Notation "m ;;; k" := (bind m (fun _ => k))
  (at level 61, right associativity).

Definition print (s : string) : M unit :=
  fun w => (inr tt,
            mkworld (user_txt w) (tasks_txt w) (stdin w)
                    (stdout w ++ [s])%list (clock w)).

(** [input(prompt)]: the prompt is written, then one line is read;
    [EOFError] at the end of the input. *)
Definition input (prompt : string) : M string :=
  fun w =>
    let out := (stdout w ++ [prompt])%list in
    match stdin w with
    | [] => (inl EOFError,
             mkworld (user_txt w) (tasks_txt w) [] out (clock w))
    | l :: rest =>
        (inr l, mkworld (user_txt w) (tasks_txt w) rest out (clock w))
    end.

Definition today : M datetime := fun w => (inr (clock w), w).

Definition set_tasks_txt (content : string) : M unit :=
  fun w => (inr tt,
            mkworld (user_txt w) (Some content) (stdin w)
                    (stdout w) (clock w)).

Definition set_user_txt (content : string) : M unit :=
  fun w => (inr tt,
            mkworld (Some content) (tasks_txt w) (stdin w) (stdout w)
                    (clock w)).

Definition red (s : string) : string := ESC ++ "[91m" ++ s ++ ESC ++ "[0m".
Definition green (s : string) : string := ESC ++ "[92m" ++ s ++ ESC ++ "[0m".
Definition yellow (s : string) : string := ESC ++ "[93m" ++ s ++ ESC ++ "[0m".

Definition yes_no (b : bool) : string := if b then "Yes" else "No".

(** ** Credential store *)

Definition create_user_file_if_not_found : M unit :=
  fun w =>
    match user_txt w with
    | Some _ => ret tt w
    | None => set_user_txt "admin;password" w
    end.

(** The loop of [read_users_file]: each line is stripped and must split
    into exactly two fields, or the unpacking raises [ValueError]. *)
Fixpoint users_of_lines (lines : list string) (username_password : dict string)
  : E (dict string) :=
  match lines with
  | [] => okE username_password
  | line :: rest =>
      match split SEMI (strip line) with
      | [username; password] =>
          users_of_lines rest (dict_set username password username_password)
      | _ => raiseE ValueError
      end
  end.

Definition users_of_text (content : string) : E (dict string) :=
  users_of_lines (readlines content) [].

(** [FileNotFoundError] when there is no [user.txt], [ValueError] when a
    line of it is not [username;password]. *)
Definition read_users_file : M (dict string) :=
  fun w =>
    match user_txt w with
    | Some content => lift (users_of_text content) w
    | None => raise FileNotFoundError w
    end.

Definition create_user_pass_dictionary : M (dict string) :=
  username_password <- read_users_file ;;
  ret username_password.

Definition separate_line : M unit :=
  print "*-*-*-*-*-*-*-*-*-*-*-*-*-*-*-*-*-*-*-*-*-*-*-*-*-*-*-*-*-*-".

(** ** Task store *)

Definition read_tasks_file : M (list (list string)) :=
  fun w =>
    match tasks_txt w with
    | Some content =>
        let task_data := split LF (universal_newlines content) in
        ret (map (split SEMI)
                 (filter (fun t => negb (is_empty t)) task_data)) w
    | None => (set_tasks_txt "" ;;; ret []) w
    end.

Fixpoint create_task_list_from (i : Z) (task_data : list (list string))
  : E (list Task) :=
  match task_data with
  | [] => okE []
  | task_components :: rest =>
      u <-? index task_components 1 ;;
      ti <-? index task_components 2 ;;
      de <-? index task_components 3 ;;
      c4 <-? index task_components 4 ;;
      dd <-? strptime c4 ;;
      c5 <-? index task_components 5 ;;
      ad <-? strptime c5 ;;
      c6 <-? index task_components 6 ;;
      let curr_t :=
        mktask i u ti de dd ad (if String.eqb c6 "Yes" then true else false)
               None in
      task_list <-? create_task_list_from (i + 1) rest ;;
      okE (curr_t :: task_list)
  end.

Definition create_task_list (task_data : list (list string)) : E (list Task) :=
  create_task_list_from 1 task_data.

Definition add_new_task_to_task_list (task_list : list Task)
    (task_username task_title task_description : string)
    (due_date_time curr_date : date) : list Task :=
  let task_number := Z.of_nat (length task_list) + 1 in
  let new_task :=
    mktask task_number task_username task_title task_description
           due_date_time curr_date false None in
  (task_list ++ [new_task])%list.

(** One line of [tasks.txt], without its newline. *)
Definition task_record (i : Z) (t : Task) : string :=
  join ";" [str i; username t; title t; description t;
            strftime (due_date t); strftime (assigned_date t);
            yes_no (completed t)].

(** The loop of [write_new_task_to_tasks_file]: the text written, and the
    last value bound to [i], if any. *)
Fixpoint write_tasks_from (i : Z) (task_list : list Task) (last : option Z)
  : string * option Z :=
  match task_list with
  | [] => (EmptyString, last)
  | t :: rest =>
      let (text, last') := write_tasks_from (i + 1) rest (Some i) in
      (task_record i t ++ NL ++ text, last')
  end.

Definition write_new_task_to_tasks_file (task_list : list Task) : M unit :=
  let (text, last) := write_tasks_from 1 task_list None in
  set_tasks_txt text ;;;
  match last with
  | None => raise UnboundLocalError
  | Some i =>
      print (NL ++ green ("Task " ++ str i
                          ++ " successfully added to output file tasks.txt")
             ++ NL)
  end.

(** ** Prompts and validation *)

(** A [while True:] loop whose body either returns ([inr]) or goes round
    again with new loop variables ([inl]).  Every body below reads at
    least one line before it goes round again, so the number of lines
    left on [stdin] bounds the number of rounds; past that bound [input]
    has already raised [EOFError]. *)
Fixpoint loop {S A} (fuel : nat) (body : S -> M (S + A)) (s : S) : M A :=
  r <- body s ;;
  match r with
  | inr a => ret a
  | inl s' =>
      match fuel with
      | O => raise EOFError
      | Datatypes.S fuel' => loop fuel' body s'
      end
  end.

Definition while_true {S A} (body : S -> M (S + A)) (s : S) : M A :=
  fun w => loop (length (stdin w)) body s w.

Definition validate_data_entry (data : string) : M string :=
  while_true
    (fun data =>
       if is_empty data then
         data' <- input "Plese entry valid data: " ;;
         ret (inl data')
       else ret (inr data))
    data.

Definition validate_due_date_input : M date :=
  while_true
    (fun _ : unit =>
       line <- input "Due date of task (DD-MM-YYYY): " ;;
       task_due_date_str <- validate_data_entry line ;;
       match strptime task_due_date_str with
       | inr due_date_time => ret (inr due_date_time)
       | inl ValueError =>
           print (red ("Invalid date format. "
                       ++ "Please enter the date in the format DD-MM-YYYY.")) ;;;
           ret (inl tt)
       | inl e => raise e
       end)
    tt.

Definition validate_if_username_registered (task_username : string)
    (username_password : dict string) : M string :=
  while_true
    (fun task_username =>
       if existsb (String.eqb task_username) (dict_keys username_password)
       then ret (inr task_username)
       else
         print (red "User does not exist.") ;;;
         task_username' <-
           input (red "Please enter a username already registered: ") ;;
         ret (inl task_username'))
    task_username.

(** The white space [int] drops around a number, for code points below
    256: the white space of C (tab to carriage return, and the blank)
    and the two Latin-1 spaces, which [int] turns into blanks first.
    The separators 28 to 31 are white space for [str.strip] but not for
    [int]. *)
Definition int_space (c : ascii) : bool :=
  let n := code c in
  ((9 <=? n) && (n <=? 13)) || (n =? 32) || (n =? 133) || (n =? 160).

Fixpoint int_lstrip (s : string) : string :=
  match s with
  | String c r => if int_space c then int_lstrip r else s
  | EmptyString => EmptyString
  end.

Fixpoint int_rstrip (s : string) : string :=
  match s with
  | EmptyString => EmptyString
  | String c r =>
      match int_rstrip r with
      | EmptyString => if int_space c then EmptyString else String c EmptyString
      | r' => String c r'
      end
  end.

(** The digits of [int(s)]: decimal digits, between which single
    underscores may stand; the value and the number of digits. *)
Fixpoint int_digits (acc count : Z) (after_digit : bool) (s : string)
  : option (Z * Z) :=
  match s with
  | EmptyString => if after_digit then Some (acc, count) else None
  | String c r =>
      if is_digit c then int_digits (10 * acc + digit_val c) (count + 1) true r
      else if Ascii.eqb c "_"%char && after_digit
           then int_digits acc count false r
      else None
  end.

(** [sys.int_info.default_max_str_digits] *)
Definition max_str_digits : Z := 4300.

(** [int(s)] on a string: surrounding white space is dropped, a sign may
    come first, then the digits; [ValueError] for anything else, and for
    more than [max_str_digits] digits. *)
Definition int_of_string (s : string) : E Z :=
  let body := int_rstrip (int_lstrip s) in
  let parsed :=
    match body with
    | String c r =>
        if Ascii.eqb c "-"%char
        then option_map (fun p => (Z.opp (fst p), snd p)) (int_digits 0 0 false r)
        else if Ascii.eqb c "+"%char then int_digits 0 0 false r
        else int_digits 0 0 false body
    | EmptyString => None
    end in
  match parsed with
  | Some (z, count) =>
      if max_str_digits <? count then raiseE ValueError else okE z
  | None => raiseE ValueError
  end.

(** ** Viewing and editing *)

Fixpoint view_my_tasks_loop (curr_user : string) (i : Z)
    (task_list : list Task) (found_tasks : bool)
  : M (list Task * bool) :=
  match task_list with
  | [] => ret ([], found_tasks)
  | task :: rest =>
      if String.eqb (username task) curr_user then
        separate_line ;;;
        print ("Task number:" ++ TAB ++ TAB ++ " " ++ str (number task)) ;;;
        print ("Task assigned to:" ++ TAB ++ " " ++ username task) ;;;
        print ("Task title:" ++ TAB ++ TAB ++ " " ++ title task) ;;;
        print ("Task description:" ++ TAB ++ " " ++ description task) ;;;
        print ("Date assigned:" ++ TAB ++ TAB ++ " "
               ++ strftime (assigned_date task)) ;;;
        print ("Due date:" ++ TAB ++ TAB ++ " " ++ strftime (due_date task)) ;;;
        print ("Completed: " ++ TAB ++ TAB ++ " " ++ yes_no (completed task)) ;;;
        print "" ;;;
        let task' := set_task_number task i in
        r <- view_my_tasks_loop curr_user (i + 1) rest true ;;
        ret (task' :: fst r, snd r)
      else view_my_tasks_loop curr_user (i + 1) rest found_tasks
  end.

Definition view_my_tasks_option (curr_user : string) : M (list Task) :=
  task_data <- read_tasks_file ;;
  task_list <- lift (create_task_list task_data) ;;
  separate_line ;;;
  print (yellow "Your tasks:") ;;;
  separate_line ;;;
  r <- view_my_tasks_loop curr_user 1 task_list false ;;
  let (my_task_list, found_tasks) := r in
  (if negb found_tasks then print (red "No tasks assigned to you.")
   else ret tt) ;;;
  ret my_task_list.

(** The line [update_tasks_file] writes for a task. *)
Definition updated_line (specific_task : Task) : string :=
  str (number specific_task) ++ ";"
  ++ username specific_task ++ ";"
  ++ title specific_task ++ ";"
  ++ description specific_task ++ ";"
  ++ strftime (due_date specific_task) ++ ";"
  ++ strftime (assigned_date specific_task) ++ ";"
  ++ yes_no (completed specific_task) ++ NL.

Fixpoint update_lines (specific_task : Task) (lines : list string)
  : E (list string) :=
  match lines with
  | [] => okE []
  | line :: rest =>
      let parts := split SEMI line in
      p0 <-? index parts 0 ;;
      if String.eqb (strip p0) (str (number specific_task))
      then okE (updated_line specific_task :: rest)
      else
        rest' <-? update_lines specific_task rest ;;
        okE (line :: rest')
  end.

Definition update_tasks_file (specific_task : Task) : M unit :=
  fun w =>
    match tasks_txt w with
    | None => raise FileNotFoundError w
    | Some content =>
        (lines <- lift (update_lines specific_task (readlines content)) ;;
         set_tasks_txt (String.concat "" lines)) w
    end.

Definition eligibility_message : string :=
  red "Task completed or overdue, can't be edited.".

Section Editing.

(** [tabulate(rows, headers=..., tablefmt="grid")] of the third-party
    [tabulate] package, which only renders the menu. *)
Variable tabulate : list (list string) -> list string -> string.

Definition display_edit_or_complete_menu : M unit :=
  let edit_options :=
    [["u"; "Edit username"]; ["d"; "Edit due date"];
     ["c"; "Complete task"]; ["e"; "Exit"]] in
  print (tabulate edit_options ["Opcion"; "Description"]).

(** How one round of the [for] loop of [edit_task_details] ends. *)
Inductive control : Type := Next | Break | Return.

(** The body of the loop for a task whose [task_number] was selected:
    the task as it is afterwards, and how the round ends. *)
Definition edit_selected_task (task : Task) : M (Task * control) :=
  separate_line ;;;
  print (yellow "Task details:") ;;;
  separate_line ;;;
  tn <- lift (match task_number task with
              | Some k => okE k
              | None => raiseE (KeyError "task_number")
              end) ;;
  print ("Task number:" ++ TAB ++ TAB ++ " " ++ str tn) ;;;
  print ("Task assigned to:" ++ TAB ++ " " ++ username task) ;;;
  print ("Title:" ++ TAB ++ TAB ++ TAB ++ " " ++ title task) ;;;
  print ("Description:" ++ TAB ++ TAB ++ " " ++ description task) ;;;
  print ("Due Date:" ++ TAB ++ TAB ++ " " ++ strftime (due_date task)) ;;;
  print ("Assign date:" ++ TAB ++ TAB ++ " "
         ++ strftime (assigned_date task)) ;;;
  print ("Completed:" ++ TAB ++ TAB ++ " " ++ yes_no (completed task)) ;;;
  print "" ;;;
  current_date <- today ;;
  if negb (completed task)
     && datetime_gt (midnight (due_date task)) current_date
  then
    display_edit_or_complete_menu ;;;
    answer <- input ("Please select an option: " ++ NL) ;;
    let field_to_edit := lower answer in
    if String.eqb field_to_edit "u" then
      username_password <- read_users_file ;;
      typed <- input "Enter the new username: " ;;
      new_username <- validate_data_entry typed ;;
      validate_if_username_registered new_username username_password ;;;
      let task' := set_username task new_username in
      print (green "Username successfully updated.") ;;;
      update_tasks_file task' ;;;
      ret (task', Next)
    else if String.eqb field_to_edit "d" then
      new_due_date <- validate_due_date_input ;;
      let task' := set_due_date task new_due_date in
      print (green "Due date successfully updated.") ;;;
      update_tasks_file task' ;;;
      ret (task', Next)
    else if String.eqb field_to_edit "c" then
      typed <- input "To change to completed enter 'Yes': " ;;
      new_completed <- validate_data_entry (lower typed) ;;
      if String.eqb new_completed "yes" then
        let task' := set_completed task true in
        print (green "Complete status successfully updated.") ;;;
        update_tasks_file task' ;;;
        ret (task', Next)
      else
        print (red "No change made.") ;;;
        ret (task, Next)
    else if String.eqb field_to_edit "e" then
      ret (task, Break)
    else
      print (red "Invalid option.") ;;;
      ret (task, Return)
  else
    print eligibility_message ;;;
    ret (task, Break).

(** The [for task in my_task_list] loop: the list as the loop leaves it,
    [task_found], and whether the function returned from inside. *)
Fixpoint edit_task_loop (edit_specific_task : Z) (my_task_list : list Task)
    (task_found : bool) : M (list Task * bool * bool) :=
  match my_task_list with
  | [] => ret ([], task_found, false)
  | task :: rest =>
      tn <- lift (match task_number task with
                  | Some k => okE k
                  | None => raiseE (KeyError "task_number")
                  end) ;;
      if tn =? edit_specific_task then
        r <- edit_selected_task task ;;
        match r with
        | (task', Next) =>
            r' <- edit_task_loop edit_specific_task rest true ;;
            let '(rest', found, returned) := r' in
            ret (task' :: rest', found, returned)
        | (task', Break) => ret (task' :: rest, true, false)
        | (task', Return) => ret (task' :: rest, true, true)
        end
      else
        r' <- edit_task_loop edit_specific_task rest task_found ;;
        let '(rest', found, returned) := r' in
        ret (task :: rest', found, returned)
  end.

Definition edit_task_details (my_task_list : list Task)
    (edit_specific_task : string) : M (list Task) :=
  match int_of_string edit_specific_task with
  | inl ValueError =>
      print (red "Invalid task number.") ;;;
      ret my_task_list
  | inl e => raise e
  | inr n =>
      r <- edit_task_loop n my_task_list false ;;
      let '(my_task_list', task_found, returned) := r in
      if returned then ret my_task_list'
      else
        (if negb task_found then print (red "Invalid task number.")
         else ret tt) ;;;
        ret my_task_list'
  end.

End Editing.

(** ** Numbers of the statistics

    [/] between two ints is a float division and [int] truncates its
    result toward zero; floats are IEEE 754 binary64, as in CPython. *)

Inductive pynum : Type :=
| PyInt (z : Z)
| PyFloat (f : float).

(** [float(z)]: the nearest double. *)
Definition float_of_int (z : Z) : float :=
  SF2Prim (binary_normalize prec emax z 0 false).

(** [a / b] on ints.  Both operands are counts of list elements, far
    below 2^53, where the quotient CPython returns is the IEEE quotient
    of the two converted operands. *)
Definition truediv (a b : Z) : E float :=
  if b =? 0 then raiseE ZeroDivisionError
  else okE (float_of_int a / float_of_int b)%float.

(** [x * 100] *)
Definition times_100 (x : float) : float := (x * float_of_int 100)%float.

(** [int(x)] *)
Definition int (x : pynum) : E Z :=
  match x with
  | PyInt z => okE z
  | PyFloat f =>
      match Prim2SF f with
      | S754_zero _ => okE 0
      | S754_finite s m e =>
          let magnitude :=
            if 0 <=? e then Z.shiftl (Zpos m) e
            else Z.shiftr (Zpos m) (- e) in
          okE (if s then - magnitude else magnitude)
      | S754_infinity _ => raiseE OverflowError
      | S754_nan => raiseE ValueError
      end
  end.

(** The conditional expression [(count / total) * 100 if total > 0 else 0]
    that both statistics functions use for every percentage. *)
Definition percentage (count total : Z) : E pynum :=
  if total >? 0 then
    q <-? truediv count total ;;
    okE (PyFloat (times_100 q))
  else okE (PyInt 0).

(** ** Statistics *)

(** The value kept for each user in [user_stats]. *)
Record user_stat : Type := mkuser_stat {
  total_tasks_assigned : Z;
  total_tasks_completed : Z;
  total_tasks_uncompleted : Z;
  total_tasks_uncompleted_overdue : Z
}.

Definition no_tasks : user_stat := mkuser_stat 0 0 0 0.

Definition add_assigned (s : user_stat) : user_stat :=
  mkuser_stat (total_tasks_assigned s + 1) (total_tasks_completed s)
              (total_tasks_uncompleted s) (total_tasks_uncompleted_overdue s).

Definition add_completed (s : user_stat) : user_stat :=
  mkuser_stat (total_tasks_assigned s) (total_tasks_completed s + 1)
              (total_tasks_uncompleted s) (total_tasks_uncompleted_overdue s).

Definition add_uncompleted (s : user_stat) : user_stat :=
  mkuser_stat (total_tasks_assigned s) (total_tasks_completed s)
              (total_tasks_uncompleted s + 1)
              (total_tasks_uncompleted_overdue s).

Definition add_uncompleted_overdue (s : user_stat) : user_stat :=
  mkuser_stat (total_tasks_assigned s) (total_tasks_completed s)
              (total_tasks_uncompleted s)
              (total_tasks_uncompleted_overdue s + 1).

(** [user_stats[u][key] += 1] *)
Definition increment (u : string) (bump : user_stat -> user_stat)
    (user_stats : dict user_stat) : E (dict user_stat) :=
  s <-? dict_item u user_stats ;;
  okE (dict_set u (bump s) user_stats).

(** The variables the pass over the tasks updates. *)
Record tally : Type := mktally {
  task_list : list Task;
  completed_total : Z;
  uncompleted_total : Z;
  uncompleted_overdue_total : Z;
  user_stats : dict user_stat
}.

(** The figures of the task overview, in the order they are emitted. *)
Record task_overview : Type := mktask_overview {
  total_tasks : Z;
  tasks_completed : Z;
  tasks_uncompleted : Z;
  percent_uncompleted : Z;
  tasks_uncompleted_overdue : Z;
  percent_overdue : Z
}.

(** The figures emitted for one user, in the order they are emitted. *)
Record user_figures : Type := mkuser_figures {
  user : string;
  assigned : Z;
  percent_assigned : Z;
  user_completed : Z;
  percent_assigned_completed : Z;
  user_uncompleted : Z;
  percent_assigned_uncompleted : Z;
  user_uncompleted_overdue : Z;
  percent_assigned_uncompleted_overdue : Z
}.

Record user_overview : Type := mkuser_overview {
  total_users : Z;
  overview_total_tasks : Z;
  per_user : list user_figures
}.

(** What a statistics function emits.  The labels, separators and colour
    codes around the figures, and whether they go to the two report files
    or to the screen, are left out. *)
Record statistics : Type := mkstatistics {
  tasks_part : task_overview;
  users_part : user_overview
}.

Definition initial_user_stats (username_password : dict string)
  : dict user_stat :=
  fold_left (fun user_stats username => dict_set username no_tasks user_stats)
            (dict_keys username_password) [].

(** *** [generate_reports_option] *)

Fixpoint generate_reports_pass (current_date : datetime) (i : Z)
    (task_data : list (list string)) (acc : tally) : E tally :=
  match task_data with
  | [] => okE acc
  | task_components :: rest =>
      u <-? index task_components 1 ;;
      ti <-? index task_components 2 ;;
      de <-? index task_components 3 ;;
      c4 <-? index task_components 4 ;;
      dd <-? strptime c4 ;;
      c5 <-? index task_components 5 ;;
      ad <-? strptime c5 ;;
      c6 <-? index task_components 6 ;;
      let curr_t := mktask i u ti de dd ad (String.eqb c6 "Yes") None in
      let task_list' := (task_list acc ++ [curr_t])%list in
      acc' <-?
        (if completed curr_t then
           stats <-? increment (username curr_t) add_completed
                       (user_stats acc) ;;
           okE (mktally task_list' (completed_total acc + 1)
                        (uncompleted_total acc)
                        (uncompleted_overdue_total acc) stats)
         else
           stats <-? increment (username curr_t) add_uncompleted
                       (user_stats acc) ;;
           if datetime_le (midnight (due_date curr_t)) current_date then
             stats' <-? increment (username curr_t) add_uncompleted_overdue
                          stats ;;
             okE (mktally task_list' (completed_total acc)
                          (uncompleted_total acc + 1)
                          (uncompleted_overdue_total acc + 1) stats')
           else
             okE (mktally task_list' (completed_total acc)
                          (uncompleted_total acc + 1)
                          (uncompleted_overdue_total acc) stats)) ;;
      stats <-? increment (username curr_t) add_assigned (user_stats acc') ;;
      generate_reports_pass current_date (i + 1) rest
        (mktally (task_list acc') (completed_total acc')
                 (uncompleted_total acc') (uncompleted_overdue_total acc')
                 stats)
  end.

Fixpoint generate_reports_users (total_tasks : Z)
    (items : list (string * user_stat)) : E (list user_figures) :=
  match items with
  | [] => okE []
  | (username, stats) :: rest =>
      let total_assigned := total_tasks_assigned stats in
      let total_completed := total_tasks_completed stats in
      let total_uncompleted := total_tasks_uncompleted stats in
      let total_uncompleted_overdue := total_tasks_uncompleted_overdue stats in
      percentage_assigned <-? percentage total_assigned total_tasks ;;
      percentage_assigned_completed <-?
        percentage total_completed total_assigned ;;
      percentage_assigned_uncompleted <-?
        percentage total_uncompleted total_assigned ;;
      percentage_assigned_uncompleted_overdue <-?
        percentage total_uncompleted_overdue total_assigned ;;
      p1 <-? int percentage_assigned ;;
      p2 <-? int percentage_assigned_completed ;;
      p3 <-? int percentage_assigned_uncompleted ;;
      p4 <-? int percentage_assigned_uncompleted_overdue ;;
      others <-? generate_reports_users total_tasks rest ;;
      okE (mkuser_figures username total_assigned p1 total_completed p2
                          total_uncompleted p3 total_uncompleted_overdue p4
           :: others)
  end.

Definition generate_reports_figures (username_password : dict string)
    (task_data : list (list string)) (current_date : datetime)
  : E statistics :=
  acc <-? generate_reports_pass current_date 1 task_data
            (mktally [] 0 0 0 (initial_user_stats username_password)) ;;
  let total_tasks := Z.of_nat (length (task_list acc)) in
  percentage_tasks_uncompleted <-?
    percentage (uncompleted_total acc) total_tasks ;;
  percentage_tasks_overdue <-?
    percentage (uncompleted_overdue_total acc) total_tasks ;;
  pu <-? int percentage_tasks_uncompleted ;;
  po <-? int percentage_tasks_overdue ;;
  users <-? generate_reports_users total_tasks (user_stats acc) ;;
  okE (mkstatistics
         (mktask_overview total_tasks (completed_total acc)
                          (uncompleted_total acc) pu
                          (uncompleted_overdue_total acc) po)
         (mkuser_overview (Z.of_nat (length username_password)) total_tasks
                          users)).

Definition generate_reports_option : M statistics :=
  current_date <- today ;;
  create_user_file_if_not_found ;;;
  username_password <- create_user_pass_dictionary ;;
  task_data <- read_tasks_file ;;
  lift (generate_reports_figures username_password task_data current_date).

(** *** [display_stats_option] *)

Fixpoint display_stats_pass (current_date : datetime) (i : Z)
    (task_data : list (list string)) (acc : tally) : E tally :=
  match task_data with
  | [] => okE acc
  | task_components :: rest =>
      u <-? index task_components 1 ;;
      ti <-? index task_components 2 ;;
      de <-? index task_components 3 ;;
      c4 <-? index task_components 4 ;;
      dd <-? strptime c4 ;;
      c5 <-? index task_components 5 ;;
      ad <-? strptime c5 ;;
      c6 <-? index task_components 6 ;;
      let curr_t := mktask i u ti de dd ad (String.eqb c6 "Yes") None in
      let task_list' := (task_list acc ++ [curr_t])%list in
      acc' <-?
        (if completed curr_t then
           stats <-? increment (username curr_t) add_completed
                       (user_stats acc) ;;
           okE (mktally task_list' (completed_total acc + 1)
                        (uncompleted_total acc)
                        (uncompleted_overdue_total acc) stats)
         else
           stats <-? increment (username curr_t) add_uncompleted
                       (user_stats acc) ;;
           if datetime_le (midnight (due_date curr_t)) current_date then
             stats' <-? increment (username curr_t) add_uncompleted_overdue
                          stats ;;
             okE (mktally task_list' (completed_total acc)
                          (uncompleted_total acc + 1)
                          (uncompleted_overdue_total acc + 1) stats')
           else
             okE (mktally task_list' (completed_total acc)
                          (uncompleted_total acc + 1)
                          (uncompleted_overdue_total acc) stats)) ;;
      stats <-? increment (username curr_t) add_assigned (user_stats acc') ;;
      display_stats_pass current_date (i + 1) rest
        (mktally (task_list acc') (completed_total acc')
                 (uncompleted_total acc') (uncompleted_overdue_total acc')
                 stats)
  end.

Fixpoint display_stats_users (total_tasks : Z)
    (items : list (string * user_stat)) : E (list user_figures) :=
  match items with
  | [] => okE []
  | (username, stats) :: rest =>
      let total_assigned := total_tasks_assigned stats in
      let total_completed := total_tasks_completed stats in
      let total_uncompleted := total_tasks_uncompleted stats in
      let total_uncompleted_overdue := total_tasks_uncompleted_overdue stats in
      percentage_assigned <-? percentage total_assigned total_tasks ;;
      percentage_assigned_completed <-?
        percentage total_completed total_assigned ;;
      percentage_assigned_uncompleted <-?
        percentage total_uncompleted total_assigned ;;
      percentage_assigned_uncompleted_overdue <-?
        percentage total_uncompleted_overdue total_assigned ;;
      p1 <-? int percentage_assigned ;;
      p2 <-? int percentage_assigned_completed ;;
      p3 <-? int percentage_assigned_uncompleted ;;
      p4 <-? int percentage_assigned_uncompleted_overdue ;;
      others <-? display_stats_users total_tasks rest ;;
      okE (mkuser_figures username total_assigned p1 total_completed p2
                          total_uncompleted p3 total_uncompleted_overdue p4
           :: others)
  end.

Definition display_stats_figures (username_password : dict string)
    (task_data : list (list string)) (current_date : datetime)
  : E statistics :=
  acc <-? display_stats_pass current_date 1 task_data
            (mktally [] 0 0 0 (initial_user_stats username_password)) ;;
  let total_tasks := Z.of_nat (length (task_list acc)) in
  percentage_tasks_uncompleted <-?
    percentage (uncompleted_total acc) total_tasks ;;
  percentage_tasks_overdue <-?
    percentage (uncompleted_overdue_total acc) total_tasks ;;
  pu <-? int percentage_tasks_uncompleted ;;
  po <-? int percentage_tasks_overdue ;;
  users <-? display_stats_users total_tasks (user_stats acc) ;;
  okE (mkstatistics
         (mktask_overview total_tasks (completed_total acc)
                          (uncompleted_total acc) pu
                          (uncompleted_overdue_total acc) po)
         (mkuser_overview (Z.of_nat (length username_password)) total_tasks
                          users)).

Definition display_stats_option : M statistics :=
  current_date <- today ;;
  create_user_file_if_not_found ;;;
  username_password <- create_user_pass_dictionary ;;
  task_data <- read_tasks_file ;;
  lift (display_stats_figures username_password task_data current_date).

(** ** Logging in and registering *)

Definition initial_loggin (user password : string) : M bool :=
  username_password <- read_users_file ;;
  if dict_mem user username_password then
    stored <- lift (dict_item user username_password) ;;
    if String.eqb stored password then
      print (NL ++ green "Successful login!" ++ NL) ;;;
      ret true
    else
      print (red "Incorrect password.") ;;;
      ret false
  else
    print (red "User doesn't exist or incorrect password.") ;;;
    ret false.

(** The text [add_new_user_to_user_file] writes: one [username;password]
    per entry, joined by newlines. *)
Definition user_file_text (username_password : dict string) : string :=
  join NL (map (fun kv => fst kv ++ ";" ++ snd kv) username_password).

Definition add_new_user_to_user_file (username_password : dict string)
  : M unit :=
  set_user_txt (user_file_text username_password).

(** The dictionary passed in is updated in place; the model returns
    it. *)
Definition registration_user_option (new_user : string)
    (username_password : dict string) : M (dict string) :=
  new_user <-
    while_true
      (fun new_user =>
         if dict_mem new_user username_password then
           print (NL ++ "User already exists." ++ NL) ;;;
           typed <- input "Please enter a different username: " ;;
           new_user' <- validate_data_entry typed ;;
           ret (inl new_user')
         else ret (inr new_user))
      new_user ;;
  typed <- input "New Password: " ;;
  new_password <- validate_data_entry typed ;;
  typed' <- input "Confirm Password: " ;;
  confirm_password <- validate_data_entry typed' ;;
  if String.eqb new_password confirm_password then
    print (NL ++ green "New user added successfully!" ++ NL) ;;;
    let username_password' :=
      dict_set new_user new_password username_password in
    add_new_user_to_user_file username_password' ;;;
    ret username_password'
  else ret username_password.

(** ** Viewing all tasks *)

(** [task.get('number') or task.get('task_number')]: an int that is 0
    counts as missing. *)
Definition shown_number (task : Task) : option Z :=
  if number task =? 0 then task_number task else Some (number task).

Fixpoint view_all_tasks_loop (task_list : list Task) : M unit :=
  match task_list with
  | [] => ret tt
  | task :: rest =>
      separate_line ;;;
      match shown_number task with
      | Some n => print ("Task number:" ++ TAB ++ TAB ++ str n)
      | None => print ("Task number:" ++ TAB ++ TAB ++ "N/A")
      end ;;;
      print ("Assigned to:" ++ TAB ++ TAB ++ username task) ;;;
      print ("Title:" ++ TAB ++ TAB ++ TAB ++ title task) ;;;
      print ("Description:" ++ TAB ++ TAB ++ description task) ;;;
      print ("Due Date:" ++ TAB ++ TAB ++ strftime (due_date task)) ;;;
      print ("Assigned Date:" ++ TAB ++ TAB
             ++ strftime (assigned_date task)) ;;;
      print ("Completed:" ++ TAB ++ TAB ++ yes_no (completed task)) ;;;
      print "" ;;;
      view_all_tasks_loop rest
  end.

Definition view_all_tasks_option (task_list : list Task) : M unit :=
  match task_list with
  | [] =>
      separate_line ;;;
      print (red "No tasks available.") ;;;
      separate_line
  | _ =>
      separate_line ;;;
      print (yellow "All Tasks:") ;;;
      separate_line ;;;
      view_all_tasks_loop task_list
  end.

(** ** The session *)

(** The variables of [main] that live across the rounds of the menu. *)
Record session : Type := mksession {
  session_users : dict string;
  session_tasks : list Task;
  user_option : string;
  edit_specific_task : string
}.

Section Session.

(** [tabulate(rows, headers=..., tablefmt="grid")], as in [Editing]. *)
Variable tabulate : list (list string) -> list string -> string.

Definition display_main_menu (curr_user : string) : M unit :=
  if String.eqb curr_user "admin" then
    let options :=
      [["r"; "Register a user"]; ["a"; "Add a task"];
       ["va"; "View all tasks"]; ["vm"; "View my tasks"];
       ["gr"; "Generate reports"]; ["ds"; "Display statistics"];
       ["e"; "Exit"]] in
    print (tabulate options ["Option"; "Description"])
  else
    let options :=
      [["r"; "Register a user"]; ["a"; "Add a task"];
       ["va"; "View all tasks"]; ["vm"; "View my tasks"];
       ["e"; "Exit"]] in
    print (tabulate options ["Option"; "Description"]).

(** One round of the inner [while True:] of [main]: [inl] to go round
    again, [inr] after [break]. *)
Definition menu_round (curr_user : string) (st : session)
  : M (session + session) :=
  (if negb (String.eqb (edit_specific_task st) "-1")
   then display_main_menu curr_user else ret tt) ;;;
  typed <- input "Select an option from the main menu: " ;;
  chosen <- validate_data_entry typed ;;
  let user_option := lower chosen in
  if String.eqb user_option "r" then
    typed <- input "New Username: " ;;
    new_username <- validate_data_entry typed ;;
    users <- registration_user_option new_username (session_users st) ;;
    ret (inl (mksession users (session_tasks st) user_option
                        (edit_specific_task st)))
  else if String.eqb user_option "a" then
    task_username <- input "Name of person assigned to task: " ;;
    validated_username <-
      validate_if_username_registered task_username (session_users st) ;;
    typed <- input "Title of Task: " ;;
    task_title <- validate_data_entry typed ;;
    typed' <- input "Description of Task: " ;;
    task_description <- validate_data_entry typed' ;;
    task_due_date <- validate_due_date_input ;;
    now <- today ;;
    let curr_date := dt_date now in
    let task_list :=
      add_new_task_to_task_list (session_tasks st) validated_username
        task_title task_description task_due_date curr_date in
    write_new_task_to_tasks_file task_list ;;;
    ret (inl (mksession (session_users st) task_list user_option
                        (edit_specific_task st)))
  else if String.eqb user_option "va" then
    task_data <- read_tasks_file ;;
    task_list <- lift (create_task_list task_data) ;;
    view_all_tasks_option task_list ;;;
    ret (inl (mksession (session_users st) task_list user_option
                        (edit_specific_task st)))
  else if String.eqb user_option "vm" then
    my_task_list <- view_my_tasks_option curr_user ;;
    typed <-
      input (NL ++ "If you want to access to any of your tasks,"
             ++ "Enter the task number, "
             ++ "or enter -1 to go back to Main Menu: " ++ NL) ;;
    selected <- validate_data_entry typed ;;
    (if String.eqb selected "-1" then display_main_menu curr_user
     else edit_task_details tabulate my_task_list selected ;;; ret tt) ;;;
    ret (inl (mksession (session_users st) (session_tasks st) user_option
                        selected))
  else if String.eqb user_option "gr" && String.eqb curr_user "admin" then
    generate_reports_option ;;;
    ret (inl (mksession (session_users st) (session_tasks st) user_option
                        (edit_specific_task st)))
  else if String.eqb user_option "ds" && String.eqb curr_user "admin" then
    display_stats_option ;;;
    ret (inl (mksession (session_users st) (session_tasks st) user_option
                        (edit_specific_task st)))
  else if String.eqb user_option "e" then
    print (red "Goodbye!!!") ;;;
    ret (inr (mksession (session_users st) (session_tasks st) user_option
                        (edit_specific_task st)))
  else
    print (red "Invalid option.") ;;;
    ret (inl (mksession (session_users st) (session_tasks st) user_option
                        (edit_specific_task st))).

(** One round of the outer [while True:] of [main]. *)
Definition login_round (st : session) : M (session + unit) :=
  if String.eqb (user_option st) "e" then ret (inr tt)
  else
    print "" ;;;
    separate_line ;;;
    print (yellow "Please LOGIN") ;;;
    separate_line ;;;
    typed <- input "Username: " ;;
    curr_user <- validate_data_entry typed ;;
    typed' <- input "Password: " ;;
    curr_pass <- validate_data_entry typed' ;;
    logged_in <- initial_loggin curr_user curr_pass ;;
    if negb logged_in then
      print (red "Verify your data and try again.") ;;;
      ret (inr tt)
    else
      st' <- while_true (menu_round curr_user) st ;;
      ret (inl st').

Definition main : M unit :=
  create_user_file_if_not_found ;;;
  username_password <- create_user_pass_dictionary ;;
  task_data <- read_tasks_file ;;
  task_list <- lift (create_task_list task_data) ;;
  while_true login_round (mksession username_password task_list "" "").

End Session.

(** ** Sample runs *)

Definition sample_clock : datetime := mkdatetime (mkdate 2024 6 15) 43200000000.

Definition sample_users : dict string :=
  [("admin", "password"); ("alice", "secret"); ("bob", "hunter2")].

Definition sample_tasks_txt : string :=
  "1;bob;Write report;quarterly figures;31-12-2099;01-01-2024;No" ++ NL
  ++ "2;alice;Fix bug;desc;31-12-2099;01-01-2024;No" ++ NL
  ++ "3;alice;Old job;late;01-01-2020;01-12-2019;No" ++ NL.

(** The text of a [user.txt] that holds [sample_users]. *)
Definition sample_user_txt : string :=
  "admin;password" ++ NL ++ "alice;secret" ++ NL ++ "bob;hunter2".

Definition sample_world (keys : list string) : world :=
  mkworld (Some sample_user_txt) (Some sample_tasks_txt) keys [] sample_clock.

Definition no_menu (rows : list (list string)) (headers : list string)
  : string := "".

(** * Vocabulary of the properties *)

(** How many tasks of a list satisfy a test. *)
Definition count (p : Task -> bool) (l : list Task) : Z :=
  Z.of_nat (length (filter p l)).

Definition uncompleted (t : Task) : bool := negb (completed t).

(** Uncompleted and due on or before [now]. *)
Definition overdue (now : datetime) (t : Task) : bool :=
  negb (completed t) && datetime_le (midnight (due_date t)) now.

(** A percentage as it is emitted: the conditional expression, then
    [int]. *)
Definition emitted (n total : Z) : E Z :=
  p <-? percentage n total ;;
  int p.

(** What ties the figures emitted for a user to that user's entry of
    [user_stats] and to the total number of tasks. *)
Definition figures_of (total : Z) (item : string * user_stat)
    (f : user_figures) : Prop :=
  user f = fst item
  /\ assigned f = total_tasks_assigned (snd item)
  /\ user_completed f = total_tasks_completed (snd item)
  /\ user_uncompleted f = total_tasks_uncompleted (snd item)
  /\ user_uncompleted_overdue f = total_tasks_uncompleted_overdue (snd item)
  /\ emitted (assigned f) total = inr (percent_assigned f)
  /\ emitted (user_completed f) (assigned f)
     = inr (percent_assigned_completed f)
  /\ emitted (user_uncompleted f) (assigned f)
     = inr (percent_assigned_uncompleted f)
  /\ emitted (user_uncompleted_overdue f) (assigned f)
     = inr (percent_assigned_uncompleted_overdue f).

(** A computation that does not end in [ZeroDivisionError]. *)
Definition no_division_fault {A} (m : E A) : Prop :=
  m <> inl ZeroDivisionError.

(** The test of the precondition of the pass: the owner of the task has
    no entry. *)
Definition unknown_owner {V} (d : dict V) (t : Task) : bool :=
  negb (dict_mem (username t) d).

Definition owned_by (u : string) (t : Task) : bool :=
  String.eqb (username t) u.

(** The entry of a user after the pass has seen [tasks], from the entry
    [s] before. *)
Definition counted (now : datetime) (u : string) (tasks : list Task)
    (s : user_stat) : user_stat :=
  mkuser_stat
    (total_tasks_assigned s + count (owned_by u) tasks)
    (total_tasks_completed s
     + count (fun t => owned_by u t && completed t) tasks)
    (total_tasks_uncompleted s
     + count (fun t => owned_by u t && uncompleted t) tasks)
    (total_tasks_uncompleted_overdue s
     + count (fun t => owned_by u t && overdue now t) tasks).

(** What the pass does to the entry of the owner of a task. *)
Definition seen (now : datetime) (t : Task) (s : user_stat) : user_stat :=
  add_assigned
    (if completed t then add_completed s
     else if datetime_le (midnight (due_date t)) now
          then add_uncompleted_overdue (add_uncompleted s)
          else add_uncompleted s).

Definition option_is (o : option Z) (z : Z) : bool :=
  match o with
  | Some v => v =? z
  | None => false
  end.

(** The characters that end a field or a line of [tasks.txt]. *)
Definition delimiter (c : ascii) : bool :=
  Ascii.eqb c SEMI || Ascii.eqb c LF || Ascii.eqb c CR.

(** A text that holds no [;], no line feed and no carriage return. *)
Fixpoint plain (s : string) : bool :=
  match s with
  | EmptyString => true
  | String c r => negb (delimiter c) && plain r
  end.

(** A date of the calendar whose year has four digits: [strftime]
    writes the year unpadded and [strptime] reads exactly four digits,
    so these are the dates that can be read back. *)
Definition reloadable (d : date) : bool :=
  valid_date d && (1000 <=? year d).

(** A task whose three texts hold no delimiter and whose two dates are
    dates of the calendar from the year 1000 on. *)
Definition storable (t : Task) : bool :=
  plain (username t) && plain (title t) && plain (description t)
  && reloadable (due_date t) && reloadable (assigned_date t).

(** The list read back: the same records, numbered from [i]. *)
Fixpoint renumber (i : Z) (l : list Task) : list Task :=
  match l with
  | [] => []
  | t :: rest =>
      mktask i (username t) (title t) (description t) (due_date t)
             (assigned_date t) (completed t) None
      :: renumber (i + 1) rest
  end.

(** Reading the task file back, as [main] and [view_my_tasks_option]
    do. *)
Definition reload : M (list Task) :=
  task_data <- read_tasks_file ;;
  lift (create_task_list task_data).

(** The fields a record of the file carries. *)
Definition same_record (t t' : Task) : Prop :=
  username t' = username t /\ title t' = title t
  /\ description t' = description t /\ due_date t' = due_date t
  /\ assigned_date t' = assigned_date t /\ completed t' = completed t.

(** Writing [task_list] and reading the file back gives the same records
    in the same order, numbered from 1. *)
Definition round_trips (task_list : list Task) (w : world) : Prop :=
  exists w1 reloaded w2,
    write_new_task_to_tasks_file task_list w = (inr tt, w1)
    /\ reload w1 = (inr reloaded, w2)
    /\ length reloaded = length task_list
    /\ forall i t,
        nth_error task_list i = Some t ->
        exists t',
          nth_error reloaded i = Some t'
          /\ same_record t t'
          /\ number t' = Z.of_nat i + 1.

(** The world after one more line on the screen. *)
Definition emit (w : world) (s : string) : world :=
  mkworld (user_txt w) (tasks_txt w) (stdin w) (stdout w ++ [s])%list
          (clock w).

Fixpoint emit_all (w : world) (out : list string) : world :=
  match out with
  | [] => w
  | s :: rest => emit_all (emit w s) rest
  end.

(** The list [view_my_tasks_option] builds from the tasks read. *)
Fixpoint my_tasks_from (curr_user : string) (i : Z) (l : list Task)
  : list Task :=
  match l with
  | [] => []
  | t :: rest =>
      if String.eqb (username t) curr_user
      then set_task_number t i :: my_tasks_from curr_user (i + 1) rest
      else my_tasks_from curr_user (i + 1) rest
  end.

(** The lines it prints for one of the user's tasks. *)
Definition task_lines (task : Task) : list string :=
  ["*-*-*-*-*-*-*-*-*-*-*-*-*-*-*-*-*-*-*-*-*-*-*-*-*-*-*-*-*-*-";
   "Task number:" ++ TAB ++ TAB ++ " " ++ str (number task);
   "Task assigned to:" ++ TAB ++ " " ++ username task;
   "Task title:" ++ TAB ++ TAB ++ " " ++ title task;
   "Task description:" ++ TAB ++ " " ++ description task;
   "Date assigned:" ++ TAB ++ TAB ++ " " ++ strftime (assigned_date task);
   "Due date:" ++ TAB ++ TAB ++ " " ++ strftime (due_date task);
   "Completed: " ++ TAB ++ TAB ++ " " ++ yes_no (completed task);
   ""].

Fixpoint view_lines (curr_user : string) (l : list Task) : list string :=
  match l with
  | [] => []
  | t :: rest =>
      if String.eqb (username t) curr_user
      then (task_lines t ++ view_lines curr_user rest)%list
      else view_lines curr_user rest
  end.

(** The claim as the specification words it: the k-th task returned
    (counting from 1) carries [task_number] k. *)
Definition numbered_within_view (my : list Task) : Prop :=
  forall k t,
    nth_error my k = Some t -> task_number t = Some (Z.of_nat k + 1).

(** A task that may not be edited: completed, or due date not in the
    future. *)
Definition locked (now : datetime) (t : Task) : bool :=
  completed t || negb (datetime_gt (midnight (due_date t)) now).

(** What [edit_task_details] prints about the selected task. *)
Definition detail_lines (task : Task) (tn : Z) : list string :=
  ["*-*-*-*-*-*-*-*-*-*-*-*-*-*-*-*-*-*-*-*-*-*-*-*-*-*-*-*-*-*-";
   yellow "Task details:";
   "*-*-*-*-*-*-*-*-*-*-*-*-*-*-*-*-*-*-*-*-*-*-*-*-*-*-*-*-*-*-";
   "Task number:" ++ TAB ++ TAB ++ " " ++ str tn;
   "Task assigned to:" ++ TAB ++ " " ++ username task;
   "Title:" ++ TAB ++ TAB ++ TAB ++ " " ++ title task;
   "Description:" ++ TAB ++ TAB ++ " " ++ description task;
   "Due Date:" ++ TAB ++ TAB ++ " " ++ strftime (due_date task);
   "Assign date:" ++ TAB ++ TAB ++ " " ++ strftime (assigned_date task);
   "Completed:" ++ TAB ++ TAB ++ " " ++ yes_no (completed task);
   ""].

Definition sample_task_data : list (list string) :=
  [["1"; "bob"; "Write report"; "quarterly figures"; "31-12-2099";
    "01-01-2024"; "No"];
   ["2"; "alice"; "Fix bug"; "desc"; "31-12-2099"; "01-01-2024"; "No"];
   ["3"; "alice"; "Old job"; "late"; "01-01-2020"; "01-12-2019"; "No"]].

Definition sample_tasks : list Task :=
  [mktask 1 "bob" "Write report" "quarterly figures"
          (mkdate 2099 12 31) (mkdate 2024 1 1) false None;
   mktask 2 "alice" "Fix bug" "desc"
          (mkdate 2099 12 31) (mkdate 2024 1 1) false None;
   mktask 3 "alice" "Old job" "late"
          (mkdate 2020 1 1) (mkdate 2019 12 1) false None].

(** What "alice" is shown, and gets back, for the sample file. *)
Definition sample_view : list Task :=
  [mktask 2 "alice" "Fix bug" "desc"
          (mkdate 2099 12 31) (mkdate 2024 1 1) false (Some 2);
   mktask 3 "alice" "Old job" "late"
          (mkdate 2020 1 1) (mkdate 2019 12 1) false (Some 3)].

(** The figures for the sample file. *)
Definition sample_statistics : statistics :=
  mkstatistics
    (mktask_overview 3 0 3 100 1 33)
    (mkuser_overview 3 3
       [mkuser_figures "admin" 0 0 0 0 0 0 0 0;
        mkuser_figures "alice" 2 66 0 0 2 100 1 50;
        mkuser_figures "bob" 1 33 0 0 1 100 0 0]).

(** "alice" lists her tasks and picks the one numbered 2. *)
Definition reassign_session : M (list Task) :=
  my_task_list <- view_my_tasks_option "alice" ;;
  edit_task_details no_menu my_task_list "2".

(** A hundred tasks of "admin": 71 completed, 29 not. *)
Definition hundred_tasks : list Task :=
  (repeat (mktask 0 "admin" "Done" "finished work"
                  (mkdate 2099 12 31) (mkdate 2024 1 1) true None) 71
   ++ repeat (mktask 0 "admin" "Open" "work to do"
                     (mkdate 2099 12 31) (mkdate 2024 1 1) false None) 29)%list.

Definition hundred_world : world :=
  mkworld (Some sample_user_txt)
          (Some (fst (write_tasks_from 1 hundred_tasks None)))
          [] [] sample_clock.

(** The quotient times 100, truncated, computed exactly. *)
Definition exact_percentage (n total : Z) : Z := (100 * n) / total.

Definition task_with_semicolon : Task :=
  mktask 1 "alice" "a;b" "d" (mkdate 2099 12 31) (mkdate 2024 1 1) false None.

(** A task due on the 9th of February 824, a date [strptime] accepts
    when it is typed as [09-02-0824]. *)
Definition task_due_in_824 : Task :=
  mktask 1 "alice" "Old deed" "d" (mkdate 824 2 9) (mkdate 2024 1 1) false None.

(** A well-formed line of the task file whose owner is not among the
    sample users, and a line that is not well formed. *)
Definition ghost_row : list string :=
  ["1"; "ghost"; "Haunt"; "the hall"; "31-12-2099"; "01-01-2024"; "No"].

Definition bad_row : list string := ["oops"].

(** A credential mapping without "bob". *)
Definition users_without_bob : dict string :=
  [("admin", "password"); ("alice", "secret")].

(** A loop body that has read at least one line whenever it asks for
    another round. *)
Definition reads_a_line {St A} (body : St -> M (St + A)) : Prop :=
  forall s w s' w',
    body s w = (inr (inl s'), w') ->
    (length (stdin w') < length (stdin w))%nat.

(** A computation that never puts lines back on [stdin]. *)
Definition keeps_or_reads {A} (m : M A) : Prop :=
  forall w r w', m w = (r, w') -> (length (stdin w') <= length (stdin w))%nat.

(** What a run of [m] from [w] satisfies: [ok] of the value returned and
    the world left, or [err] of the exception raised and the world
    left. *)
Definition outcome {A} (m : M A) (w : world)
    (ok : A -> world -> Prop) (err : exn -> world -> Prop) : Prop :=
  match m w with
  | (inr a, w') => ok a w'
  | (inl e, w') => err e w'
  end.

(** The only failure of a prompt: the input has run out. *)
Definition out_of_input (e : exn) (w : world) : Prop :=
  e = EOFError /\ stdin w = [].

(** The same row with another leading field. *)
Definition with_index (i : string) (row : list string) : list string :=
  match row with
  | [] => []
  | _ :: fields => i :: fields
  end.

(** A row [create_task_list] accepts: at least seven fields, the fifth
    and the sixth being dates. *)
Definition well_formed_row (row : list string) : bool :=
  match row with
  | _ :: _ :: _ :: _ :: due :: assigned :: _ :: _ =>
      match strptime due, strptime assigned with
      | inr _, inr _ => true
      | _, _ => false
      end
  | _ => false
  end.

(** A list whose k-th task (counting from 1) carries [number] k. *)
Definition numbered (l : list Task) : Prop :=
  forall k t, nth_error l k = Some t -> number t = Z.of_nat k + 1.

(** The test [update_tasks_file] applies to a line: its leading field,
    stripped, is the task's number. *)
Definition leads_with_number (specific_task : Task) (line : string) : bool :=
  match split SEMI line with
  | p0 :: _ => String.eqb (strip p0) (str (number specific_task))
  | [] => false
  end.

(** The lines [write_new_task_to_tasks_file] writes, from index [i]. *)
Fixpoint lines_from (i : Z) (l : list Task) : list string :=
  match l with
  | [] => []
  | t :: rest => (task_record i t ++ NL) :: lines_from (i + 1) rest
  end.

(** The list with its [n]-th element (from 0) replaced. *)
Fixpoint replace_at {A} (n : nat) (x : A) (l : list A) {struct l}
  : list A :=
  match l with
  | [] => []
  | y :: rest =>
      match n with
      | O => x :: rest
      | Datatypes.S n' => y :: replace_at n' x rest
      end
  end.

(** A text without white space. *)
Fixpoint no_space (s : string) : bool :=
  match s with
  | EmptyString => true
  | String c r => negb (isspace c) && no_space r
  end.

(** Writing a list, updating one task with [update_tasks_file], then
    reading the file back. *)
Definition write_update_reload (task_list : list Task) (specific_task : Task)
  : M (list Task) :=
  write_new_task_to_tasks_file task_list ;;;
  update_tasks_file specific_task ;;;
  reload.

(** A task of the list that is not the one selected: it has a
    [task_number], another one. *)
Definition other_than (n : Z) (x : Task) : Prop :=
  exists k, task_number x = Some k /\ k <> n.

(** The world after [input] has shown [prompt] and taken a line, [rest]
    being the lines left. *)
Definition consume (w : world) (prompt : string) (rest : list string)
  : world :=
  mkworld (user_txt w) (tasks_txt w) rest (stdout w ++ [prompt])%list
          (clock w).

(** The second task of the sample file, as "alice" gets it back. *)
Definition sample_open_task : Task :=
  mktask 2 "alice" "Fix bug" "desc"
         (mkdate 2099 12 31) (mkdate 2024 1 1) false (Some 2).

(** The third task of the sample file, as "alice" gets it back. *)
Definition sample_late_task : Task :=
  mktask 3 "alice" "Old job" "late"
         (mkdate 2020 1 1) (mkdate 2019 12 1) false (Some 3).

(** An entry [add_new_user_to_user_file] can write and [read_users_file]
    reads back: no delimiter in the name or the password, no whitespace
    in front of the name, none behind the password. *)
Definition entry_ok (kv : string * string) : Prop :=
  plain (fst kv) = true /\ plain (snd kv) = true
  /\ lstrip (fst kv) = fst kv /\ rstrip (snd kv) = snd kv.

(** The lines a reader of the text of [user_file_text] sees: each entry
    but the last is followed by a newline. *)
Fixpoint user_lines (d : dict string) : list string :=
  match d with
  | [] => []
  | kv :: rest =>
      match rest with
      | [] => [fst kv ++ ";" ++ snd kv]
      | _ => (fst kv ++ ";" ++ snd kv ++ NL) :: user_lines rest
      end
  end.

(** From [w] to [w'] only lines were read and lines were printed: the
    two files and the clock are as they were. *)
Definition io_step (w w' : world) : Prop :=
  user_txt w' = user_txt w /\ tasks_txt w' = tasks_txt w
  /\ clock w' = clock w
  /\ (exists read, stdin w = (read ++ stdin w')%list)
  /\ (exists out, stdout w' = (stdout w ++ out)%list).

(** A computation that only reads and prints, returns a value that
    satisfies [Q], and fails only with [EOFError]. *)
Definition io {A} (Q : A -> Prop) (m : M A) : Prop :=
  forall w, outcome m w (fun a w' => io_step w w' /\ Q a)
                        (fun e w' => io_step w w' /\ e = EOFError).

(** The sum of [g] over a list. *)
Definition sum_over {A} (g : A -> Z) (l : list A) : Z :=
  fold_right (fun a s => g a + s) 0 l.

(** The text of [user.txt] once [main] has looked for it: the file is
    created with the default administrator when it is missing. *)
Definition user_text_at_start (w : world) : string :=
  match user_txt w with
  | Some content => content
  | None => "admin;password"
  end.

(** The text of [tasks.txt] once [main] has read it: an empty file is
    created when it is missing. *)
Definition tasks_at_start (w : world) : string :=
  match tasks_txt w with
  | Some content => content
  | None => ""
  end.

(** The rows [read_tasks_file] returns for a file. *)
Definition task_rows (file : option string) : list (list string) :=
  match file with
  | Some content =>
      map (split SEMI)
          (filter (fun t => negb (is_empty t))
                  (split LF (universal_newlines content)))
  | None => []
  end.

(** The world when [main] enters its loop. *)
Definition started (w : world) : world :=
  mkworld (Some (user_text_at_start w)) (Some (tasks_at_start w))
          (stdin w) (stdout w) (clock w).

(** The world after the prompts of a login and the answer [line] of
    [initial_loggin], with [rest] left to read. *)
Definition login_prompted (w : world) (p : string) (rest : list string)
    (line : string) : world :=
  emit
    (consume
       (consume
          (emit_all w [""; "*-*-*-*-*-*-*-*-*-*-*-*-*-*-*-*-*-*-*-*-*-*-*-*-*-*-*-*-*-*-";
                       yellow "Please LOGIN";
                       "*-*-*-*-*-*-*-*-*-*-*-*-*-*-*-*-*-*-*-*-*-*-*-*-*-*-*-*-*-*-"])
          "Username: " (p :: rest))
       "Password: " rest)
    line.

(** * Properties *)

(** ** Sample evaluations *)

Example strptime_sample :
  strptime "31-12-2099" = inr (mkdate 2099 12 31)
  /\ strptime "1-2-2024" = inr (mkdate 2024 2 1)
  /\ strptime "30-02-2024" = inl ValueError
  /\ strptime "29-02-2024" = inr (mkdate 2024 2 29)
  /\ strptime "01-01-20245" = inl ValueError
  /\ strftime (mkdate 824 2 9) = "09-02-824"
  /\ split SEMI "a;;b;" = ["a"; ""; "b"; ""]
  /\ str 12 = "12" /\ str 0 = "0" /\ strip "  a b  " = "a b"
  /\ readlines "a;b
c" = ["a;b
"; "c"].
Proof. repeat split; reflexivity. Qed.

Example users_of_text_sample :
  users_of_text sample_user_txt = inr sample_users
  /\ users_of_text (sample_user_txt ++ NL) = inr sample_users
  /\ users_of_text ("admin;password" ++ NL ++ "carol;a;b") = inl ValueError
  /\ users_of_text ("admin;password" ++ NL ++ NL ++ "bob;x") = inl ValueError
  /\ users_of_text "" = inr []
  /\ users_of_text (" admin;password " ++ NL) = inr [("admin", "password")].
Proof. repeat split; vm_compute; reflexivity. Qed.

Example int_of_string_sample :
  int_of_string " 12 " = inr 12 /\ int_of_string "-1" = inr (-1)
  /\ int_of_string "1_000" = inr 1000 /\ int_of_string "1__0" = inl ValueError
  /\ int_of_string "" = inl ValueError /\ int_of_string "x" = inl ValueError
  /\ int_of_string "007" = inr 7 /\ int_of_string "+" = inl ValueError
  /\ int_of_string (String "028"%char "3") = inl ValueError
  /\ int_of_string (String "009"%char "3") = inr 3.
Proof. repeat split; reflexivity. Qed.

Example percentage_sample :
  (p <-? percentage 1 3 ;; int p) = inr 33
  /\ (p <-? percentage 2 3 ;; int p) = inr 66
  /\ (p <-? percentage 3 3 ;; int p) = inr 100
  /\ (p <-? percentage 0 0 ;; int p) = inr 0
  /\ (p <-? percentage 0 7 ;; int p) = inr 0.
Proof. repeat split; vm_compute; reflexivity. Qed.

(** ** Generic facts about the monads *)

#[local] Arguments Z.add : simpl never.
#[local] Arguments Z.mul : simpl never.
#[local] Arguments Z.sub : simpl never.

Lemma bindE_ext {A B} (m : E A) (k k' : A -> E B) :
  (forall a, k a = k' a) -> bindE m k = bindE m k'.
Proof. intros H; destruct m; simpl; auto. Qed.

Lemma bindE_inr {A B} (m : E A) (k : A -> E B) (b : B) :
  bindE m k = inr b -> exists a, m = inr a /\ k a = inr b.
Proof. destruct m; simpl; [discriminate | eauto]. Qed.

Ltac invert_bindE H :=
  let a := fresh "v" in
  let Hm := fresh "Hm" in
  apply bindE_inr in H; destruct H as (a & Hm & H).

(** ** The two statistics functions agree *)

Lemma display_stats_pass_eq (now : datetime) :
  forall task_data i acc,
    display_stats_pass now i task_data acc
    = generate_reports_pass now i task_data acc.
Proof.
  induction task_data as [|row rest IH]; intros i acc; simpl.
  - reflexivity.
  - repeat (apply bindE_ext; intros). first [apply IH | reflexivity].
Qed.

Lemma display_stats_users_eq (total : Z) :
  forall items,
    display_stats_users total items = generate_reports_users total items.
Proof.
  induction items as [|[u s] rest IH]; simpl.
  - reflexivity.
  - repeat (apply bindE_ext; intros). reflexivity.
Qed.

Lemma display_stats_figures_eq username_password task_data current_date :
  display_stats_figures username_password task_data current_date
  = generate_reports_figures username_password task_data current_date.
Proof.
  unfold display_stats_figures, generate_reports_figures.
  rewrite display_stats_pass_eq.
  repeat (apply bindE_ext; intros).
  try rewrite display_stats_users_eq. reflexivity.
Qed.

(** C4: for every credential mapping, task data and current date the
    figures computed for the screen and those computed for the report
    files are the same, and so are the outcomes of the two operations in
    every state of the files. *)
Theorem display_and_report_figures_agree :
  (forall username_password task_data current_date,
      generate_reports_figures username_password task_data current_date
      = display_stats_figures username_password task_data current_date)
  /\ (forall w, fst (generate_reports_option w) = fst (display_stats_option w)).
Proof.
  split.
  - intros. symmetry. apply display_stats_figures_eq.
  - intros w. unfold generate_reports_option, display_stats_option.
    unfold bind. destruct (today w) as [[e|now] w1]; [reflexivity|].
    destruct (create_user_file_if_not_found w1) as [[e|[]] w2]; [reflexivity|].
    destruct (create_user_pass_dictionary w2) as [[e|up] w3]; [reflexivity|].
    destruct (read_tasks_file w3) as [[e|data] w4]; [reflexivity|].
    unfold lift; simpl. symmetry. apply display_stats_figures_eq.
Qed.

(** ** The pass over the tasks *)

Lemma count_cons p t l :
  count p (t :: l) = (if p t then 1 else 0) + count p l.
Proof.
  unfold count; simpl. destruct (p t); simpl length; lia.
Qed.

Lemma count_nil p : count p [] = 0.
Proof. reflexivity. Qed.

Lemma count_bounds p l : 0 <= count p l <= Z.of_nat (length l).
Proof.
  unfold count. pose proof (filter_length_le p l). lia.
Qed.

Lemma yes_test (c : string) :
  (if String.eqb c "Yes" then true else false) = String.eqb c "Yes".
Proof. destruct (String.eqb c "Yes"); reflexivity. Qed.

Lemma generate_reports_pass_spec (now : datetime) :
  forall task_data i acc acc',
    generate_reports_pass now i task_data acc = inr acc' ->
    exists tasks,
      create_task_list_from i task_data = inr tasks
      /\ task_list acc' = (task_list acc ++ tasks)%list
      /\ completed_total acc' = completed_total acc + count completed tasks
      /\ uncompleted_total acc'
         = uncompleted_total acc + count uncompleted tasks
      /\ uncompleted_overdue_total acc'
         = uncompleted_overdue_total acc + count (overdue now) tasks.
Proof.
  induction task_data as [|row rest IH]; intros i acc acc' H; simpl in H.
  - inversion H; subst. exists []. simpl.
    rewrite app_nil_r, !count_nil. repeat split; try reflexivity; lia.
  - do 8 invert_bindE H.
    apply bindE_inr in H. destruct H as (step & Hstep & H).
    apply bindE_inr in H. destruct H as (stats & Hstats & H).
    apply IH in H. destruct H as (tasks & Hl & Ht & Hc & Hu & Ho).
    simpl in Ht, Hc, Hu, Ho.
    simpl. rewrite Hm, Hm0, Hm1, Hm2; simpl. rewrite Hm3; simpl.
    rewrite Hm4; simpl. rewrite Hm5; simpl. rewrite Hm6; simpl.
    rewrite Hl; simpl. rewrite yes_test.
    eexists; split; [reflexivity|].
    rewrite !count_cons. unfold overdue at 1. unfold uncompleted in *. simpl.
    simpl in Hstep.
    destruct (String.eqb v6 "Yes"); simpl in *.
    + invert_bindE Hstep. inversion Hstep; subst step; simpl in *.
      rewrite Ht, Hc, Hu, Ho, <- app_assoc. simpl.
      repeat split; try reflexivity; lia.
    + invert_bindE Hstep.
      destruct (datetime_le (midnight v3) now).
      * invert_bindE Hstep. inversion Hstep; subst step; simpl in *.
        rewrite Ht, Hc, Hu, Ho, <- app_assoc. simpl.
        repeat split; try reflexivity; lia.
      * inversion Hstep; subst step; simpl in *.
        rewrite Ht, Hc, Hu, Ho, <- app_assoc. simpl.
        repeat split; try reflexivity; lia.
Qed.

Lemma count_split l :
  count completed l + count uncompleted l = Z.of_nat (length l).
Proof.
  induction l as [|t l IH].
  - reflexivity.
  - rewrite !count_cons. unfold uncompleted at 1.
    simpl length. destruct (completed t); simpl; lia.
Qed.

Lemma count_overdue_le now l : count (overdue now) l <= count uncompleted l.
Proof.
  induction l as [|t l IH].
  - rewrite !count_nil. lia.
  - rewrite !count_cons. unfold overdue at 1, uncompleted at 1.
    destruct (completed t); simpl; [lia|].
    destruct (datetime_le (midnight (due_date t)) now); lia.
Qed.

(** ** The figures emitted *)

Lemma generate_reports_users_spec (total : Z) :
  forall items l,
    generate_reports_users total items = inr l ->
    Forall2 (figures_of total) items l.
Proof.
  induction items as [|[u s] rest IH]; intros l H; simpl in H.
  - inversion H. constructor.
  - do 9 invert_bindE H. inversion H; subst l; clear H.
    constructor; [|apply IH; assumption].
    unfold figures_of, emitted; simpl.
    rewrite Hm, Hm0, Hm1, Hm2; simpl.
    repeat split; assumption.
Qed.

Lemma generate_reports_figures_inv username_password task_data now figs :
  generate_reports_figures username_password task_data now = inr figs ->
  exists acc,
    generate_reports_pass now 1 task_data
      (mktally [] 0 0 0 (initial_user_stats username_password)) = inr acc
    /\ total_tasks (tasks_part figs) = Z.of_nat (length (task_list acc))
    /\ tasks_completed (tasks_part figs) = completed_total acc
    /\ tasks_uncompleted (tasks_part figs) = uncompleted_total acc
    /\ tasks_uncompleted_overdue (tasks_part figs)
       = uncompleted_overdue_total acc
    /\ emitted (tasks_uncompleted (tasks_part figs))
               (total_tasks (tasks_part figs))
       = inr (percent_uncompleted (tasks_part figs))
    /\ emitted (tasks_uncompleted_overdue (tasks_part figs))
               (total_tasks (tasks_part figs))
       = inr (percent_overdue (tasks_part figs))
    /\ total_users (users_part figs)
       = Z.of_nat (length username_password)
    /\ overview_total_tasks (users_part figs) = total_tasks (tasks_part figs)
    /\ Forall2 (figures_of (total_tasks (tasks_part figs)))
               (user_stats acc) (per_user (users_part figs)).
Proof.
  unfold generate_reports_figures. intros H.
  do 6 invert_bindE H. inversion H; subst figs; clear H; simpl.
  exists v. unfold emitted. rewrite Hm0, Hm1; simpl.
  repeat split; try assumption; try reflexivity.
  apply generate_reports_users_spec; assumption.
Qed.

(** C5: whenever the aggregator produces figures, [total] is the number
    of tasks, [completed], [uncompleted] and [uncompleted_overdue] count
    the tasks that are completed, that are not, and that are neither
    completed nor due after [now]; completed + uncompleted = total and
    uncompleted_overdue <= uncompleted. *)
Theorem global_counts_add_up :
  forall username_password task_data now figs,
    generate_reports_figures username_password task_data now = inr figs
    \/ display_stats_figures username_password task_data now = inr figs ->
    exists tasks,
      create_task_list task_data = inr tasks
      /\ total_tasks (tasks_part figs) = Z.of_nat (length tasks)
      /\ tasks_completed (tasks_part figs) = count completed tasks
      /\ tasks_uncompleted (tasks_part figs) = count uncompleted tasks
      /\ tasks_uncompleted_overdue (tasks_part figs)
         = count (overdue now) tasks
      /\ tasks_completed (tasks_part figs) + tasks_uncompleted (tasks_part figs)
         = total_tasks (tasks_part figs)
      /\ tasks_uncompleted_overdue (tasks_part figs)
         <= tasks_uncompleted (tasks_part figs).
Proof.
  intros up data now figs H.
  assert (Hg : generate_reports_figures up data now = inr figs).
  { destruct H as [H|H]; [exact H|].
    rewrite <- display_stats_figures_eq. exact H. }
  clear H.
  apply generate_reports_figures_inv in Hg.
  destruct Hg as (acc & Hpass & Ht & Hc & Hu & Ho & _).
  apply generate_reports_pass_spec in Hpass.
  destruct Hpass as (tasks & Hl & Htl & Hcc & Huu & Hoo).
  simpl in Htl, Hcc, Huu, Hoo.
  exists tasks. split; [exact Hl|].
  rewrite Ht, Hc, Hu, Ho, Htl, Hcc, Huu, Hoo.
  pose proof (count_split tasks). pose proof (count_overdue_le now tasks).
  repeat split; lia.
Qed.

(** ** No division fault *)

Lemma ndf_ok {A} (a : A) : no_division_fault (okE a).
Proof. discriminate. Qed.

Lemma ndf_bind {A B} (m : E A) (k : A -> E B) :
  no_division_fault m ->
  (forall a, m = inr a -> no_division_fault (k a)) ->
  no_division_fault (bindE m k).
Proof.
  unfold no_division_fault. destruct m as [e|a]; simpl; intros Hm Hk.
  - intros H. apply Hm. inversion H. reflexivity.
  - apply Hk. reflexivity.
Qed.

Lemma ndf_index {A} (l : list A) i : no_division_fault (index l i).
Proof. unfold index. destruct (nth_error l i); discriminate. Qed.

Lemma ndf_strptime s : no_division_fault (strptime s).
Proof.
  unfold strptime. destruct (match_format s) as [[[[d m] y] r]|];
    [|discriminate].
  destruct (negb (is_empty r)); [discriminate|].
  destruct (valid_date _); discriminate.
Qed.

Lemma ndf_increment u bump d : no_division_fault (increment u bump d).
Proof.
  unfold increment, dict_item. destruct (dict_get u d); discriminate.
Qed.

Lemma ndf_percentage n total : no_division_fault (percentage n total).
Proof.
  unfold percentage, truediv.
  destruct (total >? 0) eqn:Hpos; [|discriminate].
  destruct (total =? 0) eqn:Hz; [|discriminate].
  apply Z.eqb_eq in Hz. subst total. discriminate.
Qed.

Lemma ndf_int p : no_division_fault (int p).
Proof.
  destruct p as [z|f]; simpl; [discriminate|].
  destruct (Prim2SF f); discriminate.
Qed.

Create HintDb ndf.

#[local] Hint Resolve ndf_ok ndf_index ndf_strptime ndf_increment
  ndf_percentage ndf_int : ndf.

Ltac ndf_step := apply ndf_bind; [solve [auto with ndf] | intros ? _].

Lemma ndf_pass now :
  forall task_data i acc,
    no_division_fault (generate_reports_pass now i task_data acc).
Proof.
  induction task_data as [|row rest IH]; intros i acc; simpl.
  - discriminate.
  - do 8 ndf_step.
    apply ndf_bind.
    + destruct (String.eqb _ _); simpl.
      * ndf_step. discriminate.
      * ndf_step. destruct (datetime_le _ _).
        -- ndf_step. discriminate.
        -- discriminate.
    + intros step _. ndf_step. apply IH.
Qed.

Lemma ndf_users total :
  forall items, no_division_fault (generate_reports_users total items).
Proof.
  induction items as [|[u s] rest IH]; simpl.
  - discriminate.
  - do 8 ndf_step. apply ndf_bind; [apply IH|]. intros; discriminate.
Qed.

Lemma ndf_figures username_password task_data now :
  no_division_fault (generate_reports_figures username_password task_data now).
Proof.
  unfold generate_reports_figures.
  apply ndf_bind; [apply ndf_pass|]. intros acc _.
  do 4 ndf_step.
  apply ndf_bind; [apply ndf_users|]. intros; discriminate.
Qed.

(** ** Users without tasks, and the empty task set *)

Lemma emitted_zero_total n : emitted n 0 = inr 0.
Proof. reflexivity. Qed.

Lemma dict_set_values {V} (P : V -> Prop) k v :
  forall d : dict V,
    P v -> Forall (fun kv => P (snd kv)) d ->
    Forall (fun kv => P (snd kv)) (dict_set k v d).
Proof.
  induction d as [|[k' v'] d IH]; intros Hv Hd; simpl.
  - constructor; [exact Hv | constructor].
  - inversion Hd; subst. destruct (String.eqb k' k).
    + constructor; assumption.
    + constructor; [assumption | apply IH; assumption].
Qed.

Lemma initial_user_stats_values username_password :
  Forall (fun kv => snd kv = no_tasks) (initial_user_stats username_password).
Proof.
  unfold initial_user_stats.
  generalize (dict_keys username_password).
  assert (H : Forall (fun kv : string * user_stat => snd kv = no_tasks) [])
    by constructor.
  revert H. generalize (@nil (string * user_stat)).
  intros d H keys. revert d H.
  induction keys as [|k keys IH]; intros d H; simpl.
  - exact H.
  - apply IH.
    apply (dict_set_values (fun s => s = no_tasks)); [reflexivity | exact H].
Qed.

Lemma generate_reports_users_no_tasks :
  forall items,
    Forall (fun kv : string * user_stat => snd kv = no_tasks) items ->
    generate_reports_users 0 items
    = inr (map (fun kv => mkuser_figures (fst kv) 0 0 0 0 0 0 0 0) items).
Proof.
  induction items as [|[u s] rest IH]; intros H; simpl.
  - reflexivity.
  - inversion H as [|? ? Hs Hrest]; subst. simpl in Hs. subst s.
    rewrite (IH Hrest). reflexivity.
Qed.

(** C6: no percentage computation of the aggregator ends in a division by
    zero; in the figures it produces, a user with no assigned task has 0
    for the three percentages taken relative to the assigned count; and
    for the empty task set the figures are produced and both global
    percentages are 0. *)
Theorem percentages_without_tasks :
  forall username_password now,
    (forall task_data,
        generate_reports_figures username_password task_data now
        <> inl ZeroDivisionError
        /\ display_stats_figures username_password task_data now
           <> inl ZeroDivisionError
        /\ forall figs,
            generate_reports_figures username_password task_data now
            = inr figs
            \/ display_stats_figures username_password task_data now
               = inr figs ->
            Forall (fun f =>
                      assigned f = 0 ->
                      percent_assigned_completed f = 0
                      /\ percent_assigned_uncompleted f = 0
                      /\ percent_assigned_uncompleted_overdue f = 0)
                   (per_user (users_part figs)))
    /\ exists figs,
        generate_reports_figures username_password [] now = inr figs
        /\ display_stats_figures username_password [] now = inr figs
        /\ percent_uncompleted (tasks_part figs) = 0
        /\ percent_overdue (tasks_part figs) = 0.
Proof.
  intros up now. split.
  - intros data. split; [apply ndf_figures|].
    split; [rewrite display_stats_figures_eq; apply ndf_figures|].
    intros figs H.
    assert (Hg : generate_reports_figures up data now = inr figs).
    { destruct H as [H|H]; [exact H|].
      rewrite <- display_stats_figures_eq. exact H. }
    clear H. apply generate_reports_figures_inv in Hg.
    destruct Hg as (acc & _ & _ & _ & _ & _ & _ & _ & _ & _ & Hu).
    induction Hu as [|item f items fs Hf _ IH]; constructor; [|exact IH].
    intros Hz.
    destruct Hf as (_ & _ & _ & _ & _ & _ & Hc & Hn & Ho).
    revert Hc Hn Ho. rewrite Hz, !emitted_zero_total. intros Hc Hn Ho.
    inversion Hc; inversion Hn; inversion Ho. auto.
  - pose proof (display_stats_figures_eq up [] now) as Hd.
    cut (exists figs,
            generate_reports_figures up [] now = inr figs
            /\ percent_uncompleted (tasks_part figs) = 0
            /\ percent_overdue (tasks_part figs) = 0).
    { intros (figs & Hg & Hu & Ho). exists figs.
      repeat split; try assumption; congruence. }
    clear Hd. unfold generate_reports_figures. simpl.
    rewrite generate_reports_users_no_tasks
      by apply initial_user_stats_values.
    simpl. eexists. repeat split.
Qed.

(** ** Dictionaries: lookups after updates *)

Lemma dict_get_set_same {V} k (v : V) :
  forall d, dict_get k (dict_set k v d) = Some v.
Proof.
  induction d as [|[k' v'] d IH]; simpl.
  - rewrite String.eqb_refl. reflexivity.
  - destruct (String.eqb k' k) eqn:Hk; simpl.
    + rewrite String.eqb_refl. reflexivity.
    + rewrite Hk. exact IH.
Qed.

Lemma dict_get_set_other {V} k k0 (v : V) :
  k0 <> k ->
  forall d, dict_get k0 (dict_set k v d) = dict_get k0 d.
Proof.
  intros Hne. induction d as [|[k' v'] d IH]; simpl.
  - destruct (String.eqb k k0) eqn:Hk; [|reflexivity].
    apply String.eqb_eq in Hk. congruence.
  - destruct (String.eqb k' k) eqn:Hk; simpl.
    + apply String.eqb_eq in Hk. subst k'.
      destruct (String.eqb k k0) eqn:Hk0; [|reflexivity].
      apply String.eqb_eq in Hk0. congruence.
    + rewrite IH. reflexivity.
Qed.

Lemma dict_mem_set_present {V} k (v : V) d :
  dict_mem k d = true ->
  forall k0, dict_mem k0 (dict_set k v d) = dict_mem k0 d.
Proof.
  intros Hk k0. unfold dict_mem in *.
  destruct (string_dec k0 k) as [->|Hne].
  - rewrite dict_get_set_same. destruct (dict_get k d); congruence.
  - rewrite dict_get_set_other by exact Hne. reflexivity.
Qed.

Lemma dict_mem_keys {V} k :
  forall d : dict V,
    dict_mem k d = existsb (String.eqb k) (dict_keys d).
Proof.
  unfold dict_mem.
  induction d as [|[k' v'] d IH]; simpl.
  - reflexivity.
  - rewrite (String.eqb_sym k k'). destruct (String.eqb k' k); simpl.
    + reflexivity.
    + exact IH.
Qed.

Lemma initial_user_stats_get_from u :
  forall keys (d : dict user_stat),
    (forall s, dict_get u d = Some s -> s = no_tasks) ->
    dict_get u
      (fold_left (fun user_stats username =>
                    dict_set username no_tasks user_stats) keys d)
    = if existsb (String.eqb u) keys || dict_mem u d
      then Some no_tasks else None.
Proof.
  induction keys as [|k keys IH]; intros d Hd; simpl.
  - unfold dict_mem. destruct (dict_get u d) as [s|] eqn:Hs.
    + rewrite (Hd s eq_refl). reflexivity.
    + reflexivity.
  - rewrite IH.
    + unfold dict_mem. destruct (string_dec u k) as [->|Hne].
      * rewrite dict_get_set_same, String.eqb_refl, orb_true_r.
        reflexivity.
      * rewrite dict_get_set_other by exact Hne.
        apply String.eqb_neq in Hne. rewrite Hne. reflexivity.
    + intros s. destruct (string_dec u k) as [->|Hne].
      * rewrite dict_get_set_same. congruence.
      * rewrite dict_get_set_other by exact Hne. apply Hd.
Qed.

Lemma initial_user_stats_get username_password u :
  dict_get u (initial_user_stats username_password)
  = if dict_mem u username_password then Some no_tasks else None.
Proof.
  unfold initial_user_stats.
  rewrite initial_user_stats_get_from by (simpl; discriminate).
  rewrite orb_false_r, <- dict_mem_keys. reflexivity.
Qed.

Lemma initial_user_stats_mem username_password u :
  dict_mem u (initial_user_stats username_password)
  = dict_mem u username_password.
Proof.
  unfold dict_mem at 1. rewrite initial_user_stats_get.
  destruct (dict_mem u username_password); reflexivity.
Qed.

Lemma increment_present u bump d :
  dict_mem u d = true ->
  exists d',
    increment u bump d = inr d'
    /\ forall k, dict_mem k d' = dict_mem k d.
Proof.
  intros Hu. unfold increment, dict_item.
  pose proof Hu as Hu'. unfold dict_mem in Hu'.
  destruct (dict_get u d) as [s|]; [|discriminate]. simpl.
  eexists; split; [reflexivity|].
  intros k. apply dict_mem_set_present. exact Hu.
Qed.

Lemma increment_absent u bump d :
  dict_mem u d = false -> increment u bump d = inl (KeyError u).
Proof.
  unfold increment, dict_item, dict_mem.
  destruct (dict_get u d); [discriminate | reflexivity].
Qed.

Lemma find_ext {A} (p q : A -> bool) :
  (forall a, p a = q a) -> forall l, find p l = find q l.
Proof.
  intros H. induction l as [|a l IH]; simpl.
  - reflexivity.
  - rewrite H, IH. reflexivity.
Qed.

Lemma generate_reports_pass_outcome now :
  forall task_data i acc tasks,
    create_task_list_from i task_data = inr tasks ->
    match find (unknown_owner (user_stats acc)) tasks with
    | Some t =>
        generate_reports_pass now i task_data acc
        = inl (KeyError (username t))
    | None =>
        exists acc',
          generate_reports_pass now i task_data acc = inr acc'
          /\ forall k,
              dict_mem k (user_stats acc') = dict_mem k (user_stats acc)
    end.
Proof.
  induction task_data as [|row rest IH]; intros i acc tasks H; simpl in H.
  - inversion H; subst; simpl. exists acc. split; reflexivity.
  - do 9 invert_bindE H. inversion H; subst tasks; clear H.
    simpl generate_reports_pass.
    rewrite Hm, Hm0, Hm1, Hm2; simpl. rewrite Hm3; simpl.
    rewrite Hm4; simpl. rewrite Hm5; simpl. rewrite Hm6; simpl.
    unfold unknown_owner at 1; simpl.
    destruct (dict_mem v (user_stats acc)) eqn:Hmem; simpl.
    + assert (Hgo : forall acc1,
                 (forall k, dict_mem k (user_stats acc1)
                            = dict_mem k (user_stats acc)) ->
                 match find (unknown_owner (user_stats acc)) v7 with
                 | Some t =>
                     (stats <-? increment v add_assigned (user_stats acc1) ;;
                      generate_reports_pass now (i + 1) rest
                        (mktally (task_list acc1) (completed_total acc1)
                                 (uncompleted_total acc1)
                                 (uncompleted_overdue_total acc1) stats))
                     = inl (KeyError (username t))
                 | None =>
                     exists acc',
                       (stats <-? increment v add_assigned (user_stats acc1) ;;
                        generate_reports_pass now (i + 1) rest
                          (mktally (task_list acc1) (completed_total acc1)
                                   (uncompleted_total acc1)
                                   (uncompleted_overdue_total acc1) stats))
                       = inr acc'
                       /\ forall k, dict_mem k (user_stats acc')
                                    = dict_mem k (user_stats acc)
                 end).
      { intros acc1 Hsame.
        assert (Hv : dict_mem v (user_stats acc1) = true)
          by (rewrite Hsame; exact Hmem).
        destruct (increment_present v add_assigned _ Hv) as (d' & Hd' & Hk').
        rewrite Hd'; simpl.
        specialize (IH (i + 1)
                       (mktally (task_list acc1) (completed_total acc1)
                                (uncompleted_total acc1)
                                (uncompleted_overdue_total acc1) d')
                       v7 Hm7).
        simpl in IH.
        rewrite (find_ext (unknown_owner d') (unknown_owner (user_stats acc)))
          in IH.
        - destruct (find (unknown_owner (user_stats acc)) v7).
          + exact IH.
          + destruct IH as (acc' & Hp & Hk). exists acc'. split; [exact Hp|].
            intros k. rewrite Hk, Hk', Hsame. reflexivity.
        - intros t. unfold unknown_owner. rewrite Hk', Hsame. reflexivity. }
      destruct (String.eqb v6 "Yes"); simpl.
      * destruct (increment_present v add_completed _ Hmem)
          as (d1 & Hd1 & Hk1).
        rewrite Hd1; simpl. apply (Hgo (mktally _ _ _ _ d1)). exact Hk1.
      * destruct (increment_present v add_uncompleted _ Hmem)
          as (d1 & Hd1 & Hk1).
        rewrite Hd1; simpl.
        destruct (datetime_le (midnight v3) now).
        -- assert (Hv1 : dict_mem v d1 = true) by (rewrite Hk1; exact Hmem).
           destruct (increment_present v add_uncompleted_overdue _ Hv1)
             as (d2 & Hd2 & Hk2).
           rewrite Hd2; simpl. apply (Hgo (mktally _ _ _ _ d2)).
           intros k; simpl. rewrite Hk2, Hk1. reflexivity.
        -- simpl. apply (Hgo (mktally _ _ _ _ d1)). exact Hk1.
    + destruct (String.eqb v6 "Yes"); simpl;
        rewrite increment_absent by exact Hmem; reflexivity.
Qed.

(** ** What can go wrong after the pass *)

Lemma percentage_total n total : exists p, percentage n total = inr p.
Proof.
  unfold percentage, truediv.
  destruct (total >? 0) eqn:Hpos; [|eauto].
  destruct (total =? 0) eqn:Hz; simpl; [|eauto].
  apply Z.eqb_eq in Hz. subst total. discriminate.
Qed.

Lemma int_errors p e :
  int p = inl e -> e = OverflowError \/ e = ValueError.
Proof.
  destruct p as [z|f]; simpl; [discriminate|].
  destruct (Prim2SF f); intros H; inversion H; auto.
Qed.

Ltac int_case H :=
  match type of H with
  | bindE (int ?p) _ = inl _ =>
      let E := fresh "E" in
      destruct (int p) eqn:E; simpl in H;
      [inversion H; subst; eapply int_errors; eassumption|]
  end.

Lemma generate_reports_users_errors total :
  forall items e,
    generate_reports_users total items = inl e ->
    e = OverflowError \/ e = ValueError.
Proof.
  induction items as [|[u s] rest IH]; simpl; intros e H; [discriminate|].
  destruct (percentage_total (total_tasks_assigned s) total) as [q1 Hq1].
  destruct (percentage_total (total_tasks_completed s)
                             (total_tasks_assigned s)) as [q2 Hq2].
  destruct (percentage_total (total_tasks_uncompleted s)
                             (total_tasks_assigned s)) as [q3 Hq3].
  destruct (percentage_total (total_tasks_uncompleted_overdue s)
                             (total_tasks_assigned s)) as [q4 Hq4].
  rewrite Hq1, Hq2, Hq3, Hq4 in H; simpl in H.
  do 4 int_case H.
  destruct (generate_reports_users total rest) eqn:Er; simpl in H;
    [inversion H; subst; eapply IH; reflexivity | discriminate].
Qed.

Lemma generate_reports_figures_after_pass username_password task_data now acc e :
  generate_reports_pass now 1 task_data
    (mktally [] 0 0 0 (initial_user_stats username_password)) = inr acc ->
  generate_reports_figures username_password task_data now = inl e ->
  e = OverflowError \/ e = ValueError.
Proof.
  unfold generate_reports_figures. intros Hp H. rewrite Hp in H; simpl in H.
  destruct (percentage_total (uncompleted_total acc)
                             (Z.of_nat (length (task_list acc)))) as [q1 Hq1].
  destruct (percentage_total (uncompleted_overdue_total acc)
                             (Z.of_nat (length (task_list acc)))) as [q2 Hq2].
  rewrite Hq1, Hq2 in H; simpl in H.
  do 2 int_case H.
  destruct (generate_reports_users _ _) eqn:Er; simpl in H;
    [inversion H; subst; eapply generate_reports_users_errors; eassumption
    | discriminate].
Qed.

Lemma strptime_errors s e : strptime s = inl e -> e = ValueError.
Proof.
  unfold strptime.
  destruct (match_format s) as [[[[dd m] y] rest]|].
  - destruct (negb (is_empty rest)).
    + intros H; inversion H; reflexivity.
    + destruct (valid_date _); intros H; inversion H; reflexivity.
  - intros H; inversion H; reflexivity.
Qed.

Lemma index_errors {A} (l : list A) i e : index l i = inl e -> e = IndexError.
Proof.
  unfold index. destruct (nth_error l i); [discriminate|].
  intros H. inversion H. reflexivity.
Qed.

Lemma create_task_list_from_errors :
  forall task_data i e,
    create_task_list_from i task_data = inl e ->
    e = ValueError \/ e = IndexError.
Proof.
  induction task_data as [|row rest IH]; intros i e H; cbn [create_task_list_from] in H.
  - discriminate.
  - repeat match type of H with
           | bindE ?m _ = inl _ =>
               let E := fresh "E" in
               let e0 := fresh "e" in
               let a := fresh "a" in
               destruct m as [e0|a] eqn:E; cbn [bindE] in H; cbv zeta in H;
               [inversion H; subst e0;
                first [right; eapply index_errors; eassumption
                      | left; eapply strptime_errors; eassumption
                      | eapply IH; eassumption]
               |]
           end.
    discriminate.
Qed.

(** The pass over a list of rows is the pass over its first rows, then
    the pass over the others. *)
Lemma generate_reports_pass_app now :
  forall pre post i acc,
    generate_reports_pass now i (pre ++ post) acc
    = (acc' <-? generate_reports_pass now i pre acc ;;
       generate_reports_pass now (i + Z.of_nat (length pre)) post acc').
Proof.
  induction pre as [|row rest IH]; intros post i acc.
  - cbn [app length generate_reports_pass bindE okE]. unfold okE.
    cbn [bindE]. rewrite Z.add_0_r. reflexivity.
  - cbn [app generate_reports_pass]. cbv zeta.
    repeat match goal with
           | |- bindE ?m _ = bindE (bindE ?m _) _ =>
               let e := fresh "e" in
               let a := fresh "a" in
               destruct m as [e|a]; cbn [bindE]; [reflexivity|]
           end.
    rewrite IH.
    replace (i + 1 + Z.of_nat (length rest))
      with (i + Z.of_nat (length (row :: rest)))
      by (cbn [length]; lia).
    reflexivity.
Qed.

(** A row that [create_task_list] cannot read stops the pass with the
    same exception, before any counter is touched. *)
Lemma generate_reports_pass_malformed now i row rest acc e :
  create_task_list_from i [row] = inl e ->
  generate_reports_pass now i (row :: rest) acc = inl e.
Proof.
  cbn [create_task_list_from generate_reports_pass]. cbv zeta.
  repeat match goal with
         | |- bindE ?m _ = inl _ -> _ =>
             let e0 := fresh "e" in
             let a := fresh "a" in
             destruct m as [e0|a]; cbn [bindE]; cbv zeta;
             [intros H; injection H as ->; reflexivity|]
         end.
  discriminate.
Qed.

Lemma generate_reports_figures_stops username_password task_data now e :
  generate_reports_pass now 1 task_data
    (mktally [] 0 0 0 (initial_user_stats username_password)) = inl e ->
  generate_reports_figures username_password task_data now = inl e
  /\ display_stats_figures username_password task_data now = inl e.
Proof.
  intros H.
  assert (Hg : generate_reports_figures username_password task_data now
               = inl e).
  { unfold generate_reports_figures. rewrite H. reflexivity. }
  split; [exact Hg|].
  pose proof (display_stats_figures_eq username_password task_data now).
  congruence.
Qed.

(** C10, as the code has it.  Let the first rows of the task data be
    well formed.  If the task of one of them has a username that is not a
    key of the credential mapping, both statistics functions end in the
    [KeyError] raised for the first such task, instead of figures,
    whatever the rows after it are.  If every one of them has a
    registered username, then: when they are all the rows, the pass
    completes and no [KeyError] is raised afterwards; when the row that
    follows them is not well formed, both functions end in the
    [IndexError] or [ValueError] of that row, and no username is looked
    up after it. *)
Theorem statistics_need_registered_owners :
  forall username_password task_data now pre post tasks,
    task_data = (pre ++ post)%list ->
    create_task_list pre = inr tasks ->
    match find (unknown_owner username_password) tasks with
    | Some t =>
        dict_mem (username t) username_password = false
        /\ generate_reports_figures username_password task_data now
           = inl (KeyError (username t))
        /\ display_stats_figures username_password task_data now
           = inl (KeyError (username t))
    | None =>
        match post with
        | [] =>
            (exists acc,
                generate_reports_pass now 1 task_data
                  (mktally [] 0 0 0 (initial_user_stats username_password))
                = inr acc)
            /\ forall k,
                generate_reports_figures username_password task_data now
                <> inl (KeyError k)
                /\ display_stats_figures username_password task_data now
                   <> inl (KeyError k)
        | row :: _ =>
            forall e,
              create_task_list_from (1 + Z.of_nat (length pre)) [row] = inl e ->
              (e = ValueError \/ e = IndexError)
              /\ generate_reports_figures username_password task_data now
                 = inl e
              /\ display_stats_figures username_password task_data now
                 = inl e
        end
    end.
Proof.
  intros up data now pre post tasks Hdata Hl. subst data.
  pose proof (generate_reports_pass_outcome now pre 1
                (mktally [] 0 0 0 (initial_user_stats up)) tasks Hl) as Hp.
  cbn [user_stats] in Hp.
  rewrite (find_ext (unknown_owner (initial_user_stats up))
                    (unknown_owner up)) in Hp
    by (intros t; unfold unknown_owner;
        rewrite initial_user_stats_mem; reflexivity).
  pose proof (generate_reports_pass_app now pre post 1
                (mktally [] 0 0 0 (initial_user_stats up))) as Happ.
  destruct (find (unknown_owner up) tasks) as [t|] eqn:Hf.
  - apply find_some in Hf. destruct Hf as [_ Hf].
    unfold unknown_owner in Hf. apply negb_true_iff in Hf.
    split; [exact Hf|].
    apply generate_reports_figures_stops.
    rewrite Happ, Hp. reflexivity.
  - destruct Hp as (acc & Hp & _). rewrite Hp in Happ. cbn [bindE] in Happ.
    destruct post as [|row post'].
    + cbn [generate_reports_pass] in Happ.
      split; [exists acc; exact Happ|].
      pose proof (display_stats_figures_eq up (pre ++ []) now) as Hd.
      assert (Hg : forall k, generate_reports_figures up (pre ++ []) now
                             <> inl (KeyError k)).
      { intros k H.
        destruct (generate_reports_figures_after_pass _ _ _ _ _ Happ H);
          discriminate. }
      intros k. split; [apply Hg|]. rewrite Hd. apply Hg.
    + intros e He.
      split; [exact (create_task_list_from_errors _ _ _ He)|].
      apply generate_reports_figures_stops.
      rewrite Happ.
      apply generate_reports_pass_malformed. exact He.
Qed.

(** ** Per-user counters *)

Lemma counted_nil now u s : counted now u [] s = s.
Proof.
  unfold counted. rewrite !count_nil, !Z.add_0_r. destruct s; reflexivity.
Qed.

Lemma increment_get u bump d d' :
  increment u bump d = inr d' ->
  forall k,
    dict_get k d'
    = if String.eqb k u then option_map bump (dict_get k d)
      else dict_get k d.
Proof.
  unfold increment, dict_item. intros H k.
  destruct (dict_get u d) as [s|] eqn:Hs; simpl in H; [|discriminate].
  inversion H; subst d'; clear H.
  destruct (String.eqb k u) eqn:Hk.
  - apply String.eqb_eq in Hk. subst k.
    rewrite dict_get_set_same, Hs. reflexivity.
  - apply String.eqb_neq in Hk.
    rewrite dict_get_set_other by exact Hk. reflexivity.
Qed.

Lemma counted_cons now u t l s :
  counted now u (t :: l) s
  = counted now u l (if owned_by u t then seen now t s else s).
Proof.
  unfold counted, seen, overdue, uncompleted. rewrite !count_cons.
  cbv beta.
  destruct (owned_by u t), (completed t),
    (datetime_le (midnight (due_date t)) now);
    destruct s; simpl; f_equal; lia.
Qed.

Lemma generate_reports_pass_user_stats now :
  forall task_data i acc acc' tasks,
    generate_reports_pass now i task_data acc = inr acc' ->
    create_task_list_from i task_data = inr tasks ->
    forall u,
      dict_get u (user_stats acc')
      = option_map (counted now u tasks) (dict_get u (user_stats acc)).
Proof.
  induction task_data as [|row rest IH]; intros i acc acc' tasks H Hl u;
    simpl in H, Hl.
  - inversion H; inversion Hl; subst.
    destruct (dict_get u (user_stats acc')); simpl; [|reflexivity].
    rewrite counted_nil. reflexivity.
  - do 8 invert_bindE H.
    apply bindE_inr in H. destruct H as (step & Hstep & H).
    apply bindE_inr in H. destruct H as (stats & Hstats & H).
    rewrite Hm, Hm0, Hm1, Hm2 in Hl; simpl in Hl.
    rewrite Hm3 in Hl; simpl in Hl. rewrite Hm4 in Hl; simpl in Hl.
    rewrite Hm5 in Hl; simpl in Hl. rewrite Hm6 in Hl; simpl in Hl.
    apply bindE_inr in Hl. destruct Hl as (others & Hothers & Hl).
    inversion Hl; subst tasks; clear Hl.
    rewrite yes_test.
    rewrite (IH _ _ _ _ H Hothers u); simpl.
    set (t := mktask i v v0 v1 v3 v5 (String.eqb v6 "Yes") None).
    assert (Hget :
              dict_get u stats
              = option_map (fun s => if owned_by u t then seen now t s else s)
                           (dict_get u (user_stats acc))).
    { rewrite (increment_get _ _ _ _ Hstats u).
      unfold owned_by, seen. subst t. simpl in *.
      rewrite (String.eqb_sym v u).
      destruct (String.eqb v6 "Yes"); simpl in *.
      - invert_bindE Hstep. inversion Hstep; subst step; simpl.
        rewrite (increment_get _ _ _ _ Hm7 u).
        destruct (String.eqb u v);
          destruct (dict_get u (user_stats acc)); reflexivity.
      - invert_bindE Hstep.
        destruct (datetime_le (midnight v3) now).
        + invert_bindE Hstep. inversion Hstep; subst step; simpl.
          rewrite (increment_get _ _ _ _ Hm8 u).
          rewrite (increment_get _ _ _ _ Hm7 u).
          destruct (String.eqb u v);
            destruct (dict_get u (user_stats acc)); reflexivity.
        + inversion Hstep; subst step; simpl.
          rewrite (increment_get _ _ _ _ Hm7 u).
          destruct (String.eqb u v);
            destruct (dict_get u (user_stats acc)); reflexivity. }
    rewrite Hget.
    destruct (dict_get u (user_stats acc)) as [s|]; simpl; [|reflexivity].
    rewrite counted_cons. reflexivity.
Qed.

(** ** The keys of [user_stats] *)

Lemma dict_keys_set {V} k (v : V) :
  forall d,
    dict_keys (dict_set k v d)
    = if dict_mem k d then dict_keys d else (dict_keys d ++ [k])%list.
Proof.
  unfold dict_mem.
  induction d as [|[k' v'] d IH]; simpl.
  - reflexivity.
  - destruct (String.eqb k' k) eqn:Hk; simpl.
    + apply String.eqb_eq in Hk. subst k'. reflexivity.
    + rewrite IH. destruct (dict_get k d); reflexivity.
Qed.

Lemma dict_mem_false_not_in {V} k :
  forall d : dict V, dict_mem k d = false -> ~ In k (dict_keys d).
Proof.
  intros d H. rewrite dict_mem_keys in H. intros Hin.
  assert (existsb (String.eqb k) (dict_keys d) = true).
  { apply existsb_exists. exists k. split; [exact Hin|].
    apply String.eqb_refl. }
  congruence.
Qed.

Lemma dict_set_nodup {V} k (v : V) d :
  NoDup (dict_keys d) -> NoDup (dict_keys (dict_set k v d)).
Proof.
  intros Hd. rewrite dict_keys_set.
  destruct (dict_mem k d) eqn:Hk; [exact Hd|].
  apply NoDup_app; [exact Hd | constructor; [intros [] | constructor] |].
  intros x Hx [Hx'|[]]. subst x.
  exact (dict_mem_false_not_in k d Hk Hx).
Qed.

Lemma initial_user_stats_nodup username_password :
  NoDup (dict_keys (initial_user_stats username_password)).
Proof.
  unfold initial_user_stats.
  generalize (dict_keys username_password).
  assert (H : NoDup (dict_keys (@nil (string * user_stat))))
    by constructor.
  revert H. generalize (@nil (string * user_stat)).
  intros d H keys. revert d H.
  induction keys as [|k keys IH]; intros d H; simpl.
  - exact H.
  - apply IH. apply dict_set_nodup. exact H.
Qed.

Lemma increment_keys u bump d d' :
  increment u bump d = inr d' -> dict_keys d' = dict_keys d.
Proof.
  unfold increment, dict_item. intros H.
  destruct (dict_get u d) as [s|] eqn:Hs; simpl in H; [|discriminate].
  inversion H; subst d'. rewrite dict_keys_set.
  unfold dict_mem. rewrite Hs. reflexivity.
Qed.

Lemma generate_reports_pass_keys now :
  forall task_data i acc acc',
    generate_reports_pass now i task_data acc = inr acc' ->
    dict_keys (user_stats acc') = dict_keys (user_stats acc).
Proof.
  induction task_data as [|row rest IH]; intros i acc acc' H; simpl in H.
  - inversion H. reflexivity.
  - do 8 invert_bindE H.
    apply bindE_inr in H. destruct H as (step & Hstep & H).
    apply bindE_inr in H. destruct H as (stats & Hstats & H).
    apply IH in H. simpl in H. rewrite H.
    rewrite (increment_keys _ _ _ _ Hstats).
    simpl in Hstep. destruct (String.eqb v6 "Yes"); simpl in Hstep.
    + invert_bindE Hstep. inversion Hstep; subst step; simpl.
      eapply increment_keys; eassumption.
    + invert_bindE Hstep. destruct (datetime_le (midnight v3) now).
      * invert_bindE Hstep. inversion Hstep; subst step; simpl.
        rewrite (increment_keys _ _ _ _ Hm8).
        eapply increment_keys; eassumption.
      * inversion Hstep; subst step; simpl.
        eapply increment_keys; eassumption.
Qed.

Lemma dict_get_in {V} :
  forall (d : dict V) k v,
    NoDup (dict_keys d) -> In (k, v) d -> dict_get k d = Some v.
Proof.
  induction d as [|[k' v'] d IH]; intros k v Hnd Hin; simpl in *.
  - contradiction.
  - inversion Hnd as [|? ? Hnotin Hnd']; subst.
    destruct Hin as [Heq|Hin].
    + inversion Heq; subst. rewrite String.eqb_refl. reflexivity.
    + destruct (String.eqb k' k) eqn:Hk.
      * apply String.eqb_eq in Hk. subst k'.
        exfalso. apply Hnotin. apply (in_map fst) in Hin. exact Hin.
      * apply IH; assumption.
Qed.

Lemma Forall2_Forall_right {A B} (R : A -> B -> Prop) (Q : B -> Prop) :
  forall l1 l2,
    Forall2 R l1 l2 ->
    (forall a b, In a l1 -> R a b -> Q b) ->
    Forall Q l2.
Proof.
  induction 1 as [|a b l1 l2 Hab _ IH]; intros HQ; constructor.
  - apply (HQ a b); [left; reflexivity | exact Hab].
  - apply IH. intros a' b' Hin. apply HQ. right. exact Hin.
Qed.

Lemma create_task_list_from_length :
  forall task_data i tasks,
    create_task_list_from i task_data = inr tasks ->
    length tasks = length task_data.
Proof.
  induction task_data as [|row rest IH]; intros i tasks H; simpl in H.
  - inversion H. reflexivity.
  - do 9 invert_bindE H. inversion H; subst; simpl.
    f_equal. eapply IH; eassumption.
Qed.


(** ** Dates: [strptime] undoes [strftime] *)

Lemma bounded_forall (P : Z -> bool) (lo : Z) (n : nat) :
  forallb (fun k => P (lo + Z.of_nat k)) (seq 0 n) = true ->
  forall z, lo <= z < lo + Z.of_nat n -> P z = true.
Proof.
  intros H z Hz. rewrite forallb_forall in H.
  specialize (H (Z.to_nat (z - lo))).
  replace (lo + Z.of_nat (Z.to_nat (z - lo))) with z in H by lia.
  apply H. apply in_seq. lia.
Qed.

Lemma option_is_eq o z : option_is o z = true -> o = Some z.
Proof.
  destruct o as [v|]; simpl; [|discriminate].
  intros H. apply Z.eqb_eq in H. congruence.
Qed.

Lemma day_two_pad d :
  1 <= d <= 31 ->
  day_two (digit (d / 10 mod 10)) (digit (d mod 10)) = Some d.
Proof.
  intros H. apply option_is_eq.
  apply (bounded_forall
           (fun d => option_is
                       (day_two (digit (d / 10 mod 10)) (digit (d mod 10))) d)
           1 31); [vm_compute; reflexivity | lia].
Qed.

Lemma month_two_pad m :
  1 <= m <= 12 ->
  month_two (digit (m / 10 mod 10)) (digit (m mod 10)) = Some m.
Proof.
  intros H. apply option_is_eq.
  apply (bounded_forall
           (fun m => option_is
                       (month_two (digit (m / 10 mod 10)) (digit (m mod 10)))
                       m)
           1 12); [vm_compute; reflexivity | lia].
Qed.

Lemma digit_is_digit k :
  0 <= k < 10 -> is_digit (digit k) = true /\ digit_val (digit k) = k.
Proof.
  intros H.
  assert (Hb : is_digit (digit k) && (digit_val (digit k) =? k) = true).
  { apply (bounded_forall
             (fun k => is_digit (digit k) && (digit_val (digit k) =? k))
             0 10); [vm_compute; reflexivity | lia]. }
  apply andb_true_iff in Hb. destruct Hb as [H1 H2].
  apply Z.eqb_eq in H2. split; assumption.
Qed.

Lemma re_Y_pad4 y :
  0 <= y <= 9999 -> re_Y (pad4 y) = Some (y, EmptyString).
Proof.
  intros H. unfold pad4, re_Y.
  destruct (digit_is_digit (y / 1000 mod 10)) as [H3 V3];
    [apply Z.mod_pos_bound; lia|].
  destruct (digit_is_digit (y / 100 mod 10)) as [H2 V2];
    [apply Z.mod_pos_bound; lia|].
  destruct (digit_is_digit (y / 10 mod 10)) as [H1 V1];
    [apply Z.mod_pos_bound; lia|].
  destruct (digit_is_digit (y mod 10)) as [H0 V0];
    [apply Z.mod_pos_bound; lia|].
  rewrite H3, H2, H1, H0, V3, V2, V1, V0. simpl andb. cbv iota.
  do 2 f_equal. 
  assert (y / 1000 mod 10 = y / 1000)
    by (apply Z.mod_small; split;
        [apply Z.div_pos; lia | apply Z.div_lt_upper_bound; lia]).
  Z.div_mod_to_equations. lia.
Qed.

Lemma match_format_chars c1 c2 c3 c4 ys d m y :
  day_two c1 c2 = Some d ->
  month_two c3 c4 = Some m ->
  re_Y ys = Some (y, EmptyString) ->
  match_format
    (String c1 (String c2 (String "-" (String c3 (String c4 (String "-" ys))))))
  = Some (d, m, y, EmptyString).
Proof.
  intros Hd Hm Hy. unfold match_format, re_d. rewrite Hd. simpl.
  rewrite Hm. simpl. rewrite Hy. reflexivity.
Qed.

Lemma days_in_month_le y m : days_in_month y m <= 31.
Proof.
  unfold days_in_month.
  destruct (m =? 2); [destruct (is_leap y); lia|].
  destruct ((m =? 4) || (m =? 6) || (m =? 9) || (m =? 11)); lia.
Qed.

Lemma valid_date_bounds d :
  valid_date d = true ->
  1 <= year d <= 9999 /\ 1 <= month d <= 12 /\ 1 <= day d <= 31.
Proof.
  unfold valid_date. intros H.
  repeat (apply andb_true_iff in H; destruct H as [H ?]).
  repeat match goal with
         | H : (_ <=? _) = true |- _ => apply Z.leb_le in H
         end.
  pose proof (days_in_month_le (year d) (month d)). lia.
Qed.

Lemma str_pad4 y : 1000 <= y <= 9999 -> str y = pad4 y.
Proof.
  intros H. apply String.eqb_eq.
  apply (bounded_forall (fun y => String.eqb (str y) (pad4 y)) 1000
                        (Z.to_nat 9000));
    [vm_compute; reflexivity | lia].
Qed.

Lemma strptime_strftime d :
  reloadable d = true -> strptime (strftime d) = inr d.
Proof.
  unfold reloadable. intros Hr.
  apply andb_true_iff in Hr. destruct Hr as [Hv Hk].
  apply Z.leb_le in Hk.
  destruct (valid_date_bounds d Hv) as (Hy & Hm & Hd).
  unfold strptime.
  replace (strftime d)
    with (String (digit (day d / 10 mod 10))
            (String (digit (day d mod 10))
               (String "-"
                  (String (digit (month d / 10 mod 10))
                     (String (digit (month d mod 10))
                        (String "-" (pad4 (year d))))))))
    by (unfold strftime; rewrite (str_pad4 (year d)) by lia; reflexivity).
  rewrite (match_format_chars _ _ _ _ _ (day d) (month d) (year d)).
  - simpl negb. cbv iota. destruct d as [y m dd].
    unfold year, month, day. rewrite Hv. reflexivity.
  - apply day_two_pad. exact Hd.
  - apply month_two_pad. exact Hm.
  - apply re_Y_pad4. lia.
Qed.

(** ** Text without delimiters *)

Lemma contains_app c a b :
  contains c (a ++ b) = contains c a || contains c b.
Proof.
  induction a as [|x a IH]; simpl.
  - reflexivity.
  - rewrite IH. apply orb_assoc.
Qed.

Lemma plain_app a b : plain (a ++ b) = plain a && plain b.
Proof.
  induction a as [|x a IH]; simpl.
  - reflexivity.
  - rewrite IH. apply andb_assoc.
Qed.

Lemma plain_contains s c :
  plain s = true -> delimiter c = true -> contains c s = false.
Proof.
  intros Hs Hc. induction s as [|x s IH]; simpl in *.
  - reflexivity.
  - apply andb_true_iff in Hs. destruct Hs as [Hx Hs].
    rewrite (IH Hs), orb_false_r.
    destruct (Ascii.eqb x c) eqn:Hxc; [|reflexivity].
    apply Ascii.eqb_eq in Hxc. subst x. rewrite Hc in Hx. discriminate.
Qed.

Lemma split_app_sep sep a b :
  contains sep a = false ->
  split sep (a ++ String sep b) = a :: split sep b.
Proof.
  induction a as [|x a IH]; simpl; intros H.
  - rewrite Ascii.eqb_refl. reflexivity.
  - apply orb_false_iff in H. destruct H as [Hx Ha].
    rewrite Hx, (IH Ha). reflexivity.
Qed.

Lemma split_none sep a : contains sep a = false -> split sep a = [a].
Proof.
  induction a as [|x a IH]; simpl; intros H.
  - reflexivity.
  - apply orb_false_iff in H. destruct H as [Hx Ha].
    rewrite Hx, (IH Ha). reflexivity.
Qed.

Lemma universal_newlines_id s :
  contains CR s = false -> universal_newlines s = s.
Proof.
  induction s as [|x s IH]; simpl; intros H.
  - reflexivity.
  - apply orb_false_iff in H. destruct H as [Hx Hs].
    rewrite Hx, (IH Hs). reflexivity.
Qed.

Lemma is_empty_app_char a c b : is_empty (a ++ String c b) = false.
Proof. destruct a; reflexivity. Qed.

Lemma digit_plain k : 0 <= k < 10 -> delimiter (digit k) = false.
Proof.
  intros H. apply negb_true_iff.
  apply (bounded_forall (fun k => negb (delimiter (digit k))) 0 10);
    [vm_compute; reflexivity | lia].
Qed.

Lemma plain_cons c r : plain (String c r) = negb (delimiter c) && plain r.
Proof. reflexivity. Qed.

Lemma plain_pad2 n : plain (pad2 n) = true.
Proof.
  unfold pad2. rewrite !plain_cons.
  rewrite !digit_plain by (apply Z.mod_pos_bound; lia). reflexivity.
Qed.

Lemma plain_pad4 n : plain (pad4 n) = true.
Proof.
  unfold pad4. rewrite !plain_cons.
  rewrite !digit_plain by (apply Z.mod_pos_bound; lia). reflexivity.
Qed.

Lemma plain_string_of_uint u : plain (NilEmpty.string_of_uint u) = true.
Proof. induction u; simpl; try rewrite IHu; reflexivity. Qed.

Lemma plain_str i : plain (str i) = true.
Proof.
  unfold str, NilZero.string_of_int.
  destruct (Z.to_int i) as [u|u]; unfold NilZero.string_of_uint;
    destruct u; simpl; try rewrite plain_string_of_uint; reflexivity.
Qed.

Lemma plain_strftime d : plain (strftime d) = true.
Proof.
  unfold strftime. rewrite !plain_app, !plain_pad2, plain_str. reflexivity.
Qed.

Lemma plain_yes_no b : plain (yes_no b) = true.
Proof. destruct b; reflexivity. Qed.

(** ** Writing the task file and reading it back *)

Lemma write_tasks_from_cons i t rest last :
  fst (write_tasks_from i (t :: rest) last)
  = task_record i t
    ++ String LF (fst (write_tasks_from (i + 1) rest (Some i))).
Proof.
  simpl. destruct (write_tasks_from (i + 1) rest (Some i)). reflexivity.
Qed.

Lemma write_tasks_from_last :
  forall l i j, exists k, snd (write_tasks_from i l (Some j)) = Some k.
Proof.
  induction l as [|t rest IH]; intros i j; simpl.
  - eauto.
  - destruct (IH (i + 1) i) as [k Hk].
    destruct (write_tasks_from (i + 1) rest (Some i)); simpl in *. eauto.
Qed.

Lemma concat_cons2 sep a b rest :
  String.concat sep (a :: b :: rest)
  = a ++ sep ++ String.concat sep (b :: rest).
Proof. reflexivity. Qed.

Lemma split_join sep :
  forall parts,
    parts <> [] ->
    Forall (fun s => contains sep s = false) parts ->
    split sep (join (String sep EmptyString) parts) = parts.
Proof.
  unfold join.
  induction parts as [|a parts IH]; intros Hne H; [congruence|].
  inversion H as [|? ? Ha Hparts]; subst.
  destruct parts as [|b rest].
  - simpl. apply split_none. exact Ha.
  - rewrite concat_cons2.
    change (String sep EmptyString ++ String.concat (String sep EmptyString)
                                        (b :: rest))
      with (String sep (String.concat (String sep EmptyString) (b :: rest))).
    rewrite split_app_sep by exact Ha.
    rewrite IH; [reflexivity | discriminate | exact Hparts].
Qed.

Lemma contains_join c sep :
  contains c sep = false ->
  forall parts,
    Forall (fun s => contains c s = false) parts ->
    contains c (join sep parts) = false.
Proof.
  unfold join. intros Hsep.
  induction parts as [|a parts IH]; intros H; [reflexivity|].
  inversion H as [|? ? Ha Hparts]; subst.
  destruct parts as [|b rest].
  - exact Ha.
  - rewrite concat_cons2, !contains_app, Ha, Hsep, (IH Hparts).
    reflexivity.
Qed.

Lemma task_record_parts t c i :
  plain (username t) = true -> plain (title t) = true ->
  plain (description t) = true ->
  delimiter c = true ->
  Forall (fun s => contains c s = false)
         [str i; username t; title t; description t;
          strftime (due_date t); strftime (assigned_date t);
          yes_no (completed t)].
Proof.
  intros Hu Ht Hd Hc.
  repeat constructor; apply plain_contains;
    first [exact Hc | assumption | apply plain_str | apply plain_strftime
          | apply plain_yes_no].
Qed.

Lemma task_record_fields i t :
  plain (username t) = true -> plain (title t) = true ->
  plain (description t) = true ->
  split SEMI (task_record i t)
  = [str i; username t; title t; description t;
     strftime (due_date t); strftime (assigned_date t);
     yes_no (completed t)].
Proof.
  intros Hu Ht Hd. unfold task_record.
  apply (split_join SEMI); [discriminate|].
  apply task_record_parts; auto.
Qed.

Lemma task_record_one_line i t c :
  plain (username t) = true -> plain (title t) = true ->
  plain (description t) = true ->
  delimiter c = true -> Ascii.eqb SEMI c = false ->
  contains c (task_record i t) = false.
Proof.
  intros Hu Ht Hd Hc Hsemi. unfold task_record.
  apply contains_join.
  - change (contains c ";") with (Ascii.eqb SEMI c || false).
    rewrite Hsemi. reflexivity.
  - apply task_record_parts; auto.
Qed.

Lemma task_record_not_empty i t : is_empty (task_record i t) = false.
Proof.
  unfold task_record, join. rewrite concat_cons2.
  apply (is_empty_app_char (str i) SEMI).
Qed.

Lemma storable_parts t :
  storable t = true ->
  plain (username t) = true /\ plain (title t) = true
  /\ plain (description t) = true
  /\ reloadable (due_date t) = true /\ reloadable (assigned_date t) = true.
Proof.
  unfold storable. intros H.
  repeat (apply andb_true_iff in H; destruct H as [H ?]). auto.
Qed.

Lemma yes_no_test b :
  (if String.eqb (yes_no b) "Yes" then true else false) = b.
Proof. destruct b; reflexivity. Qed.

Lemma written_text_no_cr :
  forall l i last,
    Forall (fun t => storable t = true) l ->
    contains CR (fst (write_tasks_from i l last)) = false.
Proof.
  induction l as [|t rest IH]; intros i last H.
  - reflexivity.
  - inversion H as [|? ? Ht Hrest]; subst.
    destruct (storable_parts t Ht) as (Hu & Hti & Hd & _ & _).
    rewrite write_tasks_from_cons, contains_app.
    rewrite task_record_one_line by (auto; reflexivity).
    change (contains CR (String LF ?x)) with (Ascii.eqb LF CR || contains CR x).
    rewrite (IH _ _ Hrest). reflexivity.
Qed.

Lemma written_text_rows :
  forall l i last,
    Forall (fun t => storable t = true) l ->
    create_task_list_from i
      (map (split SEMI)
           (filter (fun line => negb (is_empty line))
                   (split LF (fst (write_tasks_from i l last)))))
    = inr (renumber i l).
Proof.
  induction l as [|t rest IH]; intros i last H.
  - reflexivity.
  - inversion H as [|? ? Ht Hrest]; subst.
    destruct (storable_parts t Ht) as (Hu & Hti & Hd & Hdue & Hass).
    rewrite write_tasks_from_cons.
    rewrite split_app_sep by (apply task_record_one_line; auto; reflexivity).
    cbn [filter]. rewrite task_record_not_empty. cbn [negb map].
    rewrite task_record_fields by assumption.
    cbn [create_task_list_from index nth_error bindE okE].
    rewrite !strptime_strftime by assumption.
    cbn [bindE]. rewrite (IH _ _ Hrest). cbn [bindE okE renumber].
    rewrite yes_no_test. reflexivity.
Qed.

Lemma renumber_length : forall l i, length (renumber i l) = length l.
Proof.
  induction l as [|t rest IH]; intros i; simpl; [|rewrite IH]; reflexivity.
Qed.

Lemma renumber_nth :
  forall l i k t,
    nth_error l k = Some t ->
    exists t',
      nth_error (renumber i l) k = Some t'
      /\ same_record t t'
      /\ number t' = i + Z.of_nat k.
Proof.
  induction l as [|x rest IH]; intros i k t H.
  - destruct k; discriminate.
  - destruct k as [|k]; simpl in H.
    + inversion H; subst x. eexists. split; [reflexivity|].
      split; [repeat split | simpl; lia].
    + destruct (IH (i + 1) k t H) as (t' & Hn & Hs & Hnum).
      exists t'. split; [exact Hn|]. split; [exact Hs|]. lia.
Qed.

Lemma write_tasks_from_last_cons i t rest last :
  exists k, snd (write_tasks_from i (t :: rest) last) = Some k.
Proof.
  simpl. destruct (write_tasks_from_last rest (i + 1) i) as [k Hk].
  destruct (write_tasks_from (i + 1) rest (Some i)); simpl in *. eauto.
Qed.

Lemma write_new_task_to_tasks_file_text t rest w :
  exists w1,
    write_new_task_to_tasks_file (t :: rest) w = (inr tt, w1)
    /\ tasks_txt w1 = Some (fst (write_tasks_from 1 (t :: rest) None)).
Proof.
  unfold write_new_task_to_tasks_file.
  destruct (write_tasks_from_last_cons 1 t rest None) as [k Hk].
  destruct (write_tasks_from 1 (t :: rest) None) as [text last].
  simpl in Hk. subst last.
  eexists. split; reflexivity.
Qed.

(** C9, as the code has it: a non-empty task list whose usernames,
    titles and descriptions hold no [;], line feed or carriage return,
    and whose dates are dates of the calendar from the year 1000 on, is
    written by [write_new_task_to_tasks_file] and read back by
    [read_tasks_file] and [create_task_list] as the same records in the
    same order, with equal username, title, description, due date,
    assigned date and completed flag, numbered from 1. *)
Theorem tasks_file_round_trip :
  forall task_list w,
    task_list <> [] ->
    Forall (fun t => storable t = true) task_list ->
    round_trips task_list w.
Proof.
  intros l w Hne Hst. destruct l as [|t rest]; [congruence|].
  destruct (write_new_task_to_tasks_file_text t rest w) as (w1 & Hw & Htxt).
  exists w1, (renumber 1 (t :: rest)).
  unfold reload, bind, read_tasks_file. rewrite Htxt.
  rewrite universal_newlines_id by (apply written_text_no_cr; exact Hst).
  unfold ret, lift, create_task_list.
  rewrite written_text_rows by exact Hst.
  exists w1. split; [exact Hw|]. split; [reflexivity|].
  split; [apply renumber_length|].
  intros i x Hx. destruct (renumber_nth _ 1 i x Hx) as (t' & Hn & Hs & Hnum).
  exists t'. repeat split; try assumption; try apply Hs. lia.
Qed.

(** ** What printing does to the world *)

Lemma bind_print {A} s (k : unit -> M A) w :
  bind (print s) k w = k tt (emit w s).
Proof. reflexivity. Qed.

Lemma bind_separate_line {A} (k : unit -> M A) w :
  bind separate_line k w
  = k tt (emit w "*-*-*-*-*-*-*-*-*-*-*-*-*-*-*-*-*-*-*-*-*-*-*-*-*-*-*-*-*-*-").
Proof. reflexivity. Qed.

Lemma bind_lift_ok {A B} (a : A) (k : A -> M B) w :
  bind (lift (okE a)) k w = k a w.
Proof. reflexivity. Qed.

Lemma bind_today {A} (k : datetime -> M A) w :
  bind today k w = k (clock w) w.
Proof. reflexivity. Qed.

Lemma bind_ret {A B} (a : A) (k : A -> M B) w :
  bind (ret a) k w = k a w.
Proof. reflexivity. Qed.

Lemma emit_all_app w o1 o2 :
  emit_all w (o1 ++ o2) = emit_all (emit_all w o1) o2.
Proof.
  revert w. induction o1 as [|s o1 IH]; intros w; simpl.
  - reflexivity.
  - apply IH.
Qed.

Lemma emit_all_fields w out :
  user_txt (emit_all w out) = user_txt w
  /\ tasks_txt (emit_all w out) = tasks_txt w
  /\ stdin (emit_all w out) = stdin w
  /\ clock (emit_all w out) = clock w
  /\ stdout (emit_all w out) = (stdout w ++ out)%list.
Proof.
  revert w. induction out as [|s out IH]; intros w; simpl.
  - rewrite app_nil_r. auto.
  - destruct (IH (emit w s)) as (H1 & H2 & H3 & H4 & H5).
    rewrite H1, H2, H3, H4, H5. simpl. rewrite <- app_assoc. auto.
Qed.

(** ** Viewing one's tasks *)

Lemma view_my_tasks_loop_result curr_user :
  forall l i found w,
    view_my_tasks_loop curr_user i l found w
    = (inr (my_tasks_from curr_user i l,
            found || existsb (owned_by curr_user) l),
       emit_all w (view_lines curr_user l)).
Proof.
  induction l as [|t rest IH]; intros i found w.
  - simpl. rewrite orb_false_r. reflexivity.
  - cbn [view_my_tasks_loop my_tasks_from view_lines existsb].
    unfold owned_by at 1.
    destruct (String.eqb (username t) curr_user).
    + rewrite bind_separate_line. cbv beta.
      repeat (rewrite bind_print; cbv beta).
      unfold bind at 1. rewrite IH. cbn [fst snd ret].
      rewrite orb_true_r. reflexivity.
    + rewrite IH. reflexivity.
Qed.

Lemma create_task_list_from_numbers :
  forall task_data i l,
    create_task_list_from i task_data = inr l ->
    forall k t, nth_error l k = Some t -> number t = i + Z.of_nat k.
Proof.
  induction task_data as [|row rest IH]; intros i l H k t Hk; simpl in H.
  - inversion H; subst. destruct k; discriminate.
  - do 9 invert_bindE H. inversion H; subst l; clear H.
    destruct k as [|k]; simpl in Hk.
    + inversion Hk; subst t. simpl. lia.
    + rewrite (IH _ _ Hm7 k t Hk). lia.
Qed.

Lemma my_tasks_from_spec curr_user :
  forall l i,
    (forall k t, nth_error l k = Some t -> number t = i + Z.of_nat k) ->
    my_tasks_from curr_user i l
    = map (fun t => set_task_number t (number t))
          (filter (owned_by curr_user) l).
Proof.
  induction l as [|x rest IH]; intros i H; simpl.
  - reflexivity.
  - assert (Hx : number x = i).
    { rewrite (H 0%nat x eq_refl). simpl. lia. }
    assert (Hrest : forall k t,
               nth_error rest k = Some t -> number t = i + 1 + Z.of_nat k).
    { intros k t Hk. rewrite (H (S k) t Hk). lia. }
    unfold owned_by at 1.
    destruct (String.eqb (username x) curr_user); simpl.
    + rewrite Hx, (IH (i + 1) Hrest). reflexivity.
    + apply IH. exact Hrest.
Qed.

Lemma view_my_tasks_option_result curr_user w task_data all :
  fst (read_tasks_file w) = inr task_data ->
  create_task_list task_data = inr all ->
  exists w',
    view_my_tasks_option curr_user w
    = (inr (my_tasks_from curr_user 1 all), w').
Proof.
  unfold view_my_tasks_option. intros Hread Hall.
  unfold bind at 1.
  destruct (read_tasks_file w) as [r w1]. simpl in Hread. subst r.
  unfold bind at 1. unfold lift. rewrite Hall.
  rewrite bind_separate_line. cbv beta.
  rewrite bind_print. cbv beta.
  rewrite bind_separate_line. cbv beta.
  unfold bind at 1. rewrite view_my_tasks_loop_result.
  destruct (false || existsb (owned_by curr_user) all); cbn [negb].
  - rewrite bind_ret. eexists. reflexivity.
  - rewrite bind_print. eexists. reflexivity.
Qed.

(** C1, as the code has it: whenever the task file can be read, the view
    returns the user's tasks, in the order of the file, and each carries
    as [task_number] its own [number], which is its 1-based position in
    the full task list. *)
Theorem task_number_is_position_in_full_list :
  forall curr_user w task_data all,
    fst (read_tasks_file w) = inr task_data ->
    create_task_list task_data = inr all ->
    exists my w',
      view_my_tasks_option curr_user w = (inr my, w')
      /\ my = map (fun t => set_task_number t (number t))
                  (filter (owned_by curr_user) all)
      /\ forall t,
          In t my ->
          exists k t0,
            nth_error all k = Some t0
            /\ username t0 = curr_user
            /\ t = set_task_number t0 (Z.of_nat k + 1).
Proof.
  intros u w task_data all Hread Hall.
  destruct (view_my_tasks_option_result u w task_data all Hread Hall)
    as (w' & Hview).
  assert (Hnum : forall k t,
             nth_error all k = Some t -> number t = 1 + Z.of_nat k).
  { apply (create_task_list_from_numbers task_data). exact Hall. }
  rewrite (my_tasks_from_spec u all 1 Hnum) in Hview.
  eexists. exists w'. split; [exact Hview|]. split; [reflexivity|].
  intros t Ht. apply in_map_iff in Ht.
  destruct Ht as (t0 & Ht & Hin). apply filter_In in Hin.
  destruct Hin as [Hin Hown].
  apply In_nth_error in Hin. destruct Hin as [k Hk].
  exists k, t0. split; [exact Hk|]. split.
  - apply String.eqb_eq. exact Hown.
  - rewrite <- Ht, (Hnum k t0 Hk). f_equal. lia.
Qed.

(** ** Editing a locked task *)

Section EditingLocked.

Variable tabulate : list (list string) -> list string -> string.

Lemma edit_selected_task_locked t n w :
  task_number t = Some n ->
  locked (clock w) t = true ->
  edit_selected_task tabulate t w
  = (inr (t, Break),
     emit_all w (detail_lines t n ++ [eligibility_message])).
Proof.
  intros Htn Hlocked. unfold edit_selected_task.
  rewrite bind_separate_line. cbv beta.
  rewrite bind_print. cbv beta.
  rewrite bind_separate_line. cbv beta.
  rewrite Htn, bind_lift_ok.
  repeat (rewrite bind_print; cbv beta).
  rewrite bind_today. cbv beta. cbn [clock emit].
  assert (Hcond : negb (completed t)
                  && datetime_gt (midnight (due_date t)) (clock w) = false).
  { unfold locked in Hlocked.
    destruct (completed t); [reflexivity|].
    destruct (datetime_gt (midnight (due_date t)) (clock w));
      [discriminate | reflexivity]. }
  rewrite Hcond. rewrite bind_print. reflexivity.
Qed.

Lemma edit_task_loop_locked n t post :
  task_number t = Some n ->
  forall pre found w,
    Forall (fun x => exists k, task_number x = Some k /\ k <> n) pre ->
    locked (clock w) t = true ->
    edit_task_loop tabulate n (pre ++ t :: post)%list found w
    = (inr ((pre ++ t :: post)%list, true, false),
       emit_all w (detail_lines t n ++ [eligibility_message])).
Proof.
  intros Htn.
  induction pre as [|x pre IH]; intros found w Hpre Hlocked.
  - cbn [app edit_task_loop]. rewrite Htn, bind_lift_ok, Z.eqb_refl.
    unfold bind at 1. rewrite (edit_selected_task_locked t n w Htn Hlocked).
    reflexivity.
  - inversion Hpre as [|? ? (k & Hk & Hne) Hpre']; subst.
    cbn [app edit_task_loop]. rewrite Hk, bind_lift_ok.
    apply Z.eqb_neq in Hne. rewrite Hne.
    unfold bind at 1. rewrite (IH found w Hpre' Hlocked). reflexivity.
Qed.

End EditingLocked.

(** C3: when the task selected is locked (completed, or due date not in
    the future), [edit_task_details] reads nothing of what the operator
    would type to reassign, reschedule or complete it, prints the
    eligibility message last, and leaves the task file, the task and the
    whole list as they were. *)
Theorem locked_task_is_not_edited :
  forall tabulate w pre t post edit_specific_task n,
    int_of_string edit_specific_task = inr n ->
    Forall (fun x => exists k, task_number x = Some k /\ k <> n) pre ->
    task_number t = Some n ->
    completed t = true
    \/ datetime_gt (midnight (due_date t)) (clock w) = false ->
    exists w' out,
      edit_task_details tabulate (pre ++ t :: post)%list edit_specific_task w
      = (inr (pre ++ t :: post)%list, w')
      /\ tasks_txt w' = tasks_txt w
      /\ user_txt w' = user_txt w
      /\ stdin w' = stdin w
      /\ stdout w' = (stdout w ++ out ++ [eligibility_message])%list.
Proof.
  intros tab w pre t post sel n Hint Hpre Htn Hlocked.
  assert (Hl : locked (clock w) t = true).
  { unfold locked. destruct Hlocked as [H|H]; rewrite H.
    - reflexivity.
    - apply orb_true_r. }
  exists (emit_all w (detail_lines t n ++ [eligibility_message])).
  exists (detail_lines t n).
  destruct (emit_all_fields w (detail_lines t n ++ [eligibility_message]))
    as (Hu & Ht & Hi & _ & Ho).
  split; [|auto].
  unfold edit_task_details. rewrite Hint.
  unfold bind at 1.
  rewrite (edit_task_loop_locked tab n t post Htn pre false w Hpre Hl).
  reflexivity.
Qed.

(** ** Runs on sample files *)

Lemma sample_file_is_read :
  fst (read_tasks_file (sample_world [])) = inr sample_task_data
  /\ create_task_list sample_task_data = inr sample_tasks.
Proof. split; vm_compute; reflexivity. Qed.

Lemma sample_figures_computed :
  generate_reports_figures sample_users sample_task_data sample_clock
  = inr sample_statistics.
Proof. vm_compute. reflexivity. Qed.

(** *** C1 *)

(** C1, counterexample: with the sample file, the first task returned to
    "alice" is the second task of the file and carries [task_number] 2,
    not 1. *)
Lemma view_numbers_are_not_positions_in_view :
  exists my,
    fst (view_my_tasks_option "alice" (sample_world [])) = inr my
    /\ ~ numbered_within_view my.
Proof.
  exists sample_view. split; [vm_compute; reflexivity|].
  intros H. specialize (H 0%nat _ eq_refl). discriminate.
Qed.

(** The theorem at the sample file, for "alice". *)
Lemma task_number_is_position_in_full_list_witness :
  fst (read_tasks_file (sample_world [])) = inr sample_task_data
  /\ create_task_list sample_task_data = inr sample_tasks
  /\ exists my w',
      view_my_tasks_option "alice" (sample_world []) = (inr my, w')
      /\ my = map (fun t => set_task_number t (number t))
                  (filter (owned_by "alice") sample_tasks)
      /\ forall t,
          In t my ->
          exists k t0,
            nth_error sample_tasks k = Some t0
            /\ username t0 = "alice"
            /\ t = set_task_number t0 (Z.of_nat k + 1).
Proof.
  split; [vm_compute; reflexivity|].
  split; [vm_compute; reflexivity|].
  apply (task_number_is_position_in_full_list
           "alice" (sample_world []) sample_task_data sample_tasks);
    vm_compute; reflexivity.
Defined.

(** *** C2 *)

(** C2, the run that breaks it: the task numbered 2 is open; the
    operator chooses [u], types the unregistered name "ghost", is told
    the user does not exist and types "bob".  The value returned by
    [validate_if_username_registered] is dropped: the task and its line
    in the file get the name "ghost", which is not a key of the
    credential mapping. *)
Theorem reassign_stores_the_unregistered_name :
  exists my w',
    reassign_session (sample_world ["u"; "ghost"; "bob"]) = (inr my, w')
    /\ option_map (locked sample_clock) (nth_error sample_view 0)
       = Some false
    /\ map username my = ["ghost"; "alice"]
    /\ dict_mem "ghost" sample_users = false
    /\ dict_mem "bob" sample_users = true
    /\ stdin w' = []
    /\ tasks_txt w'
       = Some ("1;bob;Write report;quarterly figures;31-12-2099;01-01-2024;No"
               ++ NL
               ++ "2;ghost;Fix bug;desc;31-12-2099;01-01-2024;No" ++ NL
               ++ "3;alice;Old job;late;01-01-2020;01-12-2019;No" ++ NL)
    /\ In (red "User does not exist.") (stdout w')
    /\ In (green "Username successfully updated.") (stdout w').
Proof.
  eexists. eexists. split; [vm_compute; reflexivity|].
  repeat split; try reflexivity.
  - vm_compute. tauto.
  - vm_compute. tauto.
Qed.

(** *** C3 *)

(** The theorem at the sample file: "alice" selects her overdue task and
    has the keys [u], [bob] ready. *)
Lemma locked_task_is_not_edited_witness :
  int_of_string "3" = inr 3
  /\ exists w' out,
      edit_task_details no_menu sample_view "3" (sample_world ["u"; "bob"])
      = (inr sample_view, w')
      /\ tasks_txt w' = tasks_txt (sample_world ["u"; "bob"])
      /\ user_txt w' = user_txt (sample_world ["u"; "bob"])
      /\ stdin w' = ["u"; "bob"]
      /\ stdout w' = (out ++ [eligibility_message])%list.
Proof.
  split; [reflexivity|].
  apply (locked_task_is_not_edited
           no_menu (sample_world ["u"; "bob"])
           [mktask 2 "alice" "Fix bug" "desc"
                   (mkdate 2099 12 31) (mkdate 2024 1 1) false (Some 2)]
           (mktask 3 "alice" "Old job" "late"
                   (mkdate 2020 1 1) (mkdate 2019 12 1) false (Some 3))
           [] "3" 3).
  - reflexivity.
  - constructor; [|constructor]. exists 2. split; [reflexivity | lia].
  - reflexivity.
  - right. reflexivity.
Defined.

(** *** C5, C6, C8 *)

(** The theorem at the sample file. *)
Lemma global_counts_add_up_witness :
  generate_reports_figures sample_users sample_task_data sample_clock
  = inr sample_statistics
  /\ exists tasks,
      create_task_list sample_task_data = inr tasks
      /\ 3 = Z.of_nat (length tasks)
      /\ 0 = count completed tasks
      /\ 3 = count uncompleted tasks
      /\ 1 = count (overdue sample_clock) tasks
      /\ 0 + 3 = 3
      /\ 1 <= 3.
Proof.
  split; [vm_compute; reflexivity|].
  apply (global_counts_add_up sample_users sample_task_data sample_clock
                              sample_statistics).
  left. vm_compute. reflexivity.
Defined.

(** The theorem at the sample file, where "admin" has no task. *)
Lemma percentages_without_tasks_witness :
  generate_reports_figures sample_users sample_task_data sample_clock
  = inr sample_statistics
  /\ Forall (fun f =>
               assigned f = 0 ->
               percent_assigned_completed f = 0
               /\ percent_assigned_uncompleted f = 0
               /\ percent_assigned_uncompleted_overdue f = 0)
            (per_user (users_part sample_statistics)).
Proof.
  split; [vm_compute; reflexivity|].
  apply (proj2 (proj2 (proj1 (percentages_without_tasks
                                sample_users sample_clock)
                             sample_task_data))).
  left. vm_compute. reflexivity.
Defined.


(** *** C7 *)

(** C7, the run that breaks it: with 29 uncompleted tasks out of 100 the
    double nearest to 29/100, times 100, is 28.999999999999996, and both
    functions emit 28 where the exact quotient times 100 is 29; the
    example of the specification, 1 out of 3, is emitted as 33. *)
Theorem percentage_of_29_in_100_is_emitted_as_28 :
  exists figs,
    fst (generate_reports_option hundred_world) = inr figs
    /\ fst (display_stats_option hundred_world) = inr figs
    /\ total_tasks (tasks_part figs) = 100
    /\ tasks_uncompleted (tasks_part figs) = 29
    /\ percent_uncompleted (tasks_part figs) = 28
    /\ exact_percentage 29 100 = 29
    /\ emitted 29 100 = inr 28
    /\ emitted 1 3 = inr 33
    /\ exact_percentage 1 3 = 33.
Proof.
  eexists. split; [vm_compute; reflexivity|].
  repeat split; vm_compute; reflexivity.
Qed.

(** *** C9 *)

(** C9, counterexample: a task whose title is [a;b] is written as a line
    of eight fields, and reading the file back fails on the date
    ([ValueError]); a task due in the year 824, a valid date, is written
    with the year as [824], which [strptime] does not read back
    ([ValueError]); and for the empty list the function that writes
    raises [UnboundLocalError] at its final [print]. *)
Lemma tasks_file_round_trip_fails :
  ~ round_trips [task_with_semicolon] (sample_world [])
  /\ (valid_date (due_date task_due_in_824) = true
      /\ strptime "09-02-0824" = inr (due_date task_due_in_824)
      /\ ~ round_trips [task_due_in_824] (sample_world []))
  /\ ~ round_trips [] (sample_world []).
Proof.
  split; [|split; [split; [reflexivity | split; [reflexivity|]]|]].
  - intros (w1 & reloaded & w2 & Hw & Hr & _).
    vm_compute in Hw. inversion Hw; subst w1; clear Hw.
    vm_compute in Hr. discriminate.
  - intros (w1 & reloaded & w2 & Hw & Hr & _).
    vm_compute in Hw. inversion Hw; subst w1; clear Hw.
    vm_compute in Hr. discriminate.
  - intros (w1 & reloaded & w2 & Hw & _).
    vm_compute in Hw. discriminate.
Qed.

(** The theorem at the two tasks of "alice". *)
Lemma tasks_file_round_trip_witness :
  sample_view <> []
  /\ Forall (fun t => storable t = true) sample_view
  /\ round_trips sample_view (sample_world []).
Proof.
  assert (Hne : sample_view <> []) by discriminate.
  assert (Hst : Forall (fun t => storable t = true) sample_view)
    by (repeat constructor).
  split; [exact Hne|]. split; [exact Hst|].
  apply (tasks_file_round_trip sample_view (sample_world []) Hne Hst).
Defined.

(** *** C10 *)

(** C10, counterexample: the task data holds a task of "ghost", who is
    not registered, after a line that is not well formed; both
    statistics functions end in the [IndexError] of that line, and the
    per-user lookup that would fail is never reached. *)
Lemma malformed_line_stops_before_the_lookup :
  create_task_list [ghost_row] = inr
    [mktask 1 "ghost" "Haunt" "the hall" (mkdate 2099 12 31)
            (mkdate 2024 1 1) false None]
  /\ dict_mem "ghost" sample_users = false
  /\ generate_reports_figures sample_users [bad_row; ghost_row] sample_clock
     = inl IndexError
  /\ display_stats_figures sample_users [bad_row; ghost_row] sample_clock
     = inl IndexError
  /\ forall k,
      generate_reports_figures sample_users [bad_row; ghost_row] sample_clock
      <> inl (KeyError k).
Proof.
  split; [vm_compute; reflexivity|].
  split; [reflexivity|].
  split; [vm_compute; reflexivity|].
  split; [vm_compute; reflexivity|].
  intros k H. vm_compute in H. discriminate H.
Qed.

(** The theorem where a task of "ghost" comes before a line that is not
    well formed, and at the sample file with all its owners
    registered. *)
Lemma statistics_need_registered_owners_witness :
  (generate_reports_figures sample_users [ghost_row; bad_row] sample_clock
   = inl (KeyError "ghost")
   /\ display_stats_figures sample_users [ghost_row; bad_row] sample_clock
      = inl (KeyError "ghost"))
  /\ exists acc,
      generate_reports_pass sample_clock 1 sample_task_data
        (mktally [] 0 0 0 (initial_user_stats sample_users))
      = inr acc.
Proof.
  assert (Hghost : create_task_list [ghost_row]
                   = inr [mktask 1 "ghost" "Haunt" "the hall"
                                 (mkdate 2099 12 31) (mkdate 2024 1 1)
                                 false None])
    by (vm_compute; reflexivity).
  assert (Hl : create_task_list sample_task_data = inr sample_tasks)
    by (vm_compute; reflexivity).
  pose proof (statistics_need_registered_owners
                sample_users [ghost_row; bad_row] sample_clock
                [ghost_row] [bad_row] _ eq_refl Hghost) as Hbad.
  pose proof (statistics_need_registered_owners
                sample_users sample_task_data sample_clock
                sample_task_data [] sample_tasks
                (eq_sym (app_nil_r sample_task_data)) Hl) as Hgood.
  change (find (unknown_owner sample_users)
               [mktask 1 "ghost" "Haunt" "the hall" (mkdate 2099 12 31)
                       (mkdate 2024 1 1) false None])
    with (Some (mktask 1 "ghost" "Haunt" "the hall" (mkdate 2099 12 31)
                       (mkdate 2024 1 1) false None))
    in Hbad.
  change (find (unknown_owner sample_users) sample_tasks)
    with (@None Task) in Hgood.
  destruct Hbad as (_ & Hg & Hd). destruct Hgood as (Hacc & _).
  split; [split; [exact Hg | exact Hd] | exact Hacc].
Defined.

(** ** The bound on the rounds of a prompt loop is enough *)

Lemma loop_fuel_enough {St A} (body : St -> M (St + A)) :
  reads_a_line body ->
  forall fuel s w,
    (length (stdin w) <= fuel)%nat ->
    loop (Datatypes.S fuel) body s w = loop fuel body s w.
Proof.
  intros Hbody. induction fuel as [|fuel IH]; intros s w Hw.
  - cbn [loop]. unfold bind.
    destruct (body s w) as [[e|[s'|a]] w'] eqn:Hb; try reflexivity.
    apply Hbody in Hb. lia.
  - change (loop (Datatypes.S (Datatypes.S fuel)) body s w)
      with (bind (body s)
                 (fun r => match r with
                           | inr a => ret a
                           | inl s' => loop (Datatypes.S fuel) body s'
                           end) w).
    change (loop (Datatypes.S fuel) body s w)
      with (bind (body s)
                 (fun r => match r with
                           | inr a => ret a
                           | inl s' => loop fuel body s'
                           end) w).
    unfold bind.
    destruct (body s w) as [[e|[s'|a]] w'] eqn:Hb; try reflexivity.
    apply IH. apply Hbody in Hb. lia.
Qed.

Lemma while_true_any_fuel {St A} (body : St -> M (St + A)) :
  reads_a_line body ->
  forall extra s w,
    loop (length (stdin w) + extra) body s w = while_true body s w.
Proof.
  intros Hbody. unfold while_true.
  induction extra as [|extra IH]; intros s w.
  - rewrite Nat.add_0_r. reflexivity.
  - rewrite Nat.add_succ_r, loop_fuel_enough by (assumption || lia).
    apply IH.
Qed.

Lemma input_reads prompt w l w' :
  input prompt w = (inr l, w') ->
  length (stdin w) = Datatypes.S (length (stdin w')).
Proof.
  unfold input. destruct (stdin w) as [|x rest]; intros H.
  - discriminate.
  - inversion H; subst. reflexivity.
Qed.

Lemma validate_data_entry_body_reads :
  reads_a_line
    (fun data =>
       if is_empty data then
         data' <- input "Plese entry valid data: " ;;
         ret (inl data')
       else ret (inr data)).
Proof.
  intros data w s' w' H. destruct (is_empty data); [|discriminate].
  unfold bind in H.
  destruct (input "Plese entry valid data: " w) as [[e|l] w1] eqn:Hin;
    [discriminate|].
  inversion H; subst. apply input_reads in Hin. lia.
Qed.

(** However many rounds [validate_data_entry] is allowed beyond the
    lines left to read, it behaves the same: the loop ends by returning a
    text that is not empty, or by the [EOFError] of [input]. *)
Lemma validate_data_entry_fuel extra data w :
  loop (length (stdin w) + extra)
       (fun data =>
          if is_empty data then
            data' <- input "Plese entry valid data: " ;;
            ret (inl data')
          else ret (inr data))
       data w
  = validate_data_entry data w.
Proof.
  apply (while_true_any_fuel _ validate_data_entry_body_reads).
Qed.

Lemma validate_if_username_registered_fuel username_password extra u w :
  loop (length (stdin w) + extra)
       (fun task_username =>
          if existsb (String.eqb task_username) (dict_keys username_password)
          then ret (inr task_username)
          else
            print (red "User does not exist.") ;;;
            task_username' <-
              input (red "Please enter a username already registered: ") ;;
            ret (inl task_username'))
       u w
  = validate_if_username_registered u username_password w.
Proof.
  apply (while_true_any_fuel
           (fun task_username =>
              if existsb (String.eqb task_username)
                         (dict_keys username_password)
              then ret (inr task_username)
              else
                print (red "User does not exist.") ;;;
                task_username' <-
                  input (red "Please enter a username already registered: ") ;;
                ret (inl task_username'))).
  intros s w0 s' w' H.
  destruct (existsb (String.eqb s) (dict_keys username_password));
    [discriminate|].
  rewrite bind_print in H. unfold bind in H.
  destruct (input _ _) as [[e|l] w1] eqn:Hin; [discriminate|].
  inversion H; subst. apply input_reads in Hin. simpl in Hin. lia.
Qed.

Lemma input_keeps prompt : keeps_or_reads (input prompt).
Proof.
  intros w r w' H. unfold input in H.
  destruct (stdin w) as [|x rest]; inversion H; subst; simpl; lia.
Qed.

Lemma loop_keeps {St A} (body : St -> M (St + A)) :
  (forall s, keeps_or_reads (body s)) ->
  forall fuel s, keeps_or_reads (loop fuel body s).
Proof.
  intros Hbody. induction fuel as [|fuel IH]; intros s w r w' H.
  - cbn [loop] in H. unfold bind in H.
    destruct (body s w) as [[e|[s'|a]] w1] eqn:Hb;
      apply Hbody in Hb; inversion H; subst; exact Hb.
  - change (loop (Datatypes.S fuel) body s w)
      with (bind (body s)
                 (fun r => match r with
                           | inr a => ret a
                           | inl s' => loop fuel body s'
                           end) w) in H.
    unfold bind in H.
    destruct (body s w) as [[e|[s'|a]] w1] eqn:Hb; apply Hbody in Hb.
    + inversion H; subst; exact Hb.
    + apply IH in H. lia.
    + inversion H; subst; exact Hb.
Qed.

Lemma validate_data_entry_keeps data : keeps_or_reads (validate_data_entry data).
Proof.
  intros w r w' H. unfold validate_data_entry, while_true in H.
  revert H. apply loop_keeps. clear. intros s w r w' H.
  destruct (is_empty s).
  - unfold bind in H.
    destruct (input "Plese entry valid data: " w) as [[e|l] w1] eqn:Hin;
      apply input_keeps in Hin; inversion H; subst; exact Hin.
  - inversion H; subst. lia.
Qed.

Lemma validate_due_date_input_body_reads :
  reads_a_line
    (fun _ : unit =>
       line <- input "Due date of task (DD-MM-YYYY): " ;;
       task_due_date_str <- validate_data_entry line ;;
       match strptime task_due_date_str with
       | inr due_date_time => ret (inr due_date_time)
       | inl ValueError =>
           print (red ("Invalid date format. "
                       ++ "Please enter the date in the format DD-MM-YYYY.")) ;;;
           ret (inl tt)
       | inl e => raise e
       end).
Proof.
  intros [] w s' w' H. unfold bind at 1 in H.
  destruct (input "Due date of task (DD-MM-YYYY): " w) as [[e|line] w1]
    eqn:Hin; [discriminate|].
  apply input_reads in Hin. unfold bind at 1 in H.
  destruct (validate_data_entry line w1) as [[e|text] w2] eqn:Hv;
    [discriminate|].
  apply validate_data_entry_keeps in Hv.
  destruct (strptime text) as [[]|d]; try discriminate.
  rewrite bind_print in H. inversion H; subst. simpl. lia.
Qed.

Lemma validate_due_date_input_fuel extra w :
  loop (length (stdin w) + extra)
       (fun _ : unit =>
          line <- input "Due date of task (DD-MM-YYYY): " ;;
          task_due_date_str <- validate_data_entry line ;;
          match strptime task_due_date_str with
          | inr due_date_time => ret (inr due_date_time)
          | inl ValueError =>
              print (red ("Invalid date format. "
                          ++ "Please enter the date in the format DD-MM-YYYY.")) ;;;
              ret (inl tt)
          | inl e => raise e
          end)
       tt w
  = validate_due_date_input w.
Proof.
  apply (while_true_any_fuel _ validate_due_date_input_body_reads).
Qed.

(** * Further properties of the program *)

(** ** Prompt loops: what they return and how they fail *)

Lemma loop_outcome {St A} (body : St -> M (St + A))
    (ok : A -> world -> Prop) :
  reads_a_line body ->
  (forall s w,
      outcome (body s) w
              (fun r w' => match r with
                           | inl _ => True
                           | inr a => ok a w'
                           end)
              out_of_input) ->
  forall fuel s w,
    (length (stdin w) <= fuel)%nat ->
    outcome (loop fuel body s) w ok out_of_input.
Proof.
  intros Hreads Hbody.
  induction fuel as [|fuel IH]; intros s w Hw.
  - unfold outcome. cbn [loop]. unfold bind.
    specialize (Hbody s w). unfold outcome in Hbody.
    destruct (body s w) as [[e|[s'|a]] w'] eqn:Hb; try exact Hbody.
    apply Hreads in Hb. lia.
  - unfold outcome.
    change (loop (Datatypes.S fuel) body s w)
      with (bind (body s)
                 (fun r => match r with
                           | inr a => ret a
                           | inl s' => loop fuel body s'
                           end) w).
    unfold bind.
    specialize (Hbody s w). unfold outcome in Hbody.
    destruct (body s w) as [[e|[s'|a]] w'] eqn:Hb; try exact Hbody.
    apply IH. apply Hreads in Hb. lia.
Qed.

Lemma while_true_outcome {St A} (body : St -> M (St + A))
    (ok : A -> world -> Prop) :
  reads_a_line body ->
  (forall s w,
      outcome (body s) w
              (fun r w' => match r with
                           | inl _ => True
                           | inr a => ok a w'
                           end)
              out_of_input) ->
  forall s w, outcome (while_true body s) w ok out_of_input.
Proof.
  intros Hreads Hbody s w. unfold while_true.
  apply loop_outcome; auto.
Qed.

Lemma outcome_bind {A B} (m : M A) (k : A -> M B) w
    (mid : A -> world -> Prop) ok err :
  outcome m w mid err ->
  (forall a w', mid a w' -> outcome (k a) w' ok err) ->
  outcome (bind m k) w ok err.
Proof.
  unfold outcome, bind. intros Hm Hk.
  destruct (m w) as [[e|a] w']; [exact Hm|]. apply Hk. exact Hm.
Qed.

Lemma outcome_weaken {A} (m : M A) w (ok ok' : A -> world -> Prop)
    (err err' : exn -> world -> Prop) :
  outcome m w ok err ->
  (forall a w', ok a w' -> ok' a w') ->
  (forall e w', err e w' -> err' e w') ->
  outcome m w ok' err'.
Proof.
  unfold outcome. destruct (m w) as [[e|a] w']; auto.
Qed.

Lemma outcome_input prompt w :
  outcome (input prompt) w
          (fun l w' => stdin w = l :: stdin w'
                       /\ user_txt w' = user_txt w
                       /\ tasks_txt w' = tasks_txt w
                       /\ clock w' = clock w)
          out_of_input.
Proof.
  unfold outcome, input, out_of_input.
  destruct (stdin w) as [|l rest]; simpl; auto.
Qed.

Lemma validate_data_entry_returns_at_once data w :
  is_empty data = false -> validate_data_entry data w = (inr data, w).
Proof.
  intros H. unfold validate_data_entry, while_true.
  destruct (length (stdin w)); cbn [loop]; unfold bind; rewrite H;
    reflexivity.
Qed.

(** X1: [validate_data_entry] hands back a text that is not empty, the
    one given if it is not empty (then nothing is read or printed), and
    otherwise fails only with the [EOFError] of an exhausted input. *)
Theorem validate_data_entry_gives_text :
  forall data w,
    outcome (validate_data_entry data) w
            (fun text _ => is_empty text = false)
            out_of_input
    /\ (is_empty data = false ->
        validate_data_entry data w = (inr data, w)).
Proof.
  intros data w. split; [|apply validate_data_entry_returns_at_once].
  unfold validate_data_entry.
  apply while_true_outcome; [apply validate_data_entry_body_reads|].
  clear. intros s w.
  destruct (is_empty s) eqn:Hs.
  - eapply outcome_bind; [apply outcome_input|].
    intros l w' _. exact I.
  - unfold outcome, ret. exact Hs.
Qed.

Lemma outcome_print {A} s (k : M A) w ok err :
  outcome k (emit w s) ok err -> outcome (print s ;;; k) w ok err.
Proof. unfold outcome. rewrite bind_print. auto. Qed.

Lemma validate_if_username_registered_body_reads
    (username_password : dict string) :
  reads_a_line
    (fun task_username =>
       if existsb (String.eqb task_username) (dict_keys username_password)
       then ret (inr task_username)
       else
         print (red "User does not exist.") ;;;
         task_username' <-
           input (red "Please enter a username already registered: ") ;;
         ret (inl task_username')).
Proof.
  intros s w0 s' w' H.
  destruct (existsb (String.eqb s) (dict_keys username_password));
    [discriminate|].
  rewrite bind_print in H. unfold bind in H.
  destruct (input _ _) as [[e|l] w1] eqn:Hin; [discriminate|].
  inversion H; subst. apply input_reads in Hin. simpl in Hin. lia.
Qed.

(** X2: the name [validate_if_username_registered] returns is a key of
    the mapping it was given; a name that is registered is returned at
    once, nothing read or printed; the only failure is the [EOFError] of
    an exhausted input. *)
Theorem validate_if_username_registered_gives_key :
  forall task_username username_password w,
    outcome (validate_if_username_registered task_username username_password)
            w
            (fun name _ => dict_mem name username_password = true)
            out_of_input
    /\ (dict_mem task_username username_password = true ->
        validate_if_username_registered task_username username_password w
        = (inr task_username, w)).
Proof.
  intros u up w. split.
  - unfold validate_if_username_registered.
    apply while_true_outcome;
      [apply validate_if_username_registered_body_reads|].
    clear. intros s w.
    destruct (existsb (String.eqb s) (dict_keys up)) eqn:Hs.
    + unfold outcome, ret. rewrite dict_mem_keys. exact Hs.
    + apply outcome_print.
      eapply outcome_bind; [apply outcome_input|].
      intros l w' _. exact I.
  - intros Hu. rewrite dict_mem_keys in Hu.
    unfold validate_if_username_registered, while_true.
    destruct (length (stdin w)); cbn [loop]; unfold bind; rewrite Hu;
      reflexivity.
Qed.

Lemma strptime_valid s d : strptime s = inr d -> valid_date d = true.
Proof.
  unfold strptime.
  destruct (match_format s) as [[[[dd m] y] rest]|]; [|discriminate].
  destruct (negb (is_empty rest)); [discriminate|].
  destruct (valid_date (mkdate y m dd)) eqn:Hv; [|discriminate].
  intros H. inversion H; subst. exact Hv.
Qed.

Lemma outcome_validate_data_entry data w (P : world -> Prop) :
  P w ->
  (forall w1 w2 l, P w1 -> stdin w1 = l :: stdin w2 ->
                   user_txt w2 = user_txt w1 -> tasks_txt w2 = tasks_txt w1 ->
                   clock w2 = clock w1 -> P w2) ->
  outcome (validate_data_entry data) w
          (fun text w' => is_empty text = false /\ P w')
          out_of_input.
Proof.
  intros HP Hstep. unfold validate_data_entry, while_true.
  assert (Hgen : forall fuel s w0,
             P w0 -> (length (stdin w0) <= fuel)%nat ->
             outcome
               (loop fuel
                     (fun data =>
                        if is_empty data then
                          data' <- input "Plese entry valid data: " ;;
                          ret (inl data')
                        else ret (inr data)) s) w0
               (fun text w' => is_empty text = false /\ P w')
               out_of_input).
  { induction fuel as [|fuel IH]; intros s w0 HP0 Hlen.
    - unfold outcome. cbn [loop]. unfold bind.
      destruct (is_empty s) eqn:Hs.
      + unfold input. destruct (stdin w0) as [|l rest] eqn:Hin.
        * split; reflexivity.
        * simpl in Hlen. lia.
      + unfold ret. auto.
    - unfold outcome.
      change (loop (Datatypes.S fuel) ?b s w0)
        with (bind (b s)
                   (fun r => match r with
                             | inr a => ret a
                             | inl s' => loop fuel b s'
                             end) w0).
      unfold bind at 1. cbv beta.
      destruct (is_empty s) eqn:Hs.
      + unfold bind. unfold input.
        destruct (stdin w0) as [|l rest] eqn:Hin.
        * split; reflexivity.
        * apply IH.
          -- eapply (Hstep w0); [exact HP0 | | | |]; simpl; try reflexivity.
             exact Hin.
          -- simpl. simpl in Hlen. lia.
      + unfold ret. auto. }
  apply Hgen; [exact HP | lia].
Qed.

Lemma bind_input {A} prompt (k : string -> M A) w l rest :
  stdin w = l :: rest ->
  bind (input prompt) k w = k l (consume w prompt rest).
Proof.
  intros H. unfold bind, input, consume. rewrite H. reflexivity.
Qed.

(** X3: the date [validate_due_date_input] returns is a date of the
    calendar; a text that is not one is answered with the format message
    and asked again, the prompt going on with the lines that are left;
    the only failure is the [EOFError] of an exhausted input. *)
Theorem validate_due_date_input_gives_date :
  forall w,
    outcome validate_due_date_input w
            (fun d _ => valid_date d = true)
            out_of_input
    /\ forall text rest e,
        stdin w = text :: rest ->
        is_empty text = false ->
        strptime text = inl e ->
        validate_due_date_input w
        = validate_due_date_input
            (emit (consume w "Due date of task (DD-MM-YYYY): " rest)
                  (red ("Invalid date format. "
                        ++ "Please enter the date in the format DD-MM-YYYY."))).
Proof.
  intros w. split.
  - unfold validate_due_date_input.
    apply while_true_outcome; [apply validate_due_date_input_body_reads|].
    clear. intros [] w.
    eapply outcome_bind; [apply outcome_input|].
    intros line w1 _.
    eapply outcome_bind;
      [apply (outcome_validate_data_entry line w1 (fun _ => True)); auto|].
    intros text w2 _.
    destruct (strptime text) as [e|d] eqn:Hd.
    + rewrite (strptime_errors _ _ Hd). apply outcome_print. exact I.
    + unfold outcome, ret. apply (strptime_valid _ _ Hd).
  - intros text rest e Hin Hne Hd.
    rewrite (strptime_errors _ _ Hd) in Hd.
    unfold validate_due_date_input, while_true.
    cbn [stdin emit consume]. rewrite Hin. cbn [length loop].
    unfold bind at 1.
    erewrite bind_input by exact Hin.
    cbv beta. unfold bind at 1.
    rewrite validate_data_entry_returns_at_once by exact Hne.
    rewrite Hd. rewrite bind_print. reflexivity.
Qed.

(** ** Loading the task file *)

Lemma create_task_list_from_with_index (f : list string -> string) :
  forall task_data i,
    create_task_list_from i (map (fun row => with_index (f row) row) task_data)
    = create_task_list_from i task_data.
Proof.
  induction task_data as [|row rest IH]; intros i; simpl.
  - reflexivity.
  - rewrite IH. destruct row as [|x fields]; reflexivity.
Qed.

Lemma create_task_list_from_fields :
  forall task_data i l,
    create_task_list_from i task_data = inr l ->
    forall k t,
      nth_error l k = Some t ->
      task_number t = None
      /\ exists row,
          nth_error task_data k = Some row
          /\ index row 1 = inr (username t)
          /\ index row 2 = inr (title t)
          /\ index row 3 = inr (description t).
Proof.
  induction task_data as [|row rest IH]; intros i l H k t Hk; simpl in H.
  - inversion H; subst. destruct k; discriminate.
  - do 9 invert_bindE H. inversion H; subst l; clear H.
    destruct k as [|k]; simpl in Hk.
    + inversion Hk; subst t. simpl. split; [reflexivity|].
      exists row. auto.
    + destruct (IH _ _ Hm7 k t Hk) as (Hn & r & Hr & Hf).
      split; [exact Hn|]. exists r. auto.
Qed.

(** X4: the tasks [create_task_list] builds are as many as the rows, the
    k-th carries [number] k (counting from 1) whatever the leading field
    of its row says, has no [task_number], and takes username, title and
    description from the second, third and fourth field; the leading
    field of a row is never read. *)
Theorem create_task_list_numbers_by_position :
  forall task_data tasks,
    create_task_list task_data = inr tasks ->
    length tasks = length task_data
    /\ (forall f,
           create_task_list
             (map (fun row => with_index (f row) row) task_data)
           = inr tasks)
    /\ forall k t,
        nth_error tasks k = Some t ->
        number t = Z.of_nat k + 1
        /\ task_number t = None
        /\ exists row,
            nth_error task_data k = Some row
            /\ index row 1 = inr (username t)
            /\ index row 2 = inr (title t)
            /\ index row 3 = inr (description t).
Proof.
  intros data tasks H. split; [|split].
  - eapply create_task_list_from_length. exact H.
  - intros f. unfold create_task_list.
    rewrite create_task_list_from_with_index. exact H.
  - intros k t Hk. split.
    + rewrite (create_task_list_from_numbers data 1 tasks H k t Hk). lia.
    + apply (create_task_list_from_fields data 1 tasks H k t Hk).
Qed.

(** The theorem at the sample rows. *)
Lemma create_task_list_numbers_by_position_witness :
  create_task_list sample_task_data = inr sample_tasks
  /\ length sample_tasks = length sample_task_data
  /\ (forall f,
         create_task_list
           (map (fun row => with_index (f row) row) sample_task_data)
         = inr sample_tasks)
  /\ forall k t,
      nth_error sample_tasks k = Some t ->
      number t = Z.of_nat k + 1
      /\ task_number t = None
      /\ exists row,
          nth_error sample_task_data k = Some row
          /\ index row 1 = inr (username t)
          /\ index row 2 = inr (title t)
          /\ index row 3 = inr (description t).
Proof.
  split; [vm_compute; reflexivity|].
  apply (create_task_list_numbers_by_position sample_task_data sample_tasks).
  vm_compute. reflexivity.
Defined.

(** X5: [create_task_list] succeeds exactly when every row has at least
    seven fields of which the fifth and sixth are dates (further fields
    are ignored); otherwise it raises [IndexError] or [ValueError] and
    builds no list. *)
Theorem create_task_list_accepts_well_formed_rows :
  forall task_data,
    match create_task_list task_data with
    | inr tasks => forallb well_formed_row task_data = true
    | inl e =>
        forallb well_formed_row task_data = false
        /\ (e = IndexError \/ e = ValueError)
    end.
Proof.
  intros task_data. unfold create_task_list. generalize 1.
  induction task_data as [|row rest IH]; intros i.
  - reflexivity.
  - cbn [create_task_list_from forallb].
    specialize (IH (i + 1)).
    destruct row as [|f0 [|f1 [|f2 [|f3 [|f4 [|f5 [|f6 more]]]]]]];
      try (cbn; auto; fail).
    + cbn. destruct (strptime f4) as [e|d] eqn:H4; cbn; [|auto].
      rewrite (strptime_errors _ _ H4). auto.
    + cbn. destruct (strptime f4) as [e|d] eqn:H4; cbn.
      * rewrite (strptime_errors _ _ H4). auto.
      * destruct (strptime f5) as [e|d'] eqn:H5; cbn; [|auto].
        rewrite (strptime_errors _ _ H5). auto.
    + cbn [index nth_error bindE okE well_formed_row].
      destruct (strptime f4) as [e|d] eqn:H4; cbn [bindE].
      * rewrite (strptime_errors _ _ H4). cbn. auto.
      * destruct (strptime f5) as [e|d'] eqn:H5; cbn [bindE].
        -- rewrite (strptime_errors _ _ H5). cbn. auto.
        -- destruct (create_task_list_from (i + 1) rest) as [e|l];
             cbn [bindE andb]; exact IH.
Qed.

(** ** Adding a task and writing the file *)

(** X6: [add_new_task_to_task_list] keeps the tasks there are, in order,
    and puts after them one uncompleted task with the fields given and
    [number] one more than there were tasks; a list numbered by position
    stays numbered by position. *)
Theorem add_new_task_keeps_numbering :
  forall task_list task_username task_title task_description due curr_date,
    exists new_task,
      add_new_task_to_task_list task_list task_username task_title
        task_description due curr_date
      = (task_list ++ [new_task])%list
      /\ number new_task = Z.of_nat (length task_list) + 1
      /\ username new_task = task_username
      /\ title new_task = task_title
      /\ description new_task = task_description
      /\ due_date new_task = due
      /\ assigned_date new_task = curr_date
      /\ completed new_task = false
      /\ (numbered task_list ->
          numbered (task_list ++ [new_task])%list).
Proof.
  intros l u ti de due cd. eexists. split; [reflexivity|].
  repeat split; try reflexivity.
  intros Hnum k t Hk.
  destruct (Nat.lt_ge_cases k (length l)) as [Hlt|Hge].
  - rewrite nth_error_app1 in Hk by exact Hlt. apply Hnum. exact Hk.
  - rewrite nth_error_app2 in Hk by exact Hge.
    destruct (k - length l)%nat as [|n] eqn:Hd; simpl in Hk.
    + inversion Hk; subst t. simpl. lia.
    + destruct n; discriminate.
Qed.

(** X7: the add-task path of the menu: adding a task to a list and
    writing the file, then reading the file back, gives the old records
    followed by the new one, numbered from 1, also when the list was
    empty (no [;], line feed or carriage return in the texts, and every
    date a date of the calendar from the year 1000 on, which [strftime]
    writes with the four digits [strptime] reads). *)
Theorem added_task_is_stored :
  forall task_list task_username task_title task_description due curr_date w,
    Forall (fun t => storable t = true) task_list ->
    plain task_username = true -> plain task_title = true ->
    plain task_description = true ->
    reloadable due = true -> reloadable curr_date = true ->
    round_trips
      (add_new_task_to_task_list task_list task_username task_title
         task_description due curr_date) w.
Proof.
  intros l u ti de due cd w Hl Hu Hti Hde Hdue Hcd.
  unfold add_new_task_to_task_list.
  set (new_task := mktask (Z.of_nat (length l) + 1) u ti de due cd false None).
  assert (Hst : Forall (fun t => storable t = true) (l ++ [new_task])).
  { apply Forall_app. split; [exact Hl|]. constructor; [|constructor].
    unfold storable, new_task. simpl.
    rewrite Hu, Hti, Hde, Hdue, Hcd. reflexivity. }
  destruct (l ++ [new_task])%list as [|t rest] eqn:Hlist.
  { destruct l; discriminate. }
  destruct (write_new_task_to_tasks_file_text t rest w) as (w1 & Hw & Htxt).
  exists w1, (renumber 1 (t :: rest)).
  unfold reload, bind, read_tasks_file. rewrite Htxt.
  rewrite universal_newlines_id by (apply written_text_no_cr; exact Hst).
  unfold ret, lift, create_task_list.
  rewrite written_text_rows by exact Hst.
  exists w1. split; [exact Hw|]. split; [reflexivity|].
  split; [apply renumber_length|].
  intros i x Hx. destruct (renumber_nth _ 1 i x Hx) as (t' & Hn & Hs & Hnum).
  exists t'. repeat split; try assumption; try apply Hs. lia.
Qed.

(** The theorem at the three tasks of the sample file, to which a
    fourth is added. *)
Lemma added_task_is_stored_witness :
  Forall (fun t => storable t = true) sample_tasks
  /\ reloadable (mkdate 2099 12 31) = true
  /\ length (add_new_task_to_task_list sample_tasks "bob" "Title" "Text"
               (mkdate 2099 12 31) (mkdate 2024 6 15)) = 4%nat
  /\ round_trips
       (add_new_task_to_task_list sample_tasks "bob" "Title" "Text"
          (mkdate 2099 12 31) (mkdate 2024 6 15))
       (sample_world []).
Proof.
  assert (Hst : Forall (fun t => storable t = true) sample_tasks)
    by (repeat constructor).
  split; [exact Hst|]. split; [reflexivity|]. split; [reflexivity|].
  apply (added_task_is_stored sample_tasks "bob" "Title" "Text"
                              (mkdate 2099 12 31) (mkdate 2024 6 15)
                              (sample_world []) Hst);
    reflexivity.
Defined.

(** X8: [write_new_task_to_tasks_file] replaces whatever [tasks.txt]
    held, and touches neither [user.txt] nor the input; it fails exactly
    for the empty list, with [UnboundLocalError] at its last [print],
    after the file has been emptied. *)
Theorem write_new_task_overwrites_the_file :
  forall task_list w,
    outcome (write_new_task_to_tasks_file task_list) w
            (fun _ w' =>
               task_list <> []
               /\ tasks_txt w' = Some (fst (write_tasks_from 1 task_list None))
               /\ user_txt w' = user_txt w /\ stdin w' = stdin w)
            (fun e w' =>
               task_list = [] /\ e = UnboundLocalError
               /\ tasks_txt w' = Some EmptyString
               /\ user_txt w' = user_txt w /\ stdin w' = stdin w
               /\ stdout w' = stdout w)
    /\ forall content,
        tasks_txt
          (snd (write_new_task_to_tasks_file task_list
                  (mkworld (user_txt w) (Some content) (stdin w)
                           (stdout w) (clock w))))
        = tasks_txt (snd (write_new_task_to_tasks_file task_list w)).
Proof.
  intros l w. destruct l as [|t rest].
  - split.
    + unfold outcome. cbn. repeat split; reflexivity.
    + intros content. reflexivity.
  - split.
    + unfold outcome, write_new_task_to_tasks_file.
      destruct (write_tasks_from_last_cons 1 t rest None) as [k Hk].
      destruct (write_tasks_from 1 (t :: rest) None) as [text last].
      simpl in Hk. subst last. cbn.
      repeat split; try reflexivity. discriminate.
    + intros content. unfold write_new_task_to_tasks_file.
      destruct (write_tasks_from_last_cons 1 t rest None) as [k Hk].
      destruct (write_tasks_from 1 (t :: rest) None) as [text last].
      simpl in Hk. subst last. reflexivity.
Qed.

(** ** Updating one line of the task file *)

Lemma split_not_nil sep s : split sep s <> [].
Proof.
  destruct s as [|c r]; simpl; [discriminate|].
  destruct (Ascii.eqb c sep); [discriminate|].
  destruct (split sep r); discriminate.
Qed.

Lemma update_lines_result specific_task :
  forall lines,
    exists lines' pre post,
      update_lines specific_task lines = inr lines'
      /\ lines = (pre ++ post)%list
      /\ forallb (fun l => negb (leads_with_number specific_task l)) pre = true
      /\ match post with
         | [] => lines' = lines
         | line :: rest =>
             leads_with_number specific_task line = true
             /\ lines' = (pre ++ updated_line specific_task :: rest)%list
         end.
Proof.
  induction lines as [|line rest IH].
  - exists [], [], []. repeat split.
  - cbn [update_lines].
    destruct (split SEMI line) as [|p0 parts] eqn:Hsplit.
    { exfalso. exact (split_not_nil _ _ Hsplit). }
    cbn [index nth_error bindE okE].
    destruct (String.eqb (strip p0) (str (number specific_task))) eqn:Hm.
    + exists (updated_line specific_task :: rest), [], (line :: rest).
      repeat split. unfold leads_with_number. rewrite Hsplit. exact Hm.
    + destruct IH as (lines' & pre & post & Hu & Hl & Hpre & Hpost).
      rewrite Hu. cbn [bindE okE].
      exists (line :: lines'), (line :: pre), post.
      split; [reflexivity|]. split; [rewrite Hl; reflexivity|].
      split.
      * cbn [forallb]. unfold leads_with_number at 1.
        rewrite Hsplit, Hm, Hpre. reflexivity.
      * destruct post as [|l0 post'].
        -- rewrite Hpost. reflexivity.
        -- destruct Hpost as [Hl0 Hlines]. split; [exact Hl0|].
           rewrite Hlines. reflexivity.
Qed.

(** X9: [update_tasks_file] raises [FileNotFoundError] when there is no
    task file and otherwise always succeeds; the file keeps its number of
    lines, and at most one line changes: the first whose leading field,
    stripped, is the task's number, replaced by the task's record; when
    no line has that number the lines are written back as read. *)
Theorem update_tasks_file_rewrites_one_line :
  forall specific_task w,
    match tasks_txt w with
    | None => update_tasks_file specific_task w = (inl FileNotFoundError, w)
    | Some content =>
        exists lines' pre post,
          update_tasks_file specific_task w
          = (inr tt,
             mkworld (user_txt w) (Some (String.concat "" lines')) (stdin w)
                     (stdout w) (clock w))
          /\ length lines' = length (readlines content)
          /\ readlines content = (pre ++ post)%list
          /\ forallb (fun l => negb (leads_with_number specific_task l)) pre
             = true
          /\ match post with
             | [] => lines' = readlines content
             | line :: rest =>
                 leads_with_number specific_task line = true
                 /\ lines' = (pre ++ updated_line specific_task :: rest)%list
             end
    end.
Proof.
  intros t w. unfold update_tasks_file.
  destruct (tasks_txt w) as [content|] eqn:Htxt; [|reflexivity].
  destruct (update_lines_result t (readlines content))
    as (lines' & pre & post & Hu & Hl & Hpre & Hpost).
  exists lines', pre, post.
  split.
  { unfold bind, lift. rewrite Hu. reflexivity. }
  split.
  { destruct post as [|line rest].
    - rewrite Hpost. reflexivity.
    - destruct Hpost as [_ Hlines]. rewrite Hlines, Hl.
      rewrite !length_app. reflexivity. }
  auto.
Qed.

(** ** Writing, updating one task, and reading back *)

Lemma append_assoc (a b c : string) : (a ++ b) ++ c = a ++ (b ++ c).
Proof. induction a as [|x a IH]; simpl; [|rewrite IH]; reflexivity. Qed.

Lemma append_nil_r (a : string) : a ++ "" = a.
Proof. induction a as [|x a IH]; simpl; [|rewrite IH]; reflexivity. Qed.

Lemma str_inj i j : str i = str j -> i = j.
Proof.
  unfold str. intros H.
  assert (Hnz : forall z, Z.to_int z <> Decimal.Pos Decimal.Nil
                          /\ Z.to_int z <> Decimal.Neg Decimal.Nil).
  { intros z. split; intros Hz; pose proof (f_equal Z.of_int Hz) as Hz';
      rewrite DecimalZ.of_to in Hz'; simpl in Hz'; subst z; discriminate Hz. }
  apply DecimalZ.to_int_inj.
  destruct (Hnz i) as [Hi1 Hi2]. destruct (Hnz j) as [Hj1 Hj2].
  pose proof (NilZero.isi _ Hi1 Hi2) as Ei.
  pose proof (NilZero.isi _ Hj1 Hj2) as Ej.
  rewrite H in Ei. rewrite Ei in Ej. inversion Ej. reflexivity.
Qed.

Lemma no_space_string_of_uint u :
  no_space (NilEmpty.string_of_uint u) = true.
Proof. induction u; simpl; try rewrite IHu; reflexivity. Qed.

Lemma no_space_str i : no_space (str i) = true.
Proof.
  unfold str, NilZero.string_of_int.
  destruct (Z.to_int i) as [u|u]; unfold NilZero.string_of_uint;
    destruct u; simpl; try rewrite no_space_string_of_uint; reflexivity.
Qed.

Lemma rstrip_no_space s : no_space s = true -> rstrip s = s.
Proof.
  induction s as [|c r IH]; simpl; intros H; [reflexivity|].
  apply andb_true_iff in H. destruct H as [Hc Hr].
  rewrite (IH Hr). apply negb_true_iff in Hc. rewrite Hc.
  destruct r; reflexivity.
Qed.

Lemma strip_no_space s : no_space s = true -> strip s = s.
Proof.
  intros H. unfold strip.
  assert (Hl : lstrip s = s).
  { destruct s as [|c r]; simpl in *; [reflexivity|].
    apply andb_true_iff in H. destruct H as [Hc _].
    apply negb_true_iff in Hc. rewrite Hc. reflexivity. }
  rewrite Hl. apply rstrip_no_space. exact H.
Qed.

Lemma task_record_head i t :
  exists fields, task_record i t ++ NL = str i ++ String SEMI fields.
Proof.
  unfold task_record, join. rewrite concat_cons2.
  eexists. rewrite append_assoc. reflexivity.
Qed.

Lemma leads_with_number_written t' i t :
  leads_with_number t' (task_record i t ++ NL) = (i =? number t').
Proof.
  unfold leads_with_number.
  destruct (task_record_head i t) as [fields Hf]. rewrite Hf.
  rewrite split_app_sep
    by (apply plain_contains; [apply plain_str | reflexivity]).
  rewrite strip_no_space by apply no_space_str.
  destruct (Z.eqb_spec i (number t')) as [->|Hne].
  - apply String.eqb_refl.
  - apply String.eqb_neq. intros H. apply Hne. apply str_inj. exact H.
Qed.

Lemma updated_line_is_record t :
  updated_line t = task_record (number t) t ++ NL.
Proof.
  unfold updated_line, task_record, join. cbn [String.concat].
  rewrite !append_assoc. reflexivity.
Qed.

Lemma update_lines_written t' :
  forall l i,
    update_lines t' (lines_from i l)
    = inr (if (i <=? number t') && (number t' <? i + Z.of_nat (length l))
           then lines_from i (replace_at (Z.to_nat (number t' - i)) t' l)
           else lines_from i l).
Proof.
  induction l as [|t rest IH]; intros i.
  - cbn [lines_from update_lines length replace_at].
    destruct (_ && _); reflexivity.
  - cbn [lines_from update_lines].
    pose proof (leads_with_number_written t' i t) as Hlead.
    unfold leads_with_number in Hlead.
    destruct (split SEMI (task_record i t ++ NL)) as [|p0 parts] eqn:Hs.
    { exfalso. exact (split_not_nil _ _ Hs). }
    cbn [index nth_error bindE okE]. rewrite Hlead.
    destruct (Z.eqb_spec i (number t')) as [Heq|Hne].
    + assert (Hin : (i <=? number t')
                    && (number t' <? i + Z.of_nat (length (t :: rest)))
                    = true).
      { apply andb_true_iff. split; [apply Z.leb_le; lia|].
        apply Z.ltb_lt. cbn [length]. lia. }
      rewrite Hin. replace (number t' - i) with 0 by lia.
      cbn [Z.to_nat replace_at lines_from].
      rewrite updated_line_is_record, Heq. reflexivity.
    + rewrite IH. cbn [bindE okE]. f_equal.
      destruct ((i <=? number t')
                && (number t' <? i + Z.of_nat (length (t :: rest))))
        eqn:Hin.
      * apply andb_true_iff in Hin. destruct Hin as [Hlo Hhi].
        apply Z.leb_le in Hlo. apply Z.ltb_lt in Hhi. cbn [length] in Hhi.
        assert (Hin' : (i + 1 <=? number t')
                       && (number t' <? i + 1 + Z.of_nat (length rest))
                       = true).
        { apply andb_true_iff. split; [apply Z.leb_le | apply Z.ltb_lt]; lia. }
        rewrite Hin'.
        replace (Z.to_nat (number t' - i))
          with (Datatypes.S (Z.to_nat (number t' - (i + 1)))) by lia.
        reflexivity.
      * assert (Hout : (i + 1 <=? number t')
                       && (number t' <? i + 1 + Z.of_nat (length rest))
                       = false).
        { apply andb_false_iff. apply andb_false_iff in Hin.
          cbn [length] in Hin.
          destruct Hin as [H|H]; [left; apply Z.leb_gt in H; apply Z.leb_gt
                                 | right; apply Z.ltb_ge in H; apply Z.ltb_ge];
            lia. }
        rewrite Hout. reflexivity.
Qed.

Lemma concat_lines_from :
  forall l i last,
    String.concat "" (lines_from i l) = fst (write_tasks_from i l last).
Proof.
  induction l as [|t rest IH]; intros i last.
  - reflexivity.
  - rewrite write_tasks_from_cons. cbn [lines_from].
    rewrite <- (IH (i + 1) (Some i)).
    destruct (lines_from (i + 1) rest) as [|x xs] eqn:Hl.
    + reflexivity.
    + rewrite concat_cons2.
      change ("" ++ String.concat "" (x :: xs))
        with (String.concat "" (x :: xs)).
      rewrite append_assoc. reflexivity.
Qed.

Lemma readlines_aux_line cur line rest :
  contains LF line = false ->
  readlines_aux cur (line ++ String LF rest)
  = (cur ++ line ++ NL) :: readlines_aux EmptyString rest.
Proof.
  revert cur. induction line as [|c line IH]; intros cur H.
  - cbn [String.append readlines_aux]. rewrite Ascii.eqb_refl. reflexivity.
  - cbn [contains] in H. apply orb_false_iff in H. destruct H as [Hc Hl].
    cbn [String.append readlines_aux]. rewrite Hc, (IH _ Hl).
    rewrite append_assoc. reflexivity.
Qed.

Lemma readlines_written :
  forall l i last,
    Forall (fun t => storable t = true) l ->
    readlines (fst (write_tasks_from i l last)) = lines_from i l.
Proof.
  intros l i last H. unfold readlines.
  rewrite universal_newlines_id by (apply written_text_no_cr; exact H).
  revert i last. induction H as [|t rest Ht Hrest IH]; intros i last.
  - reflexivity.
  - destruct (storable_parts t Ht) as (Hu & Hti & Hd & _ & _).
    rewrite write_tasks_from_cons.
    rewrite readlines_aux_line
      by (apply task_record_one_line; auto; reflexivity).
    cbn [lines_from String.append]. rewrite IH. reflexivity.
Qed.

Lemma replace_at_storable {A} (P : A -> Prop) x :
  forall l n, P x -> Forall P l -> Forall P (replace_at n x l).
Proof.
  induction l as [|y rest IH]; intros n Hx Hl.
  - destruct n; constructor.
  - inversion Hl; subst. destruct n; constructor; auto.
Qed.

(** X10: after a list has been written, [update_tasks_file] for a task
    whose [number] is k, between 1 and the length of the list, makes the
    file read back as the same list with its k-th record replaced by
    that task, and every other record as it was (texts without [;], line
    feed or carriage return; dates of the calendar from the year 1000
    on, which [strftime] writes with the four digits [strptime]
    reads). *)
Theorem updated_task_is_stored :
  forall task_list specific_task w,
    Forall (fun t => storable t = true) task_list ->
    storable specific_task = true ->
    1 <= number specific_task <= Z.of_nat (length task_list) ->
    exists w',
      write_update_reload task_list specific_task w
      = (inr (renumber 1
                (replace_at (Z.to_nat (number specific_task - 1))
                            specific_task task_list)),
         w').
Proof.
  intros l t' w Hl Ht' Hk.
  destruct l as [|t rest]; [simpl in Hk; lia|].
  unfold write_update_reload.
  destruct (write_new_task_to_tasks_file_text t rest w) as (w1 & Hw & Htxt).
  unfold bind at 1. rewrite Hw.
  unfold bind at 1. unfold update_tasks_file. rewrite Htxt.
  unfold bind at 1. unfold lift.
  rewrite readlines_written by exact Hl.
  rewrite update_lines_written.
  assert (Hin : (1 <=? number t')
                && (number t' <? 1 + Z.of_nat (length (t :: rest))) = true).
  { apply andb_true_iff. split; [apply Z.leb_le | apply Z.ltb_lt]; lia. }
  rewrite Hin.
  set (l' := replace_at (Z.to_nat (number t' - 1)) t' (t :: rest)).
  assert (Hl' : Forall (fun t => storable t = true) l').
  { apply replace_at_storable; assumption. }
  unfold set_tasks_txt, reload, bind, read_tasks_file. cbn [tasks_txt].
  rewrite (concat_lines_from l' 1 None).
  rewrite universal_newlines_id by (apply written_text_no_cr; exact Hl').
  unfold ret, lift, create_task_list.
  rewrite written_text_rows by exact Hl'.
  eexists. reflexivity.
Qed.

(** The theorem at the sample tasks, completing the third. *)
Lemma updated_task_is_stored_witness :
  Forall (fun t => storable t = true) sample_tasks
  /\ exists w',
      write_update_reload sample_tasks
        (mktask 3 "alice" "Old job" "late" (mkdate 2020 1 1)
                (mkdate 2019 12 1) true (Some 3))
        (sample_world [])
      = (inr (renumber 1
                (replace_at 2
                   (mktask 3 "alice" "Old job" "late" (mkdate 2020 1 1)
                           (mkdate 2019 12 1) true (Some 3))
                   sample_tasks)),
         w').
Proof.
  assert (H : Forall (fun t => storable t = true) sample_tasks)
    by (repeat constructor).
  split; [exact H|].
  apply (updated_task_is_stored
           sample_tasks
           (mktask 3 "alice" "Old job" "late" (mkdate 2020 1 1)
                   (mkdate 2019 12 1) true (Some 3))
           (sample_world []) H).
  - reflexivity.
  - simpl. lia.
Defined.

(** ** Editing an open task *)

Lemma lower_not_empty s : is_empty s = false -> is_empty (lower s) = false.
Proof. destruct s; simpl; auto. Qed.

Section EditingOpen.

Variable tabulate : list (list string) -> list string -> string.

Lemma edit_task_loop_skip n :
  forall l found w,
    Forall (other_than n) l ->
    edit_task_loop tabulate n l found w = (inr (l, found, false), w).
Proof.
  induction l as [|x l IH]; intros found w H.
  - reflexivity.
  - inversion H as [|? ? (k & Hk & Hne) Hl]; subst.
    cbn [edit_task_loop]. rewrite Hk, bind_lift_ok.
    apply Z.eqb_neq in Hne. rewrite Hne.
    unfold bind at 1. rewrite (IH found w Hl). reflexivity.
Qed.

Lemma edit_task_loop_selects n t post :
  task_number t = Some n ->
  Forall (other_than n) post ->
  forall pre found w,
    Forall (other_than n) pre ->
    edit_task_loop tabulate n (pre ++ t :: post)%list found w
    = match edit_selected_task tabulate t w with
      | (inl e, w') => (inl e, w')
      | (inr (t', Return), w') =>
          (inr ((pre ++ t' :: post)%list, true, true), w')
      | (inr (t', _), w') =>
          (inr ((pre ++ t' :: post)%list, true, false), w')
      end.
Proof.
  intros Htn Hpost.
  induction pre as [|x pre IH]; intros found w Hpre.
  - cbn [app edit_task_loop]. rewrite Htn, bind_lift_ok, Z.eqb_refl.
    unfold bind at 1.
    destruct (edit_selected_task tabulate t w) as [[e|[t' c]] w'];
      [reflexivity|].
    destruct c; try reflexivity.
    unfold bind. rewrite (edit_task_loop_skip n post true w' Hpost).
    reflexivity.
  - inversion Hpre as [|? ? (k & Hk & Hne) Hpre']; subst.
    cbn [app edit_task_loop]. rewrite Hk, bind_lift_ok.
    apply Z.eqb_neq in Hne. rewrite Hne.
    unfold bind at 1. rewrite (IH found w Hpre').
    destruct (edit_selected_task tabulate t w) as [[e|[t' c]] w'];
      [reflexivity|].
    destruct c; reflexivity.
Qed.

Lemma edit_task_details_selects sel n t pre post w :
  int_of_string sel = inr n ->
  task_number t = Some n ->
  Forall (other_than n) pre ->
  Forall (other_than n) post ->
  edit_task_details tabulate (pre ++ t :: post)%list sel w
  = match edit_selected_task tabulate t w with
    | (inl e, w') => (inl e, w')
    | (inr (t', _), w') => (inr (pre ++ t' :: post)%list, w')
    end.
Proof.
  intros Hint Htn Hpre Hpost. unfold edit_task_details. rewrite Hint.
  unfold bind at 1.
  rewrite (edit_task_loop_selects n t post Htn Hpost pre false w Hpre).
  destruct (edit_selected_task tabulate t w) as [[e|[t' c]] w'];
    [reflexivity|].
  destruct c; reflexivity.
Qed.

(** X11: a selector that is not a number, or is the number of none of
    the tasks listed, is answered with "Invalid task number.": the list
    comes back as it was, nothing is read, and the files are not
    touched. *)
Theorem invalid_selector_changes_nothing :
  forall my_task_list edit_specific_task w,
    int_of_string edit_specific_task = inl ValueError
    \/ (exists n, int_of_string edit_specific_task = inr n
                  /\ Forall (other_than n) my_task_list) ->
    edit_task_details tabulate my_task_list edit_specific_task w
    = (inr my_task_list, emit w (red "Invalid task number.")).
Proof.
  intros l sel w [H|(n & H & Hl)]; unfold edit_task_details; rewrite H.
  - reflexivity.
  - unfold bind at 1. rewrite (edit_task_loop_skip n l false w Hl).
    reflexivity.
Qed.

End EditingOpen.

(** The theorem for the tasks shown to "alice", with the selectors [x]
    and [7]. *)
Lemma invalid_selector_changes_nothing_witness :
  edit_task_details no_menu sample_view "x" (sample_world ["u"])
  = (inr sample_view, emit (sample_world ["u"]) (red "Invalid task number."))
  /\ edit_task_details no_menu sample_view "7" (sample_world ["u"])
     = (inr sample_view, emit (sample_world ["u"]) (red "Invalid task number.")).
Proof.
  split.
  - apply (invalid_selector_changes_nothing no_menu sample_view "x").
    left. reflexivity.
  - apply (invalid_selector_changes_nothing no_menu sample_view "7").
    right. exists 7. split; [reflexivity|].
    repeat constructor; eexists; (split; [reflexivity | lia]).
Defined.

Section EditingOpenTask.

Variable tabulate : list (list string) -> list string -> string.

Lemma open_condition t now :
  locked now t = false ->
  negb (completed t) && datetime_gt (midnight (due_date t)) now = true.
Proof.
  unfold locked. intros H. apply orb_false_iff in H. destruct H as [Hc Hd].
  rewrite Hc. apply negb_false_iff in Hd. rewrite Hd. reflexivity.
Qed.

Lemma update_tasks_file_same_file t w1 w2 :
  tasks_txt w1 = tasks_txt w2 ->
  tasks_txt (snd (update_tasks_file t w1))
  = tasks_txt (snd (update_tasks_file t w2))
  /\ fst (update_tasks_file t w1) = fst (update_tasks_file t w2).
Proof.
  intros H. unfold update_tasks_file. rewrite H.
  destruct (tasks_txt w2) as [content|] eqn:H2.
  - unfold bind, lift.
    destruct (update_lines t (readlines content)); simpl; split;
      try reflexivity.
    congruence.
  - simpl. split; [congruence | reflexivity].
Qed.

Ltac open_prefix Htn Hopen :=
  unfold edit_selected_task;
  rewrite bind_separate_line; cbv beta;
  rewrite bind_print; cbv beta;
  rewrite bind_separate_line; cbv beta;
  rewrite Htn, bind_lift_ok;
  repeat (rewrite bind_print; cbv beta);
  rewrite bind_today; cbv beta; cbn [clock emit];
  rewrite (open_condition _ _ Hopen);
  unfold display_edit_or_complete_menu;
  rewrite bind_print; cbv beta.

(** X12: on an open task, the choice [c] (in either case) followed by an
    answer: when the answer, lowered, is [yes] the task is marked
    completed and its line is rewritten as [update_tasks_file] does;
    any other answer changes neither the task nor the file and is
    answered with "No change made.".  Nothing else of the list
    changes. *)
Theorem complete_needs_yes :
  forall t n pre post sel w key answer rest,
    int_of_string sel = inr n ->
    task_number t = Some n ->
    Forall (other_than n) pre -> Forall (other_than n) post ->
    locked (clock w) t = false ->
    stdin w = key :: answer :: rest ->
    lower key = "c" -> is_empty answer = false ->
    tasks_txt w <> None ->
    exists w' out,
      edit_task_details tabulate (pre ++ t :: post)%list sel w
      = (inr (pre
              ++ (if String.eqb (lower answer) "yes"
                  then set_completed t true else t)
              :: post)%list, w')
      /\ stdin w' = rest
      /\ user_txt w' = user_txt w
      /\ tasks_txt w'
         = (if String.eqb (lower answer) "yes"
            then tasks_txt (snd (update_tasks_file (set_completed t true) w))
            else tasks_txt w)
      /\ stdout w'
         = (stdout w ++ out
            ++ [if String.eqb (lower answer) "yes"
                then green "Complete status successfully updated."
                else red "No change made."])%list.
Proof.
  intros t n pre post sel w key answer rest
         Hint Htn Hpre Hpost Hopen Hin Hkey Hans Hfile.
  rewrite (edit_task_details_selects tabulate sel n t pre post w
             Hint Htn Hpre Hpost).
  open_prefix Htn Hopen.
  erewrite bind_input by (cbn [stdin emit]; exact Hin).
  cbv beta. rewrite Hkey.
  change (String.eqb "c" "u") with false.
  change (String.eqb "c" "d") with false.
  change (String.eqb "c" "c") with true. cbv iota.
  erewrite bind_input by (cbn [stdin consume]; reflexivity).
  cbv beta. unfold bind at 1.
  rewrite validate_data_entry_returns_at_once
    by (apply lower_not_empty; exact Hans).
  destruct (String.eqb (lower answer) "yes").
  - rewrite bind_print. cbv beta.
    match goal with
    | |- context [bind (update_tasks_file ?t') _ ?W] =>
        destruct (update_tasks_file_same_file t' W w) as [Hf Hr];
          [reflexivity|];
        unfold bind at 1;
        destruct (update_tasks_file t' W) as [r W'] eqn:HW;
        cbn [fst snd] in Hf, Hr
    end.
    assert (Hok : r = inr tt).
    { rewrite Hr. unfold update_tasks_file.
      destruct (tasks_txt w) as [content|]; [|congruence].
      unfold bind, lift.
      destruct (update_lines_result (set_completed t true) (readlines content))
        as (lines' & _ & _ & Hu & _).
      rewrite Hu. reflexivity. }
    clear Hr. subst r. unfold ret.
    assert (Hrest : stdin W' = rest /\ user_txt W' = user_txt w
                    /\ exists out, stdout W'
                         = (stdout w ++ out
                            ++ [green "Complete status successfully updated."])%list).
    { revert HW. unfold update_tasks_file. cbn [tasks_txt emit consume].
      destruct (tasks_txt w) as [content|]; [|congruence].
      unfold bind, lift.
      destruct (update_lines (set_completed t true) (readlines content))
        as [e|lines']; intros HW; [discriminate HW|].
      unfold set_tasks_txt in HW. injection HW as HW. subst W'.
      cbn [stdin user_txt stdout emit consume].
      split; [reflexivity|]. split; [reflexivity|].
      exists (detail_lines t n
              ++ [tabulate [["u"; "Edit username"]; ["d"; "Edit due date"];
                            ["c"; "Complete task"]; ["e"; "Exit"]]
                           ["Opcion"; "Description"];
                  ("Please select an option: " ++ NL)%string;
                  "To change to completed enter 'Yes': "])%list.
      rewrite <- !app_assoc. reflexivity. }
    destruct Hrest as (Hs & Hu & out & Ho).
    exists W', out. repeat split; assumption.
  - rewrite bind_print. cbv beta. unfold ret.
    eexists.
    exists (detail_lines t n
            ++ [tabulate [["u"; "Edit username"]; ["d"; "Edit due date"];
                          ["c"; "Complete task"]; ["e"; "Exit"]]
                         ["Opcion"; "Description"];
                ("Please select an option: " ++ NL)%string;
                "To change to completed enter 'Yes': "])%list.
    split; [reflexivity|].
    cbn [stdin user_txt tasks_txt stdout emit consume].
    split; [reflexivity|]. split; [reflexivity|]. split; [reflexivity|].
    rewrite <- !app_assoc. reflexivity.
Qed.

End EditingOpenTask.

(** The theorem for the second task of the sample file, with the keys
    [C], [YES]. *)
Lemma complete_needs_yes_witness :
  int_of_string "2" = inr 2
  /\ exists w' out,
      edit_task_details no_menu sample_view "2" (sample_world ["C"; "YES"; "x"])
      = (inr [mktask 2 "alice" "Fix bug" "desc" (mkdate 2099 12 31)
                     (mkdate 2024 1 1) true (Some 2);
              mktask 3 "alice" "Old job" "late" (mkdate 2020 1 1)
                     (mkdate 2019 12 1) false (Some 3)],
         w')
      /\ stdin w' = ["x"]
      /\ user_txt w' = Some sample_user_txt
      /\ tasks_txt w'
         = tasks_txt
             (snd (update_tasks_file
                     (mktask 2 "alice" "Fix bug" "desc" (mkdate 2099 12 31)
                             (mkdate 2024 1 1) true (Some 2))
                     (sample_world ["C"; "YES"; "x"])))
      /\ stdout w'
         = (out ++ [green "Complete status successfully updated."])%list.
Proof.
  split; [reflexivity|].
  apply (complete_needs_yes
           no_menu
           (mktask 2 "alice" "Fix bug" "desc" (mkdate 2099 12 31)
                   (mkdate 2024 1 1) false (Some 2))
           2 []
           [mktask 3 "alice" "Old job" "late" (mkdate 2020 1 1)
                   (mkdate 2019 12 1) false (Some 3)]
           "2" (sample_world ["C"; "YES"; "x"]) "C" "YES" ["x"]).
  - reflexivity.
  - reflexivity.
  - constructor.
  - constructor; [|constructor]. exists 3. split; [reflexivity | lia].
  - reflexivity.
  - reflexivity.
  - reflexivity.
  - reflexivity.
  - discriminate.
Defined.

Lemma read_users_file_run w content users :
  user_txt w = Some content ->
  users_of_text content = inr users ->
  read_users_file w = (inr users, w).
Proof.
  intros Hfile Hparse. unfold read_users_file, lift.
  rewrite Hfile, Hparse. reflexivity.
Qed.

Section EditingOpenTaskMore.

Variable tabulate : list (list string) -> list string -> string.

Ltac open_prefix Htn Hopen :=
  unfold edit_selected_task;
  rewrite bind_separate_line; cbv beta;
  rewrite bind_print; cbv beta;
  rewrite bind_separate_line; cbv beta;
  rewrite Htn, bind_lift_ok;
  repeat (rewrite bind_print; cbv beta);
  rewrite bind_today; cbv beta; cbn [clock emit];
  rewrite (open_condition _ _ Hopen);
  unfold display_edit_or_complete_menu;
  rewrite bind_print; cbv beta.

Lemma update_after_print t' msg W w :
  tasks_txt W = tasks_txt w ->
  tasks_txt w <> None ->
  exists W',
    (print msg ;;; update_tasks_file t' ;;; ret (t', Next)) W
    = (inr (t', Next), W')
    /\ stdin W' = stdin W
    /\ user_txt W' = user_txt W
    /\ tasks_txt W' = tasks_txt (snd (update_tasks_file t' w))
    /\ stdout W' = (stdout W ++ [msg])%list.
Proof.
  intros Hsame Hfile.
  rewrite bind_print. unfold bind, update_tasks_file.
  cbn [tasks_txt emit]. rewrite Hsame.
  destruct (tasks_txt w) as [content|]; [|congruence].
  unfold lift.
  destruct (update_lines_result t' (readlines content))
    as (lines' & _ & _ & Hu & _).
  rewrite Hu. unfold set_tasks_txt, ret.
  eexists. split; [reflexivity|]. cbn. auto.
Qed.

Lemma validate_due_date_input_accepts w text rest d :
  stdin w = text :: rest ->
  strptime text = inr d ->
  validate_due_date_input w
  = (inr d, consume w "Due date of task (DD-MM-YYYY): " rest).
Proof.
  intros Hin Hd.
  assert (Hne : is_empty text = false).
  { destruct text; [discriminate Hd | reflexivity]. }
  unfold validate_due_date_input, while_true.
  destruct (length (stdin w)); cbn [loop];
    unfold bind at 1;
    erewrite bind_input by exact Hin;
    cbv beta; unfold bind at 1;
    rewrite validate_data_entry_returns_at_once by exact Hne;
    rewrite Hd; reflexivity.
Qed.

Lemma validate_if_username_registered_at_once u (up : dict string) w :
  dict_mem u up = true ->
  validate_if_username_registered u up w = (inr u, w).
Proof.
  intros Hu. rewrite dict_mem_keys in Hu.
  unfold validate_if_username_registered, while_true.
  destruct (length (stdin w)); cbn [loop]; unfold bind; rewrite Hu;
    reflexivity.
Qed.

(** X13: on an open task, the choice [d] followed by a text that
    [strptime] reads as a date replaces the due date by that date and
    rewrites the task's line as [update_tasks_file] does; nothing else
    of the list changes. *)
Theorem reschedule_sets_due_date :
  forall t n pre post sel w key text d rest,
    int_of_string sel = inr n ->
    task_number t = Some n ->
    Forall (other_than n) pre -> Forall (other_than n) post ->
    locked (clock w) t = false ->
    stdin w = key :: text :: rest ->
    lower key = "d" -> strptime text = inr d ->
    tasks_txt w <> None ->
    exists w' out,
      edit_task_details tabulate (pre ++ t :: post)%list sel w
      = (inr (pre ++ set_due_date t d :: post)%list, w')
      /\ stdin w' = rest
      /\ user_txt w' = user_txt w
      /\ tasks_txt w' = tasks_txt (snd (update_tasks_file (set_due_date t d) w))
      /\ stdout w'
         = (stdout w ++ out ++ [green "Due date successfully updated."])%list.
Proof.
  intros t n pre post sel w key text d rest
         Hint Htn Hpre Hpost Hopen Hin Hkey Hd Hfile.
  rewrite (edit_task_details_selects tabulate sel n t pre post w
             Hint Htn Hpre Hpost).
  open_prefix Htn Hopen.
  erewrite bind_input by (cbn [stdin emit]; exact Hin).
  cbv beta. rewrite Hkey.
  change (String.eqb "d" "u") with false.
  change (String.eqb "d" "d") with true. cbv iota.
  unfold bind at 1.
  erewrite validate_due_date_input_accepts
    by (first [cbn [stdin consume]; reflexivity | exact Hd]).
  match goal with
  | |- context [bind (print ?msg) _ ?W] =>
      destruct (update_after_print (set_due_date t d) msg W w)
        as (W' & Hrun & Hs & Hu & Hf & Ho);
        [reflexivity | exact Hfile |]
  end.
  rewrite Hrun.
  exists W'.
  exists (detail_lines t n
          ++ [tabulate [["u"; "Edit username"]; ["d"; "Edit due date"];
                        ["c"; "Complete task"]; ["e"; "Exit"]]
                       ["Opcion"; "Description"];
              ("Please select an option: " ++ NL)%string;
              "Due date of task (DD-MM-YYYY): "])%list.
  split; [reflexivity|].
  split; [rewrite Hs; reflexivity|].
  split; [rewrite Hu; reflexivity|].
  split; [exact Hf|].
  rewrite Ho. cbn [stdout emit consume].
  rewrite <- !app_assoc. reflexivity.
Qed.

(** X14: on an open task, the choice [u] followed by a name that is a
    key of the mapping [read_users_file] reads from [user.txt] makes
    that name the task's username and rewrites the task's line as
    [update_tasks_file] does: when the first name typed is registered,
    the name stored is registered. *)
Theorem reassign_to_registered_name :
  forall t n pre post sel w key name rest content users,
    int_of_string sel = inr n ->
    task_number t = Some n ->
    Forall (other_than n) pre -> Forall (other_than n) post ->
    locked (clock w) t = false ->
    stdin w = key :: name :: rest ->
    lower key = "u" -> is_empty name = false ->
    user_txt w = Some content -> users_of_text content = inr users ->
    dict_mem name users = true ->
    tasks_txt w <> None ->
    exists w' out,
      edit_task_details tabulate (pre ++ t :: post)%list sel w
      = (inr (pre ++ set_username t name :: post)%list, w')
      /\ stdin w' = rest
      /\ user_txt w' = user_txt w
      /\ tasks_txt w' = tasks_txt (snd (update_tasks_file (set_username t name) w))
      /\ stdout w'
         = (stdout w ++ out ++ [green "Username successfully updated."])%list.
Proof.
  intros t n pre post sel w key name rest content users
         Hint Htn Hpre Hpost Hopen Hin Hkey Hname Husers Hparse Hmem Hfile.
  rewrite (edit_task_details_selects tabulate sel n t pre post w
             Hint Htn Hpre Hpost).
  open_prefix Htn Hopen.
  erewrite bind_input by (cbn [stdin emit]; exact Hin).
  cbv beta. rewrite Hkey.
  change (String.eqb "u" "u") with true. cbv iota.
  unfold bind at 1.
  rewrite (read_users_file_run _ content users);
    [| cbn [user_txt consume emit]; exact Husers | exact Hparse].
  erewrite bind_input by (cbn [stdin consume]; reflexivity).
  cbv beta. unfold bind at 1.
  rewrite validate_data_entry_returns_at_once by exact Hname.
  unfold bind at 1.
  rewrite validate_if_username_registered_at_once by exact Hmem.
  match goal with
  | |- context [bind (print ?msg) _ ?W] =>
      destruct (update_after_print (set_username t name) msg W w)
        as (W' & Hrun & Hs & Hu & Hf & Ho);
        [reflexivity | exact Hfile |]
  end.
  rewrite Hrun.
  exists W'.
  exists (detail_lines t n
          ++ [tabulate [["u"; "Edit username"]; ["d"; "Edit due date"];
                        ["c"; "Complete task"]; ["e"; "Exit"]]
                       ["Opcion"; "Description"];
              ("Please select an option: " ++ NL)%string;
              "Enter the new username: "])%list.
  split; [reflexivity|].
  split; [rewrite Hs; reflexivity|].
  split; [rewrite Hu; reflexivity|].
  split; [exact Hf|].
  rewrite Ho. cbn [stdout emit consume].
  rewrite <- !app_assoc. reflexivity.
Qed.

(** X15: on an open task, any choice other than [u], [d] and [c] leaves
    the list and both files as they were and reads only the choice; [e]
    says nothing more, anything else is answered with "Invalid
    option.". *)
Theorem other_choice_changes_nothing :
  forall t n pre post sel w key rest,
    int_of_string sel = inr n ->
    task_number t = Some n ->
    Forall (other_than n) pre -> Forall (other_than n) post ->
    locked (clock w) t = false ->
    stdin w = key :: rest ->
    String.eqb (lower key) "u" = false ->
    String.eqb (lower key) "d" = false ->
    String.eqb (lower key) "c" = false ->
    exists w' out,
      edit_task_details tabulate (pre ++ t :: post)%list sel w
      = (inr (pre ++ t :: post)%list, w')
      /\ stdin w' = rest
      /\ user_txt w' = user_txt w
      /\ tasks_txt w' = tasks_txt w
      /\ stdout w'
         = (stdout w ++ out
            ++ (if String.eqb (lower key) "e" then []
                else [red "Invalid option."]))%list.
Proof.
  intros t n pre post sel w key rest
         Hint Htn Hpre Hpost Hopen Hin Hu Hd Hc.
  rewrite (edit_task_details_selects tabulate sel n t pre post w
             Hint Htn Hpre Hpost).
  open_prefix Htn Hopen.
  erewrite bind_input by (cbn [stdin emit]; exact Hin).
  cbv beta. rewrite Hu, Hd, Hc.
  destruct (String.eqb (lower key) "e").
  - unfold ret. eexists.
    exists (detail_lines t n
            ++ [tabulate [["u"; "Edit username"]; ["d"; "Edit due date"];
                          ["c"; "Complete task"]; ["e"; "Exit"]]
                         ["Opcion"; "Description"];
                ("Please select an option: " ++ NL)%string])%list.
    split; [reflexivity|].
    cbn [stdin user_txt tasks_txt stdout emit consume].
    split; [reflexivity|]. split; [reflexivity|]. split; [reflexivity|].
    rewrite <- !app_assoc. reflexivity.
  - rewrite bind_print. unfold ret. eexists.
    exists (detail_lines t n
            ++ [tabulate [["u"; "Edit username"]; ["d"; "Edit due date"];
                          ["c"; "Complete task"]; ["e"; "Exit"]]
                         ["Opcion"; "Description"];
                ("Please select an option: " ++ NL)%string])%list.
    split; [reflexivity|].
    cbn [stdin user_txt tasks_txt stdout emit consume].
    split; [reflexivity|]. split; [reflexivity|]. split; [reflexivity|].
    rewrite <- !app_assoc. reflexivity.
Qed.

End EditingOpenTaskMore.

Lemma sample_late_task_other : Forall (other_than 2) [sample_late_task].
Proof.
  constructor; [|constructor]. exists 3. split; [reflexivity | lia].
Qed.

(** The theorem for the second task of the sample file and the date
    05-06-2100. *)
Lemma reschedule_sets_due_date_witness :
  strptime "05-06-2100" = inr (mkdate 2100 6 5)
  /\ exists w' out,
      edit_task_details no_menu sample_view "2"
                        (sample_world ["D"; "05-06-2100"; "x"])
      = (inr [set_due_date sample_open_task (mkdate 2100 6 5);
              sample_late_task], w')
      /\ stdin w' = ["x"]
      /\ user_txt w' = Some sample_user_txt
      /\ tasks_txt w'
         = tasks_txt
             (snd (update_tasks_file
                     (set_due_date sample_open_task (mkdate 2100 6 5))
                     (sample_world ["D"; "05-06-2100"; "x"])))
      /\ stdout w' = (out ++ [green "Due date successfully updated."])%list.
Proof.
  split; [reflexivity|].
  apply (reschedule_sets_due_date
           no_menu sample_open_task 2 [] [sample_late_task] "2"
           (sample_world ["D"; "05-06-2100"; "x"]) "D" "05-06-2100"
           (mkdate 2100 6 5) ["x"]).
  - reflexivity.
  - reflexivity.
  - constructor.
  - exact sample_late_task_other.
  - reflexivity.
  - reflexivity.
  - reflexivity.
  - reflexivity.
  - discriminate.
Defined.

(** The theorem for the second task of the sample file and the
    registered name "bob". *)
Lemma reassign_to_registered_name_witness :
  dict_mem "bob" sample_users = true
  /\ exists w' out,
      edit_task_details no_menu sample_view "2"
                        (sample_world ["U"; "bob"; "x"])
      = (inr [set_username sample_open_task "bob"; sample_late_task], w')
      /\ stdin w' = ["x"]
      /\ user_txt w' = Some sample_user_txt
      /\ tasks_txt w'
         = tasks_txt
             (snd (update_tasks_file
                     (set_username sample_open_task "bob")
                     (sample_world ["U"; "bob"; "x"])))
      /\ stdout w' = (out ++ [green "Username successfully updated."])%list.
Proof.
  split; [reflexivity|].
  apply (reassign_to_registered_name
           no_menu sample_open_task 2 [] [sample_late_task] "2"
           (sample_world ["U"; "bob"; "x"]) "U" "bob" ["x"]
           sample_user_txt sample_users).
  - reflexivity.
  - reflexivity.
  - constructor.
  - exact sample_late_task_other.
  - reflexivity.
  - reflexivity.
  - reflexivity.
  - reflexivity.
  - reflexivity.
  - reflexivity.
  - reflexivity.
  - discriminate.
Defined.

(** The theorem for the second task of the sample file and the choice
    [q]. *)
Lemma other_choice_changes_nothing_witness :
  String.eqb (lower "Q") "u" = false
  /\ exists w' out,
      edit_task_details no_menu sample_view "2" (sample_world ["Q"; "x"])
      = (inr sample_view, w')
      /\ stdin w' = ["x"]
      /\ user_txt w' = Some sample_user_txt
      /\ tasks_txt w' = Some sample_tasks_txt
      /\ stdout w' = (out ++ [red "Invalid option."])%list.
Proof.
  split; [reflexivity|].
  apply (other_choice_changes_nothing
           no_menu sample_open_task 2 [] [sample_late_task] "2"
           (sample_world ["Q"; "x"]) "Q" ["x"]).
  - reflexivity.
  - reflexivity.
  - constructor.
  - exact sample_late_task_other.
  - reflexivity.
  - reflexivity.
  - reflexivity.
  - reflexivity.
  - reflexivity.
Defined.

(** ** The credential file as text *)

Lemma readlines_aux_last line :
  contains LF line = false ->
  forall cur,
    readlines_aux cur line
    = if is_empty (cur ++ line) then [] else [(cur ++ line)%string].
Proof.
  induction line as [|c line IH]; intros H cur.
  - cbn [readlines_aux]. rewrite append_nil_r. reflexivity.
  - cbn [contains] in H. apply orb_false_iff in H. destruct H as [Hc Hl].
    cbn [readlines_aux]. rewrite Hc, (IH Hl), append_assoc. reflexivity.
Qed.

Lemma lstrip_length s : (String.length (lstrip s) <= String.length s)%nat.
Proof.
  induction s as [|c s IH]; cbn [lstrip String.length].
  - lia.
  - destruct (isspace c); cbn [String.length]; lia.
Qed.

Lemma lstrip_app k c s :
  lstrip k = k -> isspace c = false ->
  lstrip (k ++ String c s) = (k ++ String c s)%string.
Proof.
  intros Hk Hc. destruct k as [|a k].
  - cbn [String.append lstrip]. rewrite Hc. reflexivity.
  - cbn [String.append lstrip]. cbn [lstrip] in Hk.
    destruct (isspace a); [|reflexivity].
    pose proof (lstrip_length k) as Hlen. rewrite Hk in Hlen.
    cbn [String.length] in Hlen. lia.
Qed.

Lemma rstrip_app a c v :
  rstrip (String c v) = String c v ->
  rstrip (a ++ String c v) = (a ++ String c v)%string.
Proof.
  intros H. induction a as [|x a IH].
  - exact H.
  - cbn [String.append rstrip]. rewrite IH.
    destruct a; reflexivity.
Qed.

Lemma rstrip_newline a : rstrip (a ++ NL) = rstrip a.
Proof.
  induction a as [|x a IH].
  - reflexivity.
  - cbn [String.append rstrip]. rewrite IH. reflexivity.
Qed.

Lemma rstrip_after_semi v :
  rstrip v = v -> rstrip (String SEMI v) = String SEMI v.
Proof.
  intros H. cbn [rstrip]. rewrite H. destruct v; reflexivity.
Qed.

Lemma strip_user_row k v :
  lstrip k = k -> rstrip v = v ->
  strip (k ++ ";" ++ v) = (k ++ ";" ++ v)%string
  /\ strip (k ++ ";" ++ v ++ NL) = (k ++ ";" ++ v)%string.
Proof.
  intros Hk Hv. unfold strip.
  change (k ++ ";" ++ v)%string with (k ++ String SEMI v)%string.
  change (k ++ ";" ++ v ++ NL)%string with (k ++ String SEMI (v ++ NL))%string.
  rewrite !lstrip_app by (exact Hk || reflexivity).
  split.
  - apply rstrip_app, rstrip_after_semi, Hv.
  - replace (k ++ String SEMI (v ++ NL))%string
      with ((k ++ String SEMI v) ++ NL)%string
      by (rewrite append_assoc; reflexivity).
    rewrite rstrip_newline.
    apply rstrip_app, rstrip_after_semi, Hv.
Qed.

Lemma split_user_row k v :
  plain k = true -> plain v = true -> split SEMI (k ++ ";" ++ v) = [k; v].
Proof.
  intros Hk Hv.
  change (k ++ ";" ++ v)%string with (k ++ String SEMI v)%string.
  rewrite split_app_sep by (apply plain_contains; [exact Hk | reflexivity]).
  rewrite split_none by (apply plain_contains; [exact Hv | reflexivity]).
  reflexivity.
Qed.

Lemma user_row_contains c k v :
  delimiter c = true -> Ascii.eqb SEMI c = false ->
  plain k = true -> plain v = true ->
  contains c (k ++ ";" ++ v) = false.
Proof.
  intros Hc Hsemi Hk Hv.
  change (k ++ ";" ++ v)%string with (k ++ String SEMI v)%string.
  rewrite contains_app. cbn [contains].
  rewrite (plain_contains k c Hk Hc), (plain_contains v c Hv Hc), Hsemi.
  reflexivity.
Qed.

Lemma user_file_text_contains c d :
  delimiter c = true -> Ascii.eqb SEMI c = false -> Ascii.eqb LF c = false ->
  Forall entry_ok d -> contains c (user_file_text d) = false.
Proof.
  intros Hc Hsemi Hlf H. unfold user_file_text.
  apply contains_join.
  - cbn [contains NL]. unfold NL. cbn [contains]. rewrite Hlf. reflexivity.
  - apply Forall_map. eapply Forall_impl; [|exact H].
    intros [k v] (Hk & Hv & _). apply user_row_contains; assumption.
Qed.

Lemma readlines_user_file_text d :
  Forall entry_ok d -> readlines (user_file_text d) = user_lines d.
Proof.
  intros H. unfold readlines.
  rewrite universal_newlines_id
    by (apply user_file_text_contains; [reflexivity .. | exact H]).
  unfold user_file_text, join.
  induction H as [|[k v] rest (Hk & Hv & _) Hrest IH]; [reflexivity|].
  destruct rest as [|kv rest'].
  - cbn [map String.concat user_lines fst snd].
    rewrite readlines_aux_last
      by (apply user_row_contains; [reflexivity | reflexivity | exact Hk | exact Hv]).
    change ("" ++ (k ++ ";" ++ v))%string with (k ++ String SEMI v)%string.
    rewrite is_empty_app_char. reflexivity.
  - cbn [map]. rewrite concat_cons2.
    change (NL ++ ?s)%string with (String LF s).
    cbn [fst snd].
    rewrite readlines_aux_line
      by (apply user_row_contains; [reflexivity | reflexivity | exact Hk | exact Hv]).
    cbn [user_lines fst snd]. cbn [map] in IH. rewrite IH.
    change ("" ++ ?s)%string with s.
    rewrite !append_assoc. reflexivity.
Qed.

Lemma dict_set_fresh {V} k (v : V) :
  forall d, ~ In k (dict_keys d) -> dict_set k v d = (d ++ [(k, v)])%list.
Proof.
  induction d as [|[k' v'] d IH]; intros Hk.
  - reflexivity.
  - cbn [dict_set app]. cbn [dict_keys map fst In] in Hk.
    destruct (String.eqb k' k) eqn:E.
    + apply String.eqb_eq in E. tauto.
    + rewrite IH; [reflexivity|]. unfold dict_keys. tauto.
Qed.

Lemma users_of_lines_user_lines :
  forall d acc,
    Forall entry_ok d ->
    NoDup (dict_keys (acc ++ d)%list) ->
    users_of_lines (user_lines d) acc = inr (acc ++ d)%list.
Proof.
  induction d as [|[k v] rest IH]; intros acc H Hnd.
  - cbn [user_lines users_of_lines]. rewrite app_nil_r. reflexivity.
  - inversion H as [|? ? (Hk & Hv & Hl & Hr) Hrest]; subst.
    cbn [fst snd] in Hk, Hv, Hl, Hr.
    destruct (strip_user_row k v Hl Hr) as [Hlast Hline].
    assert (Hfresh : ~ In k (dict_keys acc)).
    { unfold dict_keys in *. rewrite map_app in Hnd.
      cbn [map fst] in Hnd. apply NoDup_remove_2 in Hnd.
      intros Hin. apply Hnd. apply in_or_app. left. exact Hin. }
    assert (Hnd' : NoDup (dict_keys ((acc ++ [(k, v)]) ++ rest)%list)).
    { rewrite <- app_assoc. exact Hnd. }
    destruct rest as [|kv rest'].
    + cbn [user_lines users_of_lines fst snd].
      rewrite Hlast, (split_user_row k v Hk Hv).
      cbn [users_of_lines]. rewrite dict_set_fresh by exact Hfresh.
      reflexivity.
    + change (user_lines ((k, v) :: kv :: rest'))
        with ((k ++ ";" ++ v ++ NL)%string :: user_lines (kv :: rest')).
      cbn [users_of_lines].
      rewrite Hline, (split_user_row k v Hk Hv).
      rewrite dict_set_fresh by exact Hfresh.
      rewrite (IH (acc ++ [(k, v)])%list Hrest Hnd').
      rewrite <- app_assoc. reflexivity.
Qed.

(** X16: the text [add_new_user_to_user_file] writes for a mapping is
    read back by [read_users_file] as the same mapping, in the same
    order, when no name or password holds [;] or a line break, no name
    starts with whitespace and no password ends with it. *)
Theorem user_file_round_trip :
  forall d,
    Forall entry_ok d -> NoDup (dict_keys d) ->
    users_of_text (user_file_text d) = inr d.
Proof.
  intros d H Hnd. unfold users_of_text.
  rewrite (readlines_user_file_text d H).
  exact (users_of_lines_user_lines d [] H Hnd).
Qed.

(** The theorem for the three users of the sample file. *)
Lemma user_file_round_trip_witness :
  user_file_text sample_users
  = ("admin;password" ++ NL ++ "alice;secret" ++ NL ++ "bob;hunter2")%string
  /\ users_of_text (user_file_text sample_users) = inr sample_users.
Proof.
  split; [reflexivity|].
  apply (user_file_round_trip sample_users).
  - repeat constructor.
  - repeat constructor; cbn; intuition discriminate.
Defined.

(** ** What prompting leaves alone *)

Lemma io_step_refl w : io_step w w.
Proof.
  unfold io_step. repeat split; try reflexivity.
  - exists []. reflexivity.
  - exists []. rewrite app_nil_r. reflexivity.
Qed.

Lemma io_step_trans w1 w2 w3 : io_step w1 w2 -> io_step w2 w3 -> io_step w1 w3.
Proof.
  intros (Hu & Ht & Hc & [r Hr] & [o Ho]) (Hu' & Ht' & Hc' & [r' Hr'] & [o' Ho']).
  unfold io_step. repeat split; try congruence.
  - exists (r ++ r')%list. rewrite Hr, Hr', app_assoc. reflexivity.
  - exists (o ++ o')%list. rewrite Ho', Ho, app_assoc. reflexivity.
Qed.

Lemma io_step_emit w s : io_step w (emit w s).
Proof.
  unfold io_step, emit. cbn. repeat split.
  - exists []. reflexivity.
  - exists [s]. reflexivity.
Qed.

Lemma io_ret {A} (Q : A -> Prop) a : Q a -> io Q (ret a).
Proof. intros H w. unfold outcome, ret. split; [apply io_step_refl | exact H]. Qed.

Lemma io_print (Q : unit -> Prop) s : Q tt -> io Q (print s).
Proof.
  intros H w. unfold outcome. split; [apply (io_step_emit w s) | exact H].
Qed.

Lemma io_input prompt : io (fun _ => True) (input prompt).
Proof.
  intros w. unfold outcome, input, io_step.
  destruct (stdin w) as [|l rest] eqn:Hin; cbn; rewrite ?Hin.
  - repeat split; try reflexivity; [exists [] | exists [prompt]]; reflexivity.
  - repeat split; try reflexivity; [exists [l] | exists [prompt]]; reflexivity.
Qed.

Lemma io_bind {A B} (P : A -> Prop) (Q : B -> Prop) (m : M A) (k : A -> M B) :
  io P m -> (forall a, P a -> io Q (k a)) -> io Q (bind m k).
Proof.
  intros Hm Hk w. specialize (Hm w). unfold outcome, bind in *.
  destruct (m w) as [[e|a] w1]; [exact Hm|].
  destruct Hm as [Hstep Ha]. specialize (Hk a Ha w1). unfold outcome in Hk.
  destruct (k a w1) as [[e|b] w2]; destruct Hk as [Hstep' H];
    (split; [eapply io_step_trans; eassumption | exact H]).
Qed.

Lemma io_weaken {A} (P Q : A -> Prop) (m : M A) :
  io P m -> (forall a, P a -> Q a) -> io Q m.
Proof.
  intros Hm HPQ w. specialize (Hm w). unfold outcome in *.
  destruct (m w) as [[e|a] w1]; [exact Hm|].
  destruct Hm as [Hs Ha]. split; [exact Hs | apply HPQ, Ha].
Qed.

Lemma io_loop {St A} (Q : A -> Prop) (body : St -> M (St + A)) :
  (forall s, io (fun r => match r with
                          | inr a => Q a
                          | inl _ => True
                          end) (body s)) ->
  forall fuel s, io Q (loop fuel body s).
Proof.
  intros Hbody. induction fuel as [|fuel IH]; intros s.
  - cbn [loop]. eapply io_bind; [apply Hbody|].
    intros [s'|a] Hr.
    + intros w. unfold outcome, raise. split; [apply io_step_refl | reflexivity].
    + apply io_ret. exact Hr.
  - change (loop (Datatypes.S fuel) body s)
      with (bind (body s)
                 (fun r => match r with
                           | inr a => ret a
                           | inl s' => loop fuel body s'
                           end)).
    eapply io_bind; [apply Hbody|].
    intros [s'|a] Hr; [apply IH | apply io_ret; exact Hr].
Qed.

Lemma io_while_true {St A} (Q : A -> Prop) (body : St -> M (St + A)) s :
  (forall s, io (fun r => match r with
                          | inr a => Q a
                          | inl _ => True
                          end) (body s)) ->
  io Q (while_true body s).
Proof.
  intros Hbody w. unfold while_true.
  exact (io_loop Q body Hbody (length (stdin w)) s w).
Qed.

Lemma io_validate_data_entry data :
  io (fun text => is_empty text = false) (validate_data_entry data).
Proof.
  unfold validate_data_entry. apply io_while_true. intros s.
  destruct (is_empty s) eqn:Hs.
  - eapply io_bind; [apply io_input|]. intros l _. apply io_ret. exact I.
  - apply io_ret. exact Hs.
Qed.

Lemma io_prompt prompt :
  io (fun text => is_empty text = false)
     (typed <- input prompt ;; validate_data_entry typed).
Proof.
  eapply io_bind; [apply io_input|]. intros l _. apply io_validate_data_entry.
Qed.

Lemma bind_assoc {A B C} (m : M A) (k : A -> M B) (h : B -> M C) w :
  bind (bind m k) h w = bind m (fun a => bind (k a) h) w.
Proof.
  unfold bind. destruct (m w) as [[e|a] w1]; reflexivity.
Qed.

(** ** Registering and logging in *)

Lemma dict_get_app_fresh {V} k (v : V) :
  forall d, dict_get k (d ++ [(k, v)])%list = match dict_get k d with
                                          | Some x => Some x
                                          | None => Some v
                                          end.
Proof.
  induction d as [|[k' v'] d IH]; cbn [app dict_get].
  - rewrite String.eqb_refl. reflexivity.
  - destruct (String.eqb k' k); [reflexivity | exact IH].
Qed.

Lemma dict_get_app_other {V} k k0 (v : V) :
  forall d, k0 <> k -> dict_get k (d ++ [(k0, v)])%list = dict_get k d.
Proof.
  intros d Hk. induction d as [|[k' v'] d IH]; cbn [app dict_get].
  - destruct (String.eqb k0 k) eqn:E; [|reflexivity].
    apply String.eqb_eq in E. contradiction.
  - destruct (String.eqb k' k); [reflexivity | exact IH].
Qed.

Lemma io_registration_name new_user (username_password : dict string) :
  io (fun name => dict_mem name username_password = false)
     (while_true
        (fun new_user =>
           if dict_mem new_user username_password then
             print (NL ++ "User already exists." ++ NL) ;;;
             typed <- input "Please enter a different username: " ;;
             new_user' <- validate_data_entry typed ;;
             ret (inl new_user')
           else ret (inr new_user))
        new_user).
Proof.
  apply io_while_true. intros s.
  destruct (dict_mem s username_password) eqn:Hs.
  - eapply io_bind; [apply (io_print (fun _ => True)); exact I|]. intros _ _.
    eapply io_bind; [apply io_input|]. intros l _.
    eapply io_bind; [apply io_validate_data_entry|]. intros t _.
    apply io_ret. exact I.
  - apply io_ret. exact Hs.
Qed.

(** X17: [registration_user_option] either leaves the mapping and
    [user.txt] as they were, or adds one entry, for a name the mapping
    did not hold, with a password that is not empty, after all the
    entries there were, and writes the text of the mapping so extended
    to [user.txt]; no entry there was is changed or removed, [tasks.txt]
    is not touched, and the only failure is the [EOFError] of an
    exhausted input, with nothing written. *)
Theorem registration_adds_one_entry_or_none :
  forall new_user username_password w,
    outcome (registration_user_option new_user username_password) w
      (fun users w' =>
         tasks_txt w' = tasks_txt w
         /\ ((users = username_password /\ user_txt w' = user_txt w)
             \/ exists name password,
                 dict_mem name username_password = false
                 /\ is_empty password = false
                 /\ users = (username_password ++ [(name, password)])%list
                 /\ user_txt w' = Some (user_file_text users)))
      (fun e w' =>
         e = EOFError /\ user_txt w' = user_txt w
         /\ tasks_txt w' = tasks_txt w).
Proof.
  intros new_user up w. unfold registration_user_option.
  pose proof (io_registration_name new_user up w) as Hname.
  unfold outcome in *. unfold bind at 1.
  destruct (while_true _ new_user w) as [[e|name] w1].
  { destruct Hname as [(Hu & Ht & _) He]. auto. }
  destruct Hname as [Hs1 Hfresh].
  pose proof (io_prompt "New Password: " w1) as Hpw.
  unfold outcome in Hpw. rewrite <- bind_assoc. unfold bind at 1.
  destruct (bind (input "New Password: ") _ w1) as [[e|pw] w2].
  { destruct Hpw as [Hs2 He].
    destruct (io_step_trans _ _ _ Hs1 Hs2) as (Hu & Ht & _). auto. }
  destruct Hpw as [Hs2 Hpw].
  pose proof (io_prompt "Confirm Password: " w2) as Hcf.
  unfold outcome in Hcf. rewrite <- bind_assoc. unfold bind at 1.
  destruct (bind (input "Confirm Password: ") _ w2) as [[e|cf] w3].
  { destruct Hcf as [Hs3 He].
    destruct (io_step_trans _ _ _ (io_step_trans _ _ _ Hs1 Hs2) Hs3)
      as (Hu & Ht & _). auto. }
  destruct Hcf as [Hs3 _].
  destruct (io_step_trans _ _ _ (io_step_trans _ _ _ Hs1 Hs2) Hs3)
    as (Hu & Ht & _).
  destruct (String.eqb pw cf).
  - rewrite bind_print. unfold bind, add_new_user_to_user_file, set_user_txt, ret.
    cbn [tasks_txt user_txt emit]. split; [exact Ht|].
    right. exists name, pw.
    rewrite dict_set_fresh
      by (apply dict_mem_false_not_in; exact Hfresh).
    auto.
  - unfold ret. auto.
Qed.

Lemma users_of_lines_errors :
  forall lines acc e, users_of_lines lines acc = inl e -> e = ValueError.
Proof.
  induction lines as [|line rest IH]; intros acc e H;
    cbn [users_of_lines] in H.
  - discriminate.
  - destruct (split SEMI (strip line)) as [|a [|b [|c l]]];
      try (inversion H; reflexivity).
    eapply IH; exact H.
Qed.

(** X18: [initial_loggin] reads [user.txt] each time it is called.  When
    the file is missing it raises [FileNotFoundError], and when a line
    of it does not strip and split into exactly two fields it raises
    [ValueError], in both cases before anything is printed.  Otherwise
    it answers [True] exactly when the mapping read holds the password
    given under the name given, prints one line, the message of success
    exactly in that case, and changes nothing else; the lookup
    [username_password[user]] is never reached for a name that is not a
    key, so no [KeyError] is raised. *)
Theorem initial_loggin_checks_the_stored_password :
  forall user password w,
    match user_txt w with
    | Some content =>
        match users_of_text content with
        | inr username_password =>
            exists line,
              initial_loggin user password w
              = (inr (match dict_get user username_password with
                      | Some stored => String.eqb stored password
                      | None => false
                      end),
                 emit w line)
              /\ (line = (NL ++ green "Successful login!" ++ NL)%string
                  <-> dict_get user username_password = Some password)
        | inl e =>
            e = ValueError
            /\ initial_loggin user password w = (inl ValueError, w)
        end
    | None => initial_loggin user password w = (inl FileNotFoundError, w)
    end.
Proof.
  intros user password w.
  destruct (user_txt w) as [content|] eqn:Hfile.
  - destruct (users_of_text content) as [e|users] eqn:Hparse.
    + assert (He : e = ValueError)
        by (exact (users_of_lines_errors _ _ _ Hparse)).
      subst e. split; [reflexivity|].
      unfold initial_loggin, bind, read_users_file, lift.
      rewrite Hfile, Hparse. reflexivity.
    + unfold initial_loggin, bind at 1.
      rewrite (read_users_file_run w content users Hfile Hparse).
      unfold dict_mem, dict_item.
      destruct (dict_get user users) as [stored|] eqn:Hget.
      * rewrite bind_lift_ok.
        destruct (String.eqb stored password) eqn:Hpw.
        -- apply String.eqb_eq in Hpw. subst stored.
           rewrite bind_print. eexists. split; [reflexivity|].
           split; reflexivity.
        -- rewrite bind_print. eexists. split; [reflexivity|].
           split; [discriminate|].
           intros H. inversion H; subst.
           rewrite String.eqb_refl in Hpw. discriminate.
      * rewrite bind_print. eexists. split; [reflexivity|].
        split; discriminate.
  - unfold initial_loggin, bind, read_users_file. rewrite Hfile.
    reflexivity.
Qed.

(** ** Viewing tasks *)

Lemma view_lines_my_tasks curr_user :
  forall l i,
    view_lines curr_user l = flat_map task_lines (my_tasks_from curr_user i l).
Proof.
  induction l as [|t rest IH]; intros i; cbn [view_lines my_tasks_from].
  - reflexivity.
  - destruct (String.eqb (username t) curr_user).
    + cbn [flat_map]. rewrite <- (IH (i + 1)). reflexivity.
    + apply IH.
Qed.

Lemma my_tasks_from_owned curr_user :
  forall l i,
    Forall (fun t => username t = curr_user) (my_tasks_from curr_user i l).
Proof.
  induction l as [|t rest IH]; intros i; cbn [my_tasks_from].
  - constructor.
  - destruct (String.eqb (username t) curr_user) eqn:E; [|apply IH].
    constructor; [|apply IH]. apply String.eqb_eq in E. exact E.
Qed.

Lemma my_tasks_from_found curr_user :
  forall l i,
    existsb (owned_by curr_user) l
    = match my_tasks_from curr_user i l with
      | [] => false
      | _ => true
      end.
Proof.
  induction l as [|t rest IH]; intros i; cbn [my_tasks_from existsb].
  - reflexivity.
  - unfold owned_by at 1.
    destruct (String.eqb (username t) curr_user); [reflexivity|].
    apply IH.
Qed.

Lemma read_tasks_file_frame w :
  exists task_data,
    read_tasks_file w
    = (inr task_data,
       mkworld (user_txt w)
               (Some match tasks_txt w with
                     | Some content => content
                     | None => ""
                     end)
               (stdin w) (stdout w) (clock w)).
Proof.
  unfold read_tasks_file.
  destruct (tasks_txt w) as [content|] eqn:Hfile.
  - eexists. unfold ret. rewrite <- Hfile. destruct w; reflexivity.
  - eexists. reflexivity.
Qed.

(** X19: [view_my_tasks_option] reads no input and leaves [user.txt]
    alone; [tasks.txt] is left as it was, or created empty if it was
    missing; every task returned belongs to the user; what is printed
    is the heading, then the nine lines of each task returned, in order,
    then "No tasks assigned to you." exactly when no task is returned.
    It fails only when a line of [tasks.txt] is malformed, with
    [ValueError] or [IndexError], before anything is printed. *)
Theorem view_my_tasks_shows_what_it_returns :
  forall curr_user w,
    outcome (view_my_tasks_option curr_user) w
      (fun mine w' =>
         stdin w' = stdin w /\ user_txt w' = user_txt w
         /\ tasks_txt w' = Some match tasks_txt w with
                                | Some content => content
                                | None => ""
                                end
         /\ Forall (fun t => username t = curr_user) mine
         /\ stdout w'
            = (stdout w
               ++ ["*-*-*-*-*-*-*-*-*-*-*-*-*-*-*-*-*-*-*-*-*-*-*-*-*-*-*-*-*-*-";
                   yellow "Your tasks:";
                   "*-*-*-*-*-*-*-*-*-*-*-*-*-*-*-*-*-*-*-*-*-*-*-*-*-*-*-*-*-*-"]
               ++ flat_map task_lines mine
               ++ match mine with
                  | [] => [red "No tasks assigned to you."]
                  | _ => []
                  end)%list)
      (fun e w' =>
         (e = ValueError \/ e = IndexError)
         /\ stdin w' = stdin w /\ stdout w' = stdout w
         /\ user_txt w' = user_txt w
         /\ tasks_txt w' = Some match tasks_txt w with
                                | Some content => content
                                | None => ""
                                end).
Proof.
  intros curr_user w. unfold outcome, view_my_tasks_option.
  destruct (read_tasks_file_frame w) as [task_data Hread].
  unfold bind at 1. rewrite Hread.
  unfold bind at 1, lift.
  destruct (create_task_list task_data) as [e|all] eqn:Hall.
  - cbn [stdin stdout user_txt tasks_txt].
    split; [exact (create_task_list_from_errors _ _ _ Hall)|]. auto.
  - rewrite bind_separate_line. cbv beta.
    rewrite bind_print. cbv beta.
    rewrite bind_separate_line. cbv beta.
    unfold bind at 1. rewrite view_my_tasks_loop_result.
    cbn [orb]. rewrite (my_tasks_from_found curr_user all 1).
    rewrite (view_lines_my_tasks curr_user all 1).
    pose proof (my_tasks_from_owned curr_user all 1) as Hown.
    destruct (my_tasks_from curr_user 1 all) as [|t mine]; cbn [negb].
    + rewrite bind_print. unfold ret. cbn. rewrite <- !app_assoc.
      repeat split; try reflexivity. constructor.
    + rewrite bind_ret. unfold ret.
      match goal with
      | |- context [emit_all ?W ?out] =>
          destruct (emit_all_fields W out) as (H1 & H2 & H3 & H4 & H5)
      end.
      rewrite H1, H2, H3, H5. cbn [stdin stdout user_txt tasks_txt emit].
      rewrite app_nil_r, <- !app_assoc.
      repeat split; try reflexivity. exact Hown.
Qed.

Lemma view_all_tasks_loop_prints :
  forall l w,
    exists out,
      view_all_tasks_loop l w = (inr tt, emit_all w out)
      /\ length out = (9 * length l)%nat.
Proof.
  induction l as [|task rest IH]; intros w.
  - exists []. split; reflexivity.
  - cbn [view_all_tasks_loop].
    rewrite bind_separate_line. cbv beta.
    assert (Hnum : exists line,
               forall (k : M unit) w0,
                 (match shown_number task with
                  | Some n => print ("Task number:" ++ TAB ++ TAB ++ str n)
                  | None => print ("Task number:" ++ TAB ++ TAB ++ "N/A")
                  end ;;; k) w0 = k (emit w0 line)).
    { destruct (shown_number task) as [n|]; eexists; intros k w0;
        rewrite bind_print; reflexivity. }
    destruct Hnum as [line Hnum]. rewrite Hnum.
    repeat (rewrite bind_print; cbv beta).
    match goal with
    | |- context [view_all_tasks_loop rest ?W] =>
        destruct (IH W) as (out & Hrun & Hlen); rewrite Hrun
    end.
    exists (["*-*-*-*-*-*-*-*-*-*-*-*-*-*-*-*-*-*-*-*-*-*-*-*-*-*-*-*-*-*-";
             line;
             "Assigned to:" ++ TAB ++ TAB ++ username task;
             "Title:" ++ TAB ++ TAB ++ TAB ++ title task;
             "Description:" ++ TAB ++ TAB ++ description task;
             "Due Date:" ++ TAB ++ TAB ++ strftime (due_date task);
             "Assigned Date:" ++ TAB ++ TAB ++ strftime (assigned_date task);
             "Completed:" ++ TAB ++ TAB ++ yes_no (completed task);
             ""]%string ++ out)%list.
    split.
    + rewrite emit_all_app. reflexivity.
    + rewrite length_app, Hlen. cbn [length]. lia.
Qed.

(** X20: [view_all_tasks_option] never fails, reads no input and changes
    no file; it prints three lines of heading and nine lines for every
    task of the list, and the second line is "No tasks available."
    exactly when the list is empty. *)
Theorem view_all_tasks_only_prints :
  forall l w,
    exists out,
      view_all_tasks_option l w = (inr tt, emit_all w out)
      /\ length out = (3 + 9 * length l)%nat
      /\ nth_error out 1
         = Some match l with
                | [] => red "No tasks available."
                | _ => yellow "All Tasks:"
                end.
Proof.
  intros l w. unfold view_all_tasks_option.
  destruct l as [|task rest].
  - exists ["*-*-*-*-*-*-*-*-*-*-*-*-*-*-*-*-*-*-*-*-*-*-*-*-*-*-*-*-*-*-";
            red "No tasks available.";
            "*-*-*-*-*-*-*-*-*-*-*-*-*-*-*-*-*-*-*-*-*-*-*-*-*-*-*-*-*-*-"].
    split; [reflexivity|]. split; reflexivity.
  - rewrite bind_separate_line. cbv beta.
    rewrite bind_print. cbv beta.
    rewrite bind_separate_line. cbv beta.
    match goal with
    | |- context [view_all_tasks_loop ?l0 ?W] =>
        destruct (view_all_tasks_loop_prints l0 W) as (out & Hrun & Hlen);
          rewrite Hrun
    end.
    exists (["*-*-*-*-*-*-*-*-*-*-*-*-*-*-*-*-*-*-*-*-*-*-*-*-*-*-*-*-*-*-";
             yellow "All Tasks:";
             "*-*-*-*-*-*-*-*-*-*-*-*-*-*-*-*-*-*-*-*-*-*-*-*-*-*-*-*-*-*-"]
            ++ out)%list.
    split; [rewrite emit_all_app; reflexivity|].
    split; [|reflexivity].
    rewrite length_app, Hlen. cbn [length]. lia.
Qed.

(** ** The figures of the users, taken together *)

Lemma sum_over_map {A B} (f : A -> B) (g : B -> Z) l :
  sum_over g (map f l) = sum_over (fun a => g (f a)) l.
Proof.
  induction l as [|a l IH]; cbn [map sum_over fold_right].
  - reflexivity.
  - unfold sum_over in IH. rewrite IH. reflexivity.
Qed.

Lemma sum_over_ext {A} (g h : A -> Z) l :
  Forall (fun a => g a = h a) l -> sum_over g l = sum_over h l.
Proof.
  induction 1 as [|a l Ha _ IH]; cbn [sum_over fold_right].
  - reflexivity.
  - unfold sum_over in IH. rewrite Ha, IH. reflexivity.
Qed.

Lemma sum_over_indicator k :
  forall keys,
    NoDup keys ->
    sum_over (fun u => if String.eqb k u then 1 else 0) keys
    = if existsb (String.eqb k) keys then 1 else 0.
Proof.
  induction keys as [|u keys IH]; intros Hnd; cbn [sum_over fold_right existsb].
  - reflexivity.
  - inversion Hnd as [|? ? Hnotin Hnd']; subst.
    unfold sum_over in IH. rewrite (IH Hnd').
    destruct (String.eqb k u) eqn:E; cbn [orb].
    + apply String.eqb_eq in E. subst u.
      destruct (existsb (String.eqb k) keys) eqn:Hex; [|reflexivity].
      apply existsb_exists in Hex. destruct Hex as (x & Hx & Hkx).
      apply String.eqb_eq in Hkx. subst x. contradiction.
    + destruct (existsb (String.eqb k) keys); reflexivity.
Qed.

Lemma sum_count_owned keys :
  NoDup keys ->
  forall tasks,
    Forall (fun t => existsb (String.eqb (username t)) keys = true) tasks ->
    sum_over (fun u => count (owned_by u) tasks) keys
    = Z.of_nat (length tasks).
Proof.
  intros Hnd. induction 1 as [|t tasks Ht _ IH].
  - induction keys as [|u keys IHk]; [reflexivity|].
    inversion Hnd; subst. cbn [sum_over fold_right].
    unfold sum_over in IHk. rewrite IHk by assumption. reflexivity.
  - rewrite (sum_over_ext _
               (fun u => (if String.eqb (username t) u then 1 else 0)
                         + count (owned_by u) tasks))
      by (apply Forall_forall; intros u _; apply count_cons).
    assert (Hadd : forall (g h : string -> Z) l,
               sum_over (fun u => g u + h u) l = sum_over g l + sum_over h l).
    { intros g h l. induction l as [|a l IHl]; cbn [sum_over fold_right].
      - reflexivity.
      - unfold sum_over in IHl. rewrite IHl. lia. }
    rewrite Hadd, IH, (sum_over_indicator _ _ Hnd), Ht.
    cbn [length]. lia.
Qed.

Lemma count_owned_split u l :
  count (fun t => owned_by u t && completed t) l
  + count (fun t => owned_by u t && uncompleted t) l
  = count (owned_by u) l.
Proof.
  induction l as [|t l IH].
  - reflexivity.
  - rewrite !count_cons. unfold uncompleted at 1.
    destruct (owned_by u t), (completed t); cbn [andb negb]; lia.
Qed.

Lemma count_owned_overdue_le now u l :
  count (fun t => owned_by u t && overdue now t) l
  <= count (fun t => owned_by u t && uncompleted t) l.
Proof.
  induction l as [|t l IH].
  - rewrite !count_nil. lia.
  - rewrite !count_cons. unfold overdue at 1, uncompleted at 1.
    destruct (owned_by u t), (completed t),
      (datetime_le (midnight (due_date t)) now); cbn [andb negb]; lia.
Qed.

Lemma initial_user_stats_keys_from :
  forall keys (d : dict user_stat),
    NoDup (dict_keys d ++ keys) ->
    dict_keys (fold_left (fun user_stats username =>
                            dict_set username no_tasks user_stats) keys d)
    = (dict_keys d ++ keys)%list.
Proof.
  induction keys as [|k keys IH]; intros d Hnd; cbn [fold_left].
  - rewrite app_nil_r. reflexivity.
  - assert (Hfresh : ~ In k (dict_keys d)).
    { apply NoDup_remove_2 in Hnd. intros Hin. apply Hnd.
      apply in_or_app. left. exact Hin. }
    rewrite IH.
    + rewrite (dict_set_fresh k no_tasks d Hfresh).
      unfold dict_keys. rewrite map_app, <- app_assoc. reflexivity.
    + rewrite (dict_set_fresh k no_tasks d Hfresh).
      unfold dict_keys in *. rewrite map_app, <- app_assoc. exact Hnd.
Qed.

(** X21: in the figures either statistics function produces, the users
    come one per key of [user_stats], in its order, which is the order
    of the credential mapping when its names are distinct; a user's
    completed, uncompleted and uncompleted-overdue figures count the
    tasks under that user's name that are completed, that are not, and
    that are neither completed nor due after [now]; for every user
    completed + uncompleted = assigned and uncompleted-overdue <=
    uncompleted; and the assigned figures of all users add up to the
    total number of tasks. *)
Theorem user_counts_add_up :
  forall username_password task_data now figs,
    generate_reports_figures username_password task_data now = inr figs
    \/ display_stats_figures username_password task_data now = inr figs ->
    exists tasks,
      create_task_list task_data = inr tasks
      /\ map user (per_user (users_part figs))
         = dict_keys (initial_user_stats username_password)
      /\ (NoDup (dict_keys username_password) ->
          map user (per_user (users_part figs)) = dict_keys username_password)
      /\ Forall
           (fun f =>
              user_completed f
              = count (fun t => owned_by (user f) t && completed t) tasks
              /\ user_uncompleted f
                 = count (fun t => owned_by (user f) t && uncompleted t) tasks
              /\ user_uncompleted_overdue f
                 = count (fun t => owned_by (user f) t && overdue now t) tasks
              /\ user_completed f + user_uncompleted f = assigned f
              /\ user_uncompleted_overdue f <= user_uncompleted f)
           (per_user (users_part figs))
      /\ sum_over assigned (per_user (users_part figs))
         = total_tasks (tasks_part figs).
Proof.
  intros up data now figs H.
  assert (Hg : generate_reports_figures up data now = inr figs).
  { destruct H as [H|H]; [exact H|].
    pose proof (display_stats_figures_eq up data now) as Heq. congruence. }
  clear H. apply generate_reports_figures_inv in Hg.
  destruct Hg as (acc & Hpass & Ht & _ & _ & _ & _ & _ & _ & _ & Hu).
  destruct (generate_reports_pass_spec _ _ _ _ _ Hpass)
    as (tasks & Hl & Htl & _).
  cbn [task_list app] in Htl.
  pose proof (generate_reports_pass_keys _ _ _ _ _ Hpass) as Hkeys.
  cbn [user_stats] in Hkeys.
  assert (Hnd : NoDup (dict_keys (user_stats acc))).
  { rewrite Hkeys. apply initial_user_stats_nodup. }
  assert (Husers : map user (per_user (users_part figs))
                   = dict_keys (user_stats acc)).
  { clear - Hu. unfold dict_keys.
    induction Hu as [|item f items fs (Hf & _) _ IH]; [reflexivity|].
    cbn [map]. rewrite Hf, IH. reflexivity. }
  assert (Hentry : forall u s,
             In (u, s) (user_stats acc) -> s = counted now u tasks no_tasks).
  { intros u s Hin.
    pose proof (dict_get_in _ _ _ Hnd Hin) as Hget.
    rewrite (generate_reports_pass_user_stats _ _ _ _ _ _ Hpass Hl u) in Hget.
    cbn [user_stats] in Hget. rewrite initial_user_stats_get in Hget.
    destruct (dict_mem u up); cbn [option_map] in Hget; [|discriminate].
    inversion Hget. reflexivity. }
  assert (Hfig : Forall
            (fun f =>
               assigned f = count (owned_by (user f)) tasks
               /\ user_completed f
                  = count (fun t => owned_by (user f) t && completed t) tasks
               /\ user_uncompleted f
                  = count (fun t => owned_by (user f) t && uncompleted t) tasks
               /\ user_uncompleted_overdue f
                  = count (fun t => owned_by (user f) t && overdue now t) tasks)
            (per_user (users_part figs))).
  { eapply Forall2_Forall_right; [exact Hu|].
    intros [u s] f Hin (Huser & Ha & Hc & Hun & Ho & _).
    cbn [fst snd] in Huser, Ha, Hc, Hun, Ho.
    rewrite (Hentry u s Hin) in Ha, Hc, Hun, Ho.
    cbn [counted total_tasks_assigned total_tasks_completed
         total_tasks_uncompleted total_tasks_uncompleted_overdue no_tasks]
      in Ha, Hc, Hun, Ho.
    rewrite Huser, Ha, Hc, Hun, Ho.
    repeat split; unfold counted; cbn; lia. }
  assert (Hown : Forall (fun t => existsb (String.eqb (username t))
                                          (dict_keys (user_stats acc)) = true)
                        tasks).
  { pose proof (generate_reports_pass_outcome now data 1
                  (mktally [] 0 0 0 (initial_user_stats up)) tasks Hl) as Hp.
    cbn [user_stats] in Hp.
    destruct (find (unknown_owner (initial_user_stats up)) tasks) as [t|] eqn:Hf.
    - rewrite Hpass in Hp. discriminate.
    - apply Forall_forall. intros t Hin.
      pose proof (find_none _ _ Hf t Hin) as Hno.
      unfold unknown_owner in Hno. apply negb_false_iff in Hno.
      rewrite dict_mem_keys in Hno. rewrite Hkeys. exact Hno. }
  exists tasks. split; [exact Hl|].
  split; [rewrite Husers; exact Hkeys|].
  split.
  { intros Hup. rewrite Husers, Hkeys. unfold initial_user_stats.
    rewrite initial_user_stats_keys_from; [reflexivity | exact Hup]. }
  split.
  { eapply Forall_impl; [|exact Hfig].
    intros f (Ha & Hc & Hun & Ho).
    pose proof (count_owned_split (user f) tasks).
    pose proof (count_owned_overdue_le now (user f) tasks).
    repeat split; try assumption; lia. }
  rewrite (sum_over_ext assigned
             (fun f => count (owned_by (user f)) tasks))
    by (eapply Forall_impl; [|exact Hfig]; intros f (Ha & _); exact Ha).
  rewrite <- (sum_over_map user (fun u => count (owned_by u) tasks)).
  rewrite Husers, (sum_count_owned _ Hnd tasks Hown), Ht, Htl.
  reflexivity.
Qed.

(** The theorem for the sample file. *)
Lemma user_counts_add_up_witness :
  generate_reports_figures sample_users sample_task_data sample_clock
  = inr sample_statistics
  /\ exists tasks,
      create_task_list sample_task_data = inr tasks
      /\ map user (per_user (users_part sample_statistics))
         = dict_keys (initial_user_stats sample_users)
      /\ (NoDup (dict_keys sample_users) ->
          map user (per_user (users_part sample_statistics))
          = dict_keys sample_users)
      /\ Forall
           (fun f =>
              user_completed f
              = count (fun t => owned_by (user f) t && completed t) tasks
              /\ user_uncompleted f
                 = count (fun t => owned_by (user f) t && uncompleted t) tasks
              /\ user_uncompleted_overdue f
                 = count (fun t => owned_by (user f) t
                                   && overdue sample_clock t) tasks
              /\ user_completed f + user_uncompleted f = assigned f
              /\ user_uncompleted_overdue f <= user_uncompleted f)
           (per_user (users_part sample_statistics))
      /\ sum_over assigned (per_user (users_part sample_statistics))
         = total_tasks (tasks_part sample_statistics).
Proof.
  split; [vm_compute; reflexivity|].
  apply (user_counts_add_up sample_users sample_task_data sample_clock
                            sample_statistics).
  left. vm_compute. reflexivity.
Defined.

(** ** Runs of the session *)

Lemma bind_run {A B} (m : M A) (k : A -> M B) w a w1 :
  m w = (inr a, w1) -> bind m k w = k a w1.
Proof. intros H. unfold bind. rewrite H. reflexivity. Qed.

Lemma create_user_file_run w :
  create_user_file_if_not_found w
  = (inr tt, mkworld (Some (user_text_at_start w)) (tasks_txt w)
                     (stdin w) (stdout w) (clock w)).
Proof.
  unfold create_user_file_if_not_found, user_text_at_start.
  destruct w as [u t i o c]. destruct u; reflexivity.
Qed.

Lemma create_user_pass_dictionary_run w content users :
  user_txt w = Some content ->
  users_of_text content = inr users ->
  create_user_pass_dictionary w = (inr users, w).
Proof.
  intros Hfile Hparse. unfold create_user_pass_dictionary, bind.
  rewrite (read_users_file_run w content users Hfile Hparse). reflexivity.
Qed.

Lemma read_tasks_file_run w :
  read_tasks_file w
  = (inr (task_rows (tasks_txt w)),
     mkworld (user_txt w) (Some (tasks_at_start w))
             (stdin w) (stdout w) (clock w)).
Proof.
  unfold read_tasks_file, task_rows, tasks_at_start.
  destruct w as [u t i o c]. destruct t; reflexivity.
Qed.

Lemma initial_loggin_run user password w content username_password :
  user_txt w = Some content ->
  users_of_text content = inr username_password ->
  exists line,
    initial_loggin user password w
    = (inr (match dict_get user username_password with
            | Some stored => String.eqb stored password
            | None => false
            end),
       emit w line).
Proof.
  intros Hfile Hparse.
  unfold initial_loggin, bind at 1.
  rewrite (read_users_file_run w content username_password Hfile Hparse).
  unfold dict_mem, dict_item.
  destruct (dict_get user username_password) as [stored|].
  - rewrite bind_lift_ok.
    destruct (String.eqb stored password); rewrite bind_print;
      eexists; reflexivity.
  - rewrite bind_print. eexists. reflexivity.
Qed.

Section SessionRuns.

Variable tabulate : list (list string) -> list string -> string.

Lemma main_starts w users l :
  users_of_text (user_text_at_start w) = inr users ->
  create_task_list (task_rows (tasks_txt w)) = inr l ->
  main tabulate w
  = while_true (login_round tabulate)
               (mksession users l "" "") (started w).
Proof.
  intros Hu Hl. unfold main.
  rewrite (bind_run _ _ _ _ _ (create_user_file_run w)).
  erewrite bind_run
    by (apply (create_user_pass_dictionary_run _ (user_text_at_start w) users);
        [reflexivity | exact Hu]).
  rewrite (bind_run _ _ _ _ _ (read_tasks_file_run _)).
  cbn [tasks_txt user_txt stdin stdout clock].
  unfold bind at 1, lift. rewrite Hl.
  reflexivity.
Qed.

Lemma display_main_menu_run curr_user w :
  exists line, display_main_menu tabulate curr_user w = (inr tt, emit w line).
Proof.
  unfold display_main_menu.
  destruct (String.eqb curr_user "admin"); eexists; reflexivity.
Qed.

Lemma login_round_asks st w u p rest content users :
  String.eqb (user_option st) "e" = false ->
  stdin w = u :: p :: rest ->
  is_empty u = false -> is_empty p = false ->
  user_txt w = Some content ->
  users_of_text content = inr users ->
  exists line,
    login_round tabulate st w
    = (if match dict_get u users with
          | Some stored => String.eqb stored p
          | None => false
          end
       then
         (st' <- while_true (menu_round tabulate u) st ;; ret (inl st'))
           (login_prompted w p rest line)
       else
         (inr (inr tt),
          emit (login_prompted w p rest line)
               (red "Verify your data and try again."))).
Proof.
  intros Hopt Hin Hu Hp Husers Hparse.
  unfold login_round. rewrite Hopt.
  rewrite bind_print. cbv beta.
  rewrite bind_separate_line. cbv beta.
  rewrite bind_print. cbv beta.
  rewrite bind_separate_line. cbv beta.
  erewrite bind_input by (cbn [stdin emit]; exact Hin).
  cbv beta.
  erewrite bind_run by (apply validate_data_entry_returns_at_once; exact Hu).
  erewrite bind_input by (cbn [stdin consume]; reflexivity).
  cbv beta.
  erewrite bind_run by (apply validate_data_entry_returns_at_once; exact Hp).
  match goal with
  | |- context [bind (initial_loggin u p) _ ?W] =>
      destruct (initial_loggin_run u p W content users Husers Hparse)
        as [line Hrun];
        rewrite (bind_run _ _ _ _ _ Hrun)
  end.
  exists line.
  destruct (match dict_get u users with
            | Some stored => String.eqb stored p
            | None => false
            end); cbn [negb].
  - reflexivity.
  - rewrite bind_print. reflexivity.
Qed.

(** X22: a login that fails ends the program.  When [user.txt] (or the
    default written in its place) and [tasks.txt] can be read, and the
    first name and password typed are not an entry of the mapping read
    from [user.txt], [main] returns after the two prompts, having read
    those two lines only; its last line of output is "Verify your data
    and try again."; [user.txt] and [tasks.txt] hold what they held, or
    are created with the default administrator and empty. *)
Theorem failed_login_ends_the_program :
  forall w users l u p rest,
    users_of_text (user_text_at_start w) = inr users ->
    create_task_list (task_rows (tasks_txt w)) = inr l ->
    stdin w = u :: p :: rest ->
    is_empty u = false -> is_empty p = false ->
    dict_get u users <> Some p ->
    exists w' out,
      main tabulate w = (inr tt, w')
      /\ stdin w' = rest
      /\ user_txt w' = Some (user_text_at_start w)
      /\ tasks_txt w' = Some (tasks_at_start w)
      /\ stdout w'
         = (stdout w ++ out ++ [red "Verify your data and try again."])%list.
Proof.
  intros w users l u p rest Husers Hl Hin Hu Hp Hbad.
  rewrite (main_starts w users l Husers Hl).
  unfold while_true. cbn [stdin started]. rewrite Hin. cbn [length loop].
  destruct (login_round_asks (mksession users l "" "")
              (started w) u p rest (user_text_at_start w) users
              eq_refl Hin Hu Hp eq_refl Husers) as [line Hround].
  assert (Hno : match dict_get u users with
                | Some stored => String.eqb stored p
                | None => false
                end = false).
  { destruct (dict_get u users) as [stored|]; [|reflexivity].
    apply String.eqb_neq. intros ->. apply Hbad. reflexivity. }
  rewrite Hno in Hround.
  rewrite (bind_run _ _ _ _ _ Hround).
  eexists.
  exists [""; "*-*-*-*-*-*-*-*-*-*-*-*-*-*-*-*-*-*-*-*-*-*-*-*-*-*-*-*-*-*-";
          yellow "Please LOGIN";
          "*-*-*-*-*-*-*-*-*-*-*-*-*-*-*-*-*-*-*-*-*-*-*-*-*-*-*-*-*-*-";
          "Username: "; "Password: "; line].
  split; [reflexivity|].
  cbn. rewrite <- !app_assoc. auto.
Qed.

Lemma menu_round_exit curr_user st w key rest :
  stdin w = key :: rest ->
  lower key = "e" ->
  exists out,
    menu_round tabulate curr_user st w
    = (inr (inr (mksession (session_users st) (session_tasks st) "e"
                           (edit_specific_task st))),
       emit (consume (emit_all w out)
                     "Select an option from the main menu: " rest)
            (red "Goodbye!!!")).
Proof.
  intros Hin Hkey.
  assert (Hne : is_empty key = false).
  { destruct key; [discriminate Hkey | reflexivity]. }
  assert (Hshow : exists out,
             forall A (k : unit -> M A),
               bind (if negb (String.eqb (edit_specific_task st) "-1")
                     then display_main_menu tabulate curr_user else ret tt)
                    k w
               = k tt (emit_all w out)).
  { destruct (negb (String.eqb (edit_specific_task st) "-1")).
    - destruct (display_main_menu_run curr_user w) as [line Hline].
      exists [line]. intros A k. rewrite (bind_run _ _ _ _ _ Hline).
      reflexivity.
    - exists []. intros A k. reflexivity. }
  destruct Hshow as [out Hshow]. exists out.
  unfold menu_round. rewrite Hshow.
  destruct (emit_all_fields w out) as (_ & _ & Hstdin & _ & _).
  erewrite bind_input by (rewrite Hstdin; exact Hin).
  cbv beta.
  erewrite bind_run by (apply validate_data_entry_returns_at_once; exact Hne).
  cbv zeta. rewrite Hkey.
  change (String.eqb "e" "r") with false.
  change (String.eqb "e" "a") with false.
  change (String.eqb "e" "va") with false.
  change (String.eqb "e" "vm") with false.
  change (String.eqb "e" "gr") with false.
  change (String.eqb "e" "ds") with false.
  change (String.eqb "e" "e") with true.
  cbn [andb]. rewrite bind_print. reflexivity.
Qed.

(** X23: the option [e] ends the program.  When [user.txt] (or the
    default written in its place) and [tasks.txt] can be read, after a
    login that succeeds, the choice [e] at the main menu prints
    "Goodbye!!!" and [main] returns without asking for another login;
    nothing further is read, and the two files hold what they held, or
    are created with the default administrator and empty. *)
Theorem exit_ends_the_program :
  forall w users l u p key rest,
    users_of_text (user_text_at_start w) = inr users ->
    create_task_list (task_rows (tasks_txt w)) = inr l ->
    stdin w = u :: p :: key :: rest ->
    is_empty u = false -> is_empty p = false ->
    dict_get u users = Some p ->
    lower key = "e" ->
    exists w' out,
      main tabulate w = (inr tt, w')
      /\ stdin w' = rest
      /\ user_txt w' = Some (user_text_at_start w)
      /\ tasks_txt w' = Some (tasks_at_start w)
      /\ stdout w' = (stdout w ++ out ++ [red "Goodbye!!!"])%list.
Proof.
  intros w users l u p key rest Husers Hl Hin Hu Hp Hok Hkey.
  rewrite (main_starts w users l Husers Hl).
  unfold while_true at 1. cbn [stdin started]. rewrite Hin. cbn [length loop].
  destruct (login_round_asks (mksession users l "" "")
              (started w) u p (key :: rest) (user_text_at_start w) users
              eq_refl Hin Hu Hp eq_refl Husers) as [line Hround].
  rewrite Hok, String.eqb_refl in Hround.
  unfold bind at 1. rewrite Hround. clear Hround.
  unfold bind at 1. unfold while_true.
  cbn [stdin login_prompted emit consume length loop].
  destruct (menu_round_exit u (mksession users l "" "")
              (login_prompted (started w) p (key :: rest) line)
              key rest eq_refl Hkey) as [out Hmenu].
  unfold bind at 1.
  change (emit
            (consume
               (consume
                  (emit_all (started w)
                     [""; "*-*-*-*-*-*-*-*-*-*-*-*-*-*-*-*-*-*-*-*-*-*-*-*-*-*-*-*-*-*-";
                      yellow "Please LOGIN";
                      "*-*-*-*-*-*-*-*-*-*-*-*-*-*-*-*-*-*-*-*-*-*-*-*-*-*-*-*-*-*-"])
                  "Username: " (p :: key :: rest))
               "Password: " (key :: rest))
            line)
    with (login_prompted (started w) p (key :: rest) line).
  rewrite Hmenu. cbn [ret session_users session_tasks edit_specific_task].
  unfold login_round at 1. cbn [user_option].
  change (String.eqb "e" "e") with true. cbv iota.
  unfold ret.
  destruct (emit_all_fields (login_prompted (started w) p (key :: rest) line) out)
    as (H1 & H2 & H3 & H4 & H5).
  eexists.
  exists ([""; "*-*-*-*-*-*-*-*-*-*-*-*-*-*-*-*-*-*-*-*-*-*-*-*-*-*-*-*-*-*-";
           yellow "Please LOGIN";
           "*-*-*-*-*-*-*-*-*-*-*-*-*-*-*-*-*-*-*-*-*-*-*-*-*-*-*-*-*-*-";
           "Username: "; "Password: "; line]
          ++ out ++ ["Select an option from the main menu: "])%list.
  split; [reflexivity|].
  cbn [stdin user_txt tasks_txt stdout emit consume].
  rewrite H1, H2, H5.
  cbn [stdin user_txt tasks_txt stdout emit consume login_prompted emit_all
       started].
  rewrite <- !app_assoc. cbn [app]. auto.
Qed.

End SessionRuns.

Lemma write_new_task_to_tasks_file_run l x w :
  exists line,
    write_new_task_to_tasks_file (l ++ [x]) w
    = (inr tt,
       emit (mkworld (user_txt w)
                     (Some (fst (write_tasks_from 1 (l ++ [x]) None)))
                     (stdin w) (stdout w) (clock w))
            line).
Proof.
  assert (Hcons : exists t rest, (l ++ [x])%list = t :: rest).
  { destruct l as [|t rest]; eexists; eexists; reflexivity. }
  destruct Hcons as (t & rest & Hcons). rewrite Hcons.
  unfold write_new_task_to_tasks_file.
  destruct (write_tasks_from_last_cons 1 t rest None) as [k Hk].
  destruct (write_tasks_from 1 (t :: rest) None) as [text last].
  cbn [snd] in Hk. subst last.
  eexists. reflexivity.
Qed.

Section MenuRounds.

Variable tabulate : list (list string) -> list string -> string.

Lemma main_menu_shown curr_user st w :
  exists out,
    forall A (k : unit -> M A),
      bind (if negb (String.eqb (edit_specific_task st) "-1")
            then display_main_menu tabulate curr_user else ret tt)
           k w
      = k tt (emit_all w out).
Proof.
  destruct (negb (String.eqb (edit_specific_task st) "-1")).
  - destruct (display_main_menu_run tabulate curr_user w) as [line Hline].
    exists [line]. intros A k. rewrite (bind_run _ _ _ _ _ Hline).
    reflexivity.
  - exists []. intros A k. reflexivity.
Qed.

(** X24: an option the menu does not know is refused, and so are [gr]
    and [ds] for every user but "admin": the round prints "Invalid
    option.", reads nothing but the option, writes no file, and leaves
    the session as it was but for the option recorded. *)
Theorem unknown_option_is_refused :
  forall curr_user st w key rest,
    stdin w = key :: rest ->
    is_empty key = false ->
    existsb (String.eqb (lower key)) ["r"; "a"; "va"; "vm"; "e"] = false ->
    String.eqb curr_user "admin" = false
    \/ existsb (String.eqb (lower key)) ["gr"; "ds"] = false ->
    exists w' out,
      menu_round tabulate curr_user st w
      = (inr (inl (mksession (session_users st) (session_tasks st)
                             (lower key) (edit_specific_task st))),
         w')
      /\ stdin w' = rest
      /\ user_txt w' = user_txt w
      /\ tasks_txt w' = tasks_txt w
      /\ stdout w' = (stdout w ++ out ++ [red "Invalid option."])%list.
Proof.
  intros curr_user st w key rest Hin Hne Hnone Hstats.
  destruct (main_menu_shown curr_user st w) as [out Hshow].
  unfold menu_round. rewrite Hshow.
  destruct (emit_all_fields w out) as (H1 & H2 & H3 & _ & H5).
  erewrite bind_input by (rewrite H3; exact Hin).
  cbv beta.
  erewrite bind_run by (apply validate_data_entry_returns_at_once; exact Hne).
  cbv zeta.
  cbn [existsb] in Hnone.
  rewrite !orb_false_iff in Hnone.
  destruct Hnone as (Hr & Ha & Hva & Hvm & He & _).
  rewrite Hr, Ha, Hva, Hvm, He.
  assert (Hgr : String.eqb (lower key) "gr" && String.eqb curr_user "admin"
                = false).
  { destruct Hstats as [Hadmin|Hk]; [rewrite Hadmin; apply andb_false_r|].
    cbn [existsb] in Hk. rewrite !orb_false_iff in Hk.
    destruct Hk as (Hk & _). rewrite Hk. reflexivity. }
  assert (Hds : String.eqb (lower key) "ds" && String.eqb curr_user "admin"
                = false).
  { destruct Hstats as [Hadmin|Hk]; [rewrite Hadmin; apply andb_false_r|].
    cbn [existsb] in Hk. rewrite !orb_false_iff in Hk.
    destruct Hk as (_ & Hk & _). rewrite Hk. reflexivity. }
  rewrite Hgr, Hds.
  rewrite bind_print. unfold ret.
  eexists. exists (out ++ ["Select an option from the main menu: "])%list.
  split; [reflexivity|].
  cbn [stdin user_txt tasks_txt stdout emit consume].
  rewrite H1, H2, H5, <- !app_assoc. auto.
Qed.

(** X25: the option [a], answered with a registered name, a title, a
    description and a due date, appends one open task, numbered one past
    the length of the list the session holds, assigned today, and
    rewrites [tasks.txt] from that list: the text written is the one of
    the session's list with the new task, whatever [tasks.txt] held. *)
Theorem add_round_writes_the_session_list :
  forall curr_user st w key name new_title new_description text d rest,
    stdin w = key :: name :: new_title :: new_description :: text :: rest ->
    lower key = "a" ->
    dict_mem name (session_users st) = true ->
    is_empty new_title = false -> is_empty new_description = false ->
    strptime text = inr d ->
    exists w',
      menu_round tabulate curr_user st w
      = (inr (inl (mksession
                     (session_users st)
                     (session_tasks st
                      ++ [mktask (Z.of_nat (length (session_tasks st)) + 1)
                                 name new_title new_description d
                                 (dt_date (clock w)) false None])%list
                     "a" (edit_specific_task st))),
         w')
      /\ tasks_txt w'
         = Some (fst (write_tasks_from
                        1
                        (session_tasks st
                         ++ [mktask (Z.of_nat (length (session_tasks st)) + 1)
                                    name new_title new_description d
                                    (dt_date (clock w)) false None])%list
                        None))
      /\ user_txt w' = user_txt w
      /\ stdin w' = rest.
Proof.
  intros curr_user st w key name ti de text d rest
         Hin Hkey Hname Hti Hde Hd.
  assert (Hne : is_empty key = false).
  { destruct key; [discriminate Hkey | reflexivity]. }
  destruct (main_menu_shown curr_user st w) as [out Hshow].
  unfold menu_round. rewrite Hshow.
  destruct (emit_all_fields w out) as (H1 & H2 & H3 & H4 & H5).
  erewrite bind_input by (rewrite H3; exact Hin).
  cbv beta.
  erewrite bind_run by (apply validate_data_entry_returns_at_once; exact Hne).
  cbv zeta. rewrite Hkey.
  change (String.eqb "a" "r") with false.
  change (String.eqb "a" "a") with true. cbv iota.
  erewrite bind_input by (cbn [stdin consume]; reflexivity).
  cbv beta.
  erewrite bind_run
    by (apply validate_if_username_registered_at_once; exact Hname).
  erewrite bind_input by (cbn [stdin consume]; reflexivity).
  cbv beta.
  erewrite bind_run by (apply validate_data_entry_returns_at_once; exact Hti).
  erewrite bind_input by (cbn [stdin consume]; reflexivity).
  cbv beta.
  erewrite bind_run by (apply validate_data_entry_returns_at_once; exact Hde).
  erewrite bind_run
    by (apply (validate_due_date_input_accepts _ text rest d);
        [cbn [stdin consume]; reflexivity | exact Hd]).
  rewrite bind_today. cbv beta zeta.
  unfold add_new_task_to_task_list.
  match goal with
  | |- context [bind (write_new_task_to_tasks_file (?l ++ [?x])%list) _ ?W] =>
      destruct (write_new_task_to_tasks_file_run l x W) as [line Hrun];
        rewrite (bind_run _ _ _ _ _ Hrun)
  end.
  unfold ret. cbn [clock consume emit].
  rewrite H4.
  eexists. split; [reflexivity|].
  cbn [stdin user_txt tasks_txt stdout emit consume].
  rewrite H1. auto.
Qed.

End MenuRounds.

(** The theorem for the sample files and a name that is not
    registered. *)
Lemma failed_login_ends_the_program_witness :
  dict_get "mallory" sample_users = None
  /\ exists w' out,
      main no_menu (sample_world ["mallory"; "guess"; "vm"]) = (inr tt, w')
      /\ stdin w' = ["vm"]
      /\ user_txt w' = Some sample_user_txt
      /\ tasks_txt w' = Some sample_tasks_txt
      /\ stdout w' = (out ++ [red "Verify your data and try again."])%list.
Proof.
  split; [reflexivity|].
  apply (failed_login_ends_the_program
           no_menu (sample_world ["mallory"; "guess"; "vm"])
           sample_users sample_tasks "mallory" "guess" ["vm"]).
  - vm_compute. reflexivity.
  - vm_compute. reflexivity.
  - reflexivity.
  - reflexivity.
  - reflexivity.
  - discriminate.
Defined.

(** The theorem for the sample files and the user "alice". *)
Lemma exit_ends_the_program_witness :
  dict_get "alice" sample_users = Some "secret"
  /\ exists w' out,
      main no_menu (sample_world ["alice"; "secret"; "E"; "alice"])
      = (inr tt, w')
      /\ stdin w' = ["alice"]
      /\ user_txt w' = Some sample_user_txt
      /\ tasks_txt w' = Some sample_tasks_txt
      /\ stdout w' = (out ++ [red "Goodbye!!!"])%list.
Proof.
  split; [reflexivity|].
  apply (exit_ends_the_program
           no_menu (sample_world ["alice"; "secret"; "E"; "alice"])
           sample_users sample_tasks "alice" "secret" "E" ["alice"]).
  - vm_compute. reflexivity.
  - vm_compute. reflexivity.
  - reflexivity.
  - reflexivity.
  - reflexivity.
  - reflexivity.
  - reflexivity.
Defined.

(** The theorem for "alice" asking for the reports. *)
Lemma unknown_option_is_refused_witness :
  String.eqb "alice" "admin" = false
  /\ exists w' out,
      menu_round no_menu "alice" (mksession sample_users sample_tasks "" "")
                 (sample_world ["GR"; "e"])
      = (inr (inl (mksession sample_users sample_tasks "gr" "")), w')
      /\ stdin w' = ["e"]
      /\ user_txt w' = Some sample_user_txt
      /\ tasks_txt w' = Some sample_tasks_txt
      /\ stdout w' = (out ++ [red "Invalid option."])%list.
Proof.
  split; [reflexivity|].
  apply (unknown_option_is_refused
           no_menu "alice" (mksession sample_users sample_tasks "" "")
           (sample_world ["GR"; "e"]) "GR" ["e"]).
  - reflexivity.
  - reflexivity.
  - reflexivity.
  - left. reflexivity.
Defined.

(** The theorem for a session that holds one task while [tasks.txt]
    holds three: the file is left with two lines. *)
Lemma add_round_writes_the_session_list_witness :
  strptime "05-06-2100" = inr (mkdate 2100 6 5)
  /\ exists w',
      menu_round no_menu "alice"
                 (mksession sample_users [sample_open_task] "" "")
                 (sample_world ["A"; "bob"; "Tidy"; "the shelf";
                                "05-06-2100"; "e"])
      = (inr (inl (mksession
                     sample_users
                     [sample_open_task;
                      mktask 2 "bob" "Tidy" "the shelf" (mkdate 2100 6 5)
                             (mkdate 2024 6 15) false None]
                     "a" "")),
         w')
      /\ tasks_txt w'
         = Some ("1;alice;Fix bug;desc;31-12-2099;01-01-2024;No" ++ NL
                 ++ "2;bob;Tidy;the shelf;05-06-2100;15-06-2024;No" ++ NL)%string
      /\ user_txt w' = Some sample_user_txt
      /\ stdin w' = ["e"].
Proof.
  split; [reflexivity|].
  apply (add_round_writes_the_session_list
           no_menu "alice" (mksession sample_users [sample_open_task] "" "")
           (sample_world ["A"; "bob"; "Tidy"; "the shelf"; "05-06-2100"; "e"])
           "A" "bob" "Tidy" "the shelf" "05-06-2100" (mkdate 2100 6 5) ["e"]).
  - reflexivity.
  - reflexivity.
  - reflexivity.
  - reflexivity.
  - reflexivity.
  - reflexivity.
Defined.

Section MenuRoundsOnTasks.

Variable tabulate : list (list string) -> list string -> string.

Lemma view_all_tasks_option_run l w :
  exists out, view_all_tasks_option l w = (inr tt, emit_all w out).
Proof.
  unfold view_all_tasks_option.
  destruct l as [|task rest].
  - exists ["*-*-*-*-*-*-*-*-*-*-*-*-*-*-*-*-*-*-*-*-*-*-*-*-*-*-*-*-*-*-";
            red "No tasks available.";
            "*-*-*-*-*-*-*-*-*-*-*-*-*-*-*-*-*-*-*-*-*-*-*-*-*-*-*-*-*-*-"].
    reflexivity.
  - rewrite bind_separate_line. cbv beta.
    rewrite bind_print. cbv beta.
    rewrite bind_separate_line. cbv beta.
    match goal with
    | |- context [view_all_tasks_loop ?l0 ?W] =>
        destruct (view_all_tasks_loop_prints l0 W) as (out & Hrun & _);
          rewrite Hrun
    end.
    exists (["*-*-*-*-*-*-*-*-*-*-*-*-*-*-*-*-*-*-*-*-*-*-*-*-*-*-*-*-*-*-";
             yellow "All Tasks:";
             "*-*-*-*-*-*-*-*-*-*-*-*-*-*-*-*-*-*-*-*-*-*-*-*-*-*-*-*-*-*-"]
            ++ out)%list.
    rewrite emit_all_app. reflexivity.
Qed.

(** X26: the option [va] reads [tasks.txt] again and makes the list it
    holds the list of the session, in place of the one the session had;
    it reads nothing but the option and changes no file, except that a
    missing [tasks.txt] is created empty. *)
Theorem view_all_round_reloads_the_list :
  forall curr_user st w key rest l,
    stdin w = key :: rest ->
    lower key = "va" ->
    create_task_list (task_rows (tasks_txt w)) = inr l ->
    exists w',
      menu_round tabulate curr_user st w
      = (inr (inl (mksession (session_users st) l "va"
                             (edit_specific_task st))),
         w')
      /\ stdin w' = rest
      /\ user_txt w' = user_txt w
      /\ tasks_txt w' = Some (tasks_at_start w).
Proof.
  intros curr_user st w key rest l Hin Hkey Hl.
  assert (Hne : is_empty key = false).
  { destruct key; [discriminate Hkey | reflexivity]. }
  destruct (main_menu_shown tabulate curr_user st w) as [out Hshow].
  unfold menu_round. rewrite Hshow.
  destruct (emit_all_fields w out) as (H1 & H2 & H3 & H4 & H5).
  erewrite bind_input by (rewrite H3; exact Hin).
  cbv beta.
  erewrite bind_run by (apply validate_data_entry_returns_at_once; exact Hne).
  cbv zeta. rewrite Hkey.
  change (String.eqb "va" "r") with false.
  change (String.eqb "va" "a") with false.
  change (String.eqb "va" "va") with true. cbv iota.
  rewrite (bind_run _ _ _ _ _ (read_tasks_file_run _)).
  cbn [tasks_txt user_txt stdin stdout clock consume].
  rewrite H2. unfold bind at 1, lift. rewrite Hl.
  match goal with
  | |- context [bind (view_all_tasks_option l) _ ?W] =>
      destruct (view_all_tasks_option_run l W) as [shown Hrun];
        rewrite (bind_run _ _ _ _ _ Hrun)
  end.
  unfold ret. eexists. split; [reflexivity|].
  match goal with
  | |- context [emit_all ?W shown] =>
      destruct (emit_all_fields W shown) as (G1 & G2 & G3 & _ & _)
  end.
  rewrite G1, G2, G3. cbn [stdin user_txt tasks_txt].
  unfold tasks_at_start. cbn [tasks_txt consume].
  rewrite H1, H2. auto.
Qed.


End MenuRoundsOnTasks.

(** The theorem for the sample files and a session that holds no
    task. *)
Lemma view_all_round_reloads_the_list_witness :
  create_task_list (task_rows (Some sample_tasks_txt)) = inr sample_tasks
  /\ exists w',
      menu_round no_menu "alice" (mksession sample_users [] "" "")
                 (sample_world ["VA"; "e"])
      = (inr (inl (mksession sample_users sample_tasks "va" "")), w')
      /\ stdin w' = ["e"]
      /\ user_txt w' = Some sample_user_txt
      /\ tasks_txt w' = Some sample_tasks_txt.
Proof.
  split; [vm_compute; reflexivity|].
  apply (view_all_round_reloads_the_list
           no_menu "alice" (mksession sample_users [] "" "")
           (sample_world ["VA"; "e"]) "VA" ["e"] sample_tasks).
  - reflexivity.
  - reflexivity.
  - vm_compute. reflexivity.
Defined.

